(** * YogaFlow backend: the progress streak computation

    A shallow embedding of the streak / first-of-month arithmetic that the
    routes module carries twice, once inside [POST /api/progress] and once
    inside [GET /api/progress/stats/:userId], together with the part of the
    JavaScript [Date], [Math] and [Array] built-ins those handlers call.

    Part I, the program:
    - [JS]            the built-ins: time values, calendar fields,
                      [Math.round] of a day quotient, the ISO date-time
                      string format, [sort] with a comparator;
    - [Schema]        the [user_progress] row;
    - [PostProgress]  the computation inside [POST /api/progress];
    - [ProgressStats] the computation inside [GET /api/progress/stats/:userId].

    Part II, the vocabulary of the properties: the two walks by recursion
    on the array ([Walks]), the events that parse ([Stats]), calendar days
    ([Calendar]), runs of consecutive days ([Runs]), events within one
    half-day window ([Aligned]) and the fixtures of the scenarios
    ([Scenario]).

    Part III, lemmas; Part IV, the properties.

    Around that computation the development embeds the code it runs in:
    numbers and dates as text ([JSText]), the in-memory store ([JSMap],
    [Storage]), the handler of [POST /api/progress] on the store
    ([PostHandler]), the mailer's notification functions ([Mailer]), the
    daily reminder job and the reminders endpoint ([Scheduler],
    [Reminders]), the Mongo connection holder ([MongoConn]), the port
    retry of the start-up ([Server]) and registration and login ([Auth]).
    Part V holds their properties. *)

From Stdlib Require Import ZArith Lia Ascii String.
From stdpp Require Import base option numbers list strings sorting.

Local Open Scope Z_scope.

(* ===================================================================== *)
(** * Part I. The program *)
(* ===================================================================== *)

(** ** The JavaScript built-ins used by the handlers *)

Module JS.

(** A [Date] object is its time value: milliseconds since the epoch, or NaN
    for an Invalid Date. [None] stands for NaN. *)
Definition Date := option Z.

(** [d.getTime()]. *)
Definition getTime (d : Date) : option Z := d.

(** [isNaN(d.getTime())]. *)
Definition isInvalid (d : Date) : bool :=
  match getTime d with Some _ => false | None => true end.

(** *** Day number and time within day (ECMA-262, 21.4.1.3) *)

Definition msPerDay : Z := 86400000.
Definition msPerHour : Z := 3600000.
Definition msPerMinute : Z := 60000.
Definition msPerSecond : Z := 1000.

Definition Day (t : Z) : Z := t / msPerDay.
Definition TimeWithinDay (t : Z) : Z := t mod msPerDay.

(** *** Years (ECMA-262, 21.4.1.4 to 21.4.1.9) *)

Definition DaysInYear (y : Z) : Z :=
  if negb (y mod 4 =? 0) then 365
  else if negb (y mod 100 =? 0) then 366
  else if negb (y mod 400 =? 0) then 365
  else 366.

Definition DayFromYear (y : Z) : Z :=
  365 * (y - 1970) + (y - 1969) / 4 - (y - 1901) / 100 + (y - 1601) / 400.

Definition TimeFromYear (y : Z) : Z := msPerDay * DayFromYear y.

(** The largest [y] with [DayFromYear y <= d]: the mean Gregorian year has
    146097/400 days, which places the estimate within one year of the
    answer; see [YearFromDay_spec]. *)
Definition YearFromDay (d : Z) : Z :=
  let y0 := 1970 + (400 * d) / 146097 in
  if d <? DayFromYear y0 then y0 - 1
  else if DayFromYear (y0 + 1) <=? d then y0 + 1
  else y0.

Definition YearFromTime (t : Z) : Z := YearFromDay (Day t).

Definition InLeapYear (t : Z) : Z :=
  if DaysInYear (YearFromTime t) =? 366 then 1 else 0.

Definition DayWithinYear (t : Z) : Z := Day t - DayFromYear (YearFromTime t).

(** *** Month and date (ECMA-262, 21.4.1.10 to 21.4.1.12) *)

(** Day within the year on which month [m] (0 = January) starts. *)
Definition monthStart (m leap : Z) : Z :=
  if m =? 0 then 0
  else if m =? 1 then 31
  else if m =? 2 then 59 + leap
  else if m =? 3 then 90 + leap
  else if m =? 4 then 120 + leap
  else if m =? 5 then 151 + leap
  else if m =? 6 then 181 + leap
  else if m =? 7 then 212 + leap
  else if m =? 8 then 243 + leap
  else if m =? 9 then 273 + leap
  else if m =? 10 then 304 + leap
  else 334 + leap.

Definition MonthFromTime (t : Z) : Z :=
  let d := DayWithinYear t in
  let leap := InLeapYear t in
  if d <? 31 then 0
  else if d <? 59 + leap then 1
  else if d <? 90 + leap then 2
  else if d <? 120 + leap then 3
  else if d <? 151 + leap then 4
  else if d <? 181 + leap then 5
  else if d <? 212 + leap then 6
  else if d <? 243 + leap then 7
  else if d <? 273 + leap then 8
  else if d <? 304 + leap then 9
  else if d <? 334 + leap then 10
  else 11.

Definition DateFromTime (t : Z) : Z :=
  DayWithinYear t - monthStart (MonthFromTime t) (InLeapYear t) + 1.

(** *** Local time (ECMA-262, 21.4.1.25)

    The host's time zone is a function from a UTC time value to the offset
    of local time at that instant. *)
Definition TimeZone := Z -> Z.

Definition utc : TimeZone := fun _ => 0.

Definition LocalTime (tz : TimeZone) (t : Z) : Z := t + tz t.

(** [d.getFullYear()], [d.getMonth()], [d.getDate()] on a valid date. *)
Definition getFullYear (tz : TimeZone) (t : Z) : Z := YearFromTime (LocalTime tz t).
Definition getMonth (tz : TimeZone) (t : Z) : Z := MonthFromTime (LocalTime tz t).
Definition getDate (tz : TimeZone) (t : Z) : Z := DateFromTime (LocalTime tz t).

(** *** [Math.round(ms / (1000 * 60 * 60 * 24))]

    [Math.round] returns the integer nearest to its argument, a tie going
    up. The handlers apply it to a difference of two time values divided by
    the length of a day and compare the result with 0 and with 1 only.
    The quotient is a double. 1/2 and 3/2 are doubles, rounding to nearest
    is monotone, and a quotient of an integer by [msPerDay] that is not
    itself 1/2 or 3/2 stays more than [1 / msPerDay] away from them, far
    beyond the precision of a double near 1: so the double lies in
    [1/2, 3/2) exactly when the real quotient does, and in [-1/2, 1/2)
    (where the result is a zero, and [-0 === 0]) likewise. A difference
    beyond 2^53, where the subtraction itself rounds, is far from both.
    On integers the rounded quotient is the floor of
    [(2 * ms + msPerDay) / (2 * msPerDay)]. *)
Definition roundDays (ms : Z) : Z := (2 * ms + msPerDay) / (2 * msPerDay).

(** *** The date-time string format (ECMA-262, 21.4.1.32)

    [Date.parse] on the two shapes the application stores and the spec's
    scenarios use: the date-only form [YYYY-MM-DD], which is UTC midnight,
    and the form [toISOString] prints, [YYYY-MM-DDTHH:mm:ss.sssZ], with
    the hour in 00..23 and the date one of the calendar. Any other string
    is taken as unrecognised and gives NaN; an engine reads more than
    that (a day of the month past the end of the month, the hour 24, a
    time without milliseconds, years of six digits), and on such strings
    [parse] does not stand for it. The properties that hold for every
    parser take [DateParse] as a parameter; [parse] itself is evaluated
    only on strings of the two shapes and on text that is no date at
    all. *)

Definition digit (c : ascii) : option Z :=
  let n := Z.of_nat (nat_of_ascii c) - 48 in
  if (0 <=? n) && (n <=? 9) then Some n else None.

Fixpoint digits (acc : Z) (cs : list ascii) : option Z :=
  match cs with
  | [] => Some acc
  | c :: cs' => n ← digit c; digits (10 * acc + n) cs'
  end.

(** The number written in the [len] characters of [s] from [pos]. *)
Definition field (s : string) (pos len : nat) : option Z :=
  let cs := list_ascii_of_string (String.substring pos len s) in
  if decide (length cs = len) then digits 0 cs else None.

Definition charAt (s : string) (pos : nat) (c : ascii) : bool :=
  match String.get pos s with
  | Some c' => bool_decide (c' = c)
  | None => false
  end.

Definition DaysInMonth (y m : Z) : Z :=
  let leap := if DaysInYear y =? 366 then 1 else 0 in
  if m =? 11 then 31 else monthStart (m + 1) leap - monthStart m leap.

(** [MakeDay] for a month in 0..11 and [MakeDate]. *)
Definition MakeDay (y m d : Z) : Z :=
  let leap := if DaysInYear y =? 366 then 1 else 0 in
  DayFromYear y + monthStart m leap + d - 1.

Definition MakeTime (h mi s ms : Z) : Z :=
  h * msPerHour + mi * msPerMinute + s * msPerSecond + ms.

Definition MakeDate (day time : Z) : Z := day * msPerDay + time.

Definition parseYMD (s : string) : option Z :=
  y ← field s 0 4;
  m ← field s 5 2;
  d ← field s 8 2;
  if charAt s 4 "-"%char && charAt s 7 "-"%char
     && (1 <=? m) && (m <=? 12) && (1 <=? d) && (d <=? DaysInMonth y (m - 1))
  then Some (MakeDay y (m - 1) d)
  else None.

Definition parseHMS (s : string) : option Z :=
  h ← field s 11 2;
  mi ← field s 14 2;
  sec ← field s 17 2;
  ms ← field s 20 3;
  if charAt s 10 "T"%char && charAt s 13 ":"%char && charAt s 16 ":"%char
     && charAt s 19 "."%char
     && charAt s 23 "Z"%char
     && (h <=? 23) && (mi <=? 59) && (sec <=? 59)
  then Some (MakeTime h mi sec ms)
  else None.

Definition parse (s : string) : Date :=
  if decide (String.length s = 10%nat) then
    day ← parseYMD s; Some (MakeDate day 0)
  else if decide (String.length s = 24%nat) then
    day ← parseYMD s; time ← parseHMS s; Some (MakeDate day time)
  else None.

(** *** [Array.prototype.sort] with a comparator

    On time values: [a] may stay before [b] when [compareFn a b <= 0]. For a
    consistent comparator every conforming sort returns the same sequence
    of time values; a merge sort stands for it. *)
Definition sortRel (compareFn : Z -> Z -> Z) : relation Z :=
  fun a b => compareFn a b <= 0.

#[global] Instance sortRel_dec compareFn a b : Decision (sortRel compareFn a b).
Proof. unfold sortRel. apply _. Defined.

Definition sort (compareFn : Z -> Z -> Z) (a : list Z) : list Z :=
  merge_sort (sortRel compareFn) a.

End JS.

(** ** The [user_progress] row *)

Module Schema.

(** [typeof userProgress.$inferSelect], without the [completedPoses] JSON
    payload, which no computation here reads. [completedAt] is a nullable
    text column. *)
Record UserProgress := mkUserProgress {
  id : string;
  userId : option string;
  routineId : option string;
  completedAt : option string;
  duration : Z;
  rating : option Z
}.

End Schema.

(** ** [POST /api/progress]: streak and first-of-month *)

Module PostProgress.
Import Schema.

Section Handler.
(** The host: its time zone and its [Date.parse]. *)
Variable tz : JS.TimeZone.
Variable DateParse : string -> JS.Date.

(** [new Date(p.completedAt ?? "")]. *)
Definition newDate (p : UserProgress) : JS.Date :=
  DateParse (default EmptyString (completedAt p)).

(** [allProgress.map(..).filter((d) => !isNaN(d.getTime())).sort((a, b) =>
    a.getTime() - b.getTime())], the surviving dates as time values. *)
Definition dates (allProgress : list UserProgress) : list Z :=
  JS.sort (fun a b => a - b)
    (omap JS.getTime
       (filter (fun d => JS.isInvalid d = false) (newDate <$> allProgress))).

(** The [for (let i = dates.length - 1; i > 0; i--)] loop, entered at [i]
    with the counter at [streak]. Reading past the array gives
    [undefined], on which [getTime] throws: [None]. *)
Fixpoint streakLoop (dates : list Z) (i : nat) (streak : Z) : option Z :=
  match i with
  | O => Some streak
  | S j =>
      di ← dates !! i;
      dj ← dates !! j;
      let diffDays := JS.roundDays (di - dj) in
      if diffDays =? 1 then streakLoop dates j (streak + 1)
      else if diffDays =? 0 then streakLoop dates j streak
      else Some streak
  end.

Definition streak (dates : list Z) : option Z :=
  if decide (length dates = 0%nat) then Some 0
  else streakLoop dates (length dates - 1) 1.

Definition isSameDay (a b : Z) : bool :=
  (JS.getFullYear tz a =? JS.getFullYear tz b)
  && (JS.getMonth tz a =? JS.getMonth tz b)
  && (JS.getDate tz a =? JS.getDate tz b).

Definition isFirstOfMonth (dates : list Z) (now : Z) : bool :=
  let currentMonth := JS.getMonth tz now in
  let currentYear := JS.getFullYear tz now in
  let monthDates :=
    filter (fun d => JS.getMonth tz d = currentMonth
                     /\ JS.getFullYear tz d = currentYear) dates in
  match monthDates !! 0%nat with
  | Some firstOfMonth => isSameDay firstOfMonth now
  | None => false
  end.

(** What the handler adds to the stored row in its response. *)
Record Reply := mkReply { replyStreak : Z; replyIsFirstOfMonth : bool }.

Definition compute (allProgress : list UserProgress) (now : Z) : option Reply :=
  let ds := dates allProgress in
  s ← streak ds;
  Some (mkReply s (isFirstOfMonth ds now)).

End Handler.
End PostProgress.

(** ** [GET /api/progress/stats/:userId] *)

Module ProgressStats.
Import Schema.

(** The body of the JSON answer. *)
Record StreakResult := mkStreakResult {
  currentStreak : Z;
  longestStreak : Z;
  isFirstOfMonth : bool
}.

(** The HTTP answer: a JSON body with status 200, or the 500 of the
    [catch] block and of the missing database. *)
Inductive Response :=
| Json (body : StreakResult)
| Failed (status : Z).

Section Handler.
Variable tz : JS.TimeZone.
Variable DateParse : string -> JS.Date.

Definition newDate (p : UserProgress) : JS.Date :=
  DateParse (default EmptyString (completedAt p)).

Definition dates (progressDocs : list UserProgress) : list Z :=
  JS.sort (fun a b => a - b)
    (omap JS.getTime
       (filter (fun d => JS.isInvalid d = false) (newDate <$> progressDocs))).

(** Compute current streak. *)
Fixpoint currentLoop (dates : list Z) (i : nat) (currentStreak : Z) : option Z :=
  match i with
  | O => Some currentStreak
  | S j =>
      di ← dates !! i;
      dj ← dates !! j;
      let diffDays := JS.roundDays (di - dj) in
      if diffDays =? 1 then currentLoop dates j (currentStreak + 1)
      else if diffDays =? 0 then currentLoop dates j currentStreak
      else Some currentStreak
  end.

Definition computeCurrent (dates : list Z) : option Z :=
  if decide (length dates = 0%nat) then Some 0
  else currentLoop dates (length dates - 1) 1.

(** Compute longest streak: one turn of the [for (let i = 0; ...)] loop on
    the state [(longestStreak, run)]. *)
Definition longestStep (dates : list Z) (i : nat) (st : Z * Z) : option (Z * Z) :=
  let '(longestStreak, run) := st in
  match i with
  | O => Some (longestStreak, 1)
  | S j =>
      di ← dates !! i;
      dj ← dates !! j;
      let diff := JS.roundDays (di - dj) in
      if diff =? 1 then Some (longestStreak, run + 1)
      else if diff =? 0 then Some (longestStreak, run)
      else Some (Z.max longestStreak run, 1)
  end.

(** [n] turns from index [i]. *)
Fixpoint longestLoop (dates : list Z) (n i : nat) (st : Z * Z) : option (Z * Z) :=
  match n with
  | O => Some st
  | S n' => st' ← longestStep dates i st; longestLoop dates n' (S i) st'
  end.

Definition computeLongest (dates : list Z) : option Z :=
  st ← longestLoop dates (length dates) 0 (0, 0);
  Some (Z.max (fst st) (snd st)).

Definition isSameDay (a b : Z) : bool :=
  (JS.getFullYear tz a =? JS.getFullYear tz b)
  && (JS.getMonth tz a =? JS.getMonth tz b)
  && (JS.getDate tz a =? JS.getDate tz b).

Definition computeIsFirstOfMonth (dates : list Z) (now : Z) : bool :=
  let currentMonth := JS.getMonth tz now in
  let currentYear := JS.getFullYear tz now in
  let monthDates :=
    filter (fun d => JS.getMonth tz d = currentMonth
                     /\ JS.getFullYear tz d = currentYear) dates in
  match monthDates !! 0%nat with
  | Some firstOfMonth => isSameDay firstOfMonth now
  | None => false
  end.

(** The [try] block once the documents are fetched; [None] is a thrown
    exception. *)
Definition computeStreaks (progressDocs : list UserProgress) (now : Z)
  : option StreakResult :=
  let ds := dates progressDocs in
  c ← computeCurrent ds;
  l ← computeLongest ds;
  Some (mkStreakResult c l (computeIsFirstOfMonth ds now)).

(** The handler: [db] is the user's documents, or [None] without a
    database. *)
Definition handler (db : option (list UserProgress)) (now : Z) : Response :=
  match db with
  | None => Failed 500
  | Some progressDocs =>
      match computeStreaks progressDocs now with
      | Some r => Json r
      | None => Failed 500
      end
  end.

End Handler.
End ProgressStats.

(** ** More built-ins: numbers and dates as text *)

Module JSText.

(** The character of a decimal digit. *)
Definition digitChar (n : Z) : ascii := ascii_of_nat (48 + Z.to_nat n).

(** The last [w] decimal digits of [n], most significant first. *)
Fixpoint fixed (w : nat) (n : Z) : list ascii :=
  match w with
  | O => []
  | S w' => fixed w' (n / 10) ++ [digitChar (n mod 10)]
  end.

(** The digits of a non-negative integer, without leading zeros; the
    fuel bounds the number of digits. *)
Fixpoint decimalGo (fuel : nat) (n : Z) (acc : list ascii) : list ascii :=
  match fuel with
  | O => acc
  | S fuel' =>
      let acc' := digitChar (n mod 10) :: acc in
      if n <? 10 then acc' else decimalGo fuel' (n / 10) acc'
  end.

(** [String(n)] for an integer [n] of magnitude below 10^21, where
    [Number::toString] prints plain decimal digits. *)
Definition decimal (n : Z) : string :=
  if n <? 0 then String "-"%char (string_of_list_ascii (decimalGo 21 (- n) []))
  else string_of_list_ascii (decimalGo 21 n []).

(** [s.padStart(targetLength, fill)] with a one-character [fill]. *)
Definition padStart (targetLength : nat) (fill : ascii) (s : string) : string :=
  string_of_list_ascii (replicate (targetLength - String.length s) fill) +:+ s.

(** [s.slice(0, n)]. *)
Definition sliceTo (n : nat) (s : string) : string := String.substring 0 n s.

(** *** Time within the day (ECMA-262, 21.4.1.13) *)

Definition HourFromTime (t : Z) : Z := (t / JS.msPerHour) mod 24.
Definition MinFromTime (t : Z) : Z := (t / JS.msPerMinute) mod 60.
Definition SecFromTime (t : Z) : Z := (t / JS.msPerSecond) mod 60.
Definition msFromTime (t : Z) : Z := t mod JS.msPerSecond.

(** *** [Date.prototype.toISOString] (ECMA-262, 21.4.4.36)

    On a valid time value: the UTC fields as [YYYY-MM-DDTHH:mm:ss.sssZ],
    the year in four digits from 0000 to 9999 and as a sign and six digits
    otherwise. *)
Definition isoYear (y : Z) : list ascii :=
  if (0 <=? y) && (y <=? 9999) then fixed 4 y
  else if y <? 0 then "-"%char :: fixed 6 (- y)
  else "+"%char :: fixed 6 y.

Definition toISOString (t : Z) : string :=
  string_of_list_ascii
    (isoYear (JS.YearFromTime t) ++ ["-"%char]
     ++ fixed 2 (JS.MonthFromTime t + 1) ++ ["-"%char]
     ++ fixed 2 (JS.DateFromTime t) ++ ["T"%char]
     ++ fixed 2 (HourFromTime t) ++ [":"%char]
     ++ fixed 2 (MinFromTime t) ++ [":"%char]
     ++ fixed 2 (SecFromTime t) ++ ["."%char]
     ++ fixed 3 (msFromTime t) ++ ["Z"%char]).

End JSText.

(** ** [Map<string, V>]

    A JavaScript [Map] keeps its entries in insertion order; [set] on a key
    already present replaces the value where it stands. *)

Module JSMap.

Definition t (V : Type) : Type := list (string * V).

Fixpoint get {V : Type} (k : string) (m : t V) : option V :=
  match m with
  | [] => None
  | (k', v) :: m' => if decide (k' = k) then Some v else get k m'
  end.

Fixpoint replace {V : Type} (k : string) (v : V) (m : t V) : t V :=
  match m with
  | [] => []
  | (k', v') :: m' =>
      if decide (k' = k) then (k, v) :: m' else (k', v') :: replace k v m'
  end.

Definition set {V : Type} (k : string) (v : V) (m : t V) : t V :=
  match get k m with
  | Some _ => replace k v m
  | None => m ++ [(k, v)]
  end.

(** [Array.from(m.values())]. *)
Definition values {V : Type} (m : t V) : list V := m.*2.

Definition keys {V : Type} (m : t V) : list string := m.*1.

End JSMap.

(** ** The in-memory store ([MemStorage]) *)

Module Storage.
Import Schema.

(** [typeof users.$inferSelect] and the insert schema's pick. *)
Record User := mkUser {
  userIdent : string;
  username : string;
  password : string;
  email : option string
}.

Record InsertUser := mkInsertUser {
  newUsername : string;
  newPassword : string;
  newEmail : option string
}.

Record Assessment := mkAssessment {
  assessmentId : string;
  assessmentUserId : option string;
  ageGroup : string;
  experience : string;
  goals : list string;
  timeAvailable : string;
  healthConditions : option (list string);
  assessmentCreatedAt : option string
}.

Record InsertAssessment := mkInsertAssessment {
  newAssessmentUserId : option string;
  newAgeGroup : string;
  newExperience : string;
  newGoals : list string;
  newTimeAvailable : string;
  newHealthConditions : option (list string)
}.

(** The insert schema of [user_progress]: [id] and [completedAt] omitted.
    As in [Schema.UserProgress] the [completedPoses] payload is left out. *)
Record InsertUserProgress := mkInsertUserProgress {
  newUserId : option string;
  newRoutineId : option string;
  newDuration : Z;
  newRating : option Z
}.

(** [s || null] on an optional string: the empty string is falsy. *)
Definition orNull (s : option string) : option string :=
  match s with
  | Some EmptyString => None
  | _ => s
  end.

(** [n || null] on an optional integer: 0 is falsy. *)
Definition orNullZ (n : option Z) : option Z :=
  match n with
  | Some 0 => None
  | _ => n
  end.

(** The maps of the store this development reads; the routine catalogue
    plays no part in it. *)
Record State := mkState {
  users : JSMap.t User;
  assessments : JSMap.t Assessment;
  userProgress : JSMap.t UserProgress
}.

Definition getUser (ident : string) (st : State) : option User :=
  JSMap.get ident (users st).

Definition getUserByUsername (name : string) (st : State) : option User :=
  List.find (fun user => bool_decide (username user = name))
            (JSMap.values (users st)).

Definition listUsers (st : State) : list User := JSMap.values (users st).

(** [createUser], with [ident] the value drawn by [randomUUID()]. *)
Definition createUser (ident : string) (insertUser : InsertUser) (st : State)
  : User * State :=
  let user := mkUser ident (newUsername insertUser) (newPassword insertUser)
                     (newEmail insertUser) in
  (user, mkState (JSMap.set ident user (users st)) (assessments st)
                 (userProgress st)).

(** [createAssessment], with [now] the clock read by [new Date()]. *)
Definition createAssessment (ident : string) (now : Z)
    (assessment : InsertAssessment) (st : State) : Assessment * State :=
  let newAssessment :=
    mkAssessment ident (orNull (newAssessmentUserId assessment))
      (newAgeGroup assessment) (newExperience assessment) (newGoals assessment)
      (newTimeAvailable assessment) (newHealthConditions assessment)
      (Some (JSText.toISOString now)) in
  (newAssessment,
   mkState (users st) (JSMap.set ident newAssessment (assessments st))
           (userProgress st)).

Definition getAssessmentByUserId (uid : string) (st : State) : option Assessment :=
  List.find (fun assessment => bool_decide (assessmentUserId assessment = Some uid))
            (JSMap.values (assessments st)).

Definition createUserProgress (ident : string) (now : Z)
    (progress : InsertUserProgress) (st : State) : UserProgress * State :=
  let newProgress :=
    mkUserProgress ident (orNull (newUserId progress))
      (orNull (newRoutineId progress))
      (Some (JSText.toISOString now))
      (newDuration progress) (orNullZ (newRating progress)) in
  (newProgress,
   mkState (users st) (assessments st)
           (JSMap.set ident newProgress (userProgress st))).

Definition getUserProgress (uid : string) (st : State) : list UserProgress :=
  filter (fun progress => userId progress = Some uid)
         (JSMap.values (userProgress st)).

Definition getUserProgressByRoutine (uid rid : string) (st : State)
  : list UserProgress :=
  filter (fun progress => userId progress = Some uid
                          /\ routineId progress = Some rid)
         (JSMap.values (userProgress st)).

End Storage.

(** ** [POST /api/progress]: the handler *)

Module PostHandler.
Import Schema Storage.

Inductive Reply :=
| Json (row : UserProgress) (streak : Z) (isFirstOfMonth : bool)
| Rejected (status : Z) (message : string).

(** The handler on the store. [body] is the outcome of
    [insertUserProgressSchema.parse(req.body)], [None] when it throws;
    [ident] is the UUID drawn, [created] the clock read by
    [createUserProgress] and [now] the one read by the handler. The Mongo
    mirror and the e-mail that follow sit in their own [try]/[catch] and
    change neither the reply nor the store. *)
Definition handle (tz : JS.TimeZone) (DateParse : string -> JS.Date)
    (body : option InsertUserProgress) (ident : string) (created now : Z)
    (st : State) : Reply * State :=
  match body with
  | None => (Rejected 400 "Invalid progress data", st)
  | Some progress =>
      let '(newProgress, st') := createUserProgress ident created progress st in
      match orNull (newUserId progress) with
      | None => (Rejected 400 "userId is required for progress tracking", st')
      | Some uid =>
          let allProgress := getUserProgress uid st' in
          match PostProgress.compute tz DateParse allProgress now with
          | Some r =>
              (Json newProgress (PostProgress.replyStreak r)
                    (PostProgress.replyIsFirstOfMonth r), st')
          | None => (Rejected 400 "Invalid progress data", st')
          end
      end
  end.

(** The key under which the handler counts the day in [daily_progress]:
    [new Date().toISOString().slice(0, 10)]. *)
Definition dayKey (now : Z) : string := JSText.sliceTo 10 (JSText.toISOString now).

End PostHandler.

(** ** The mailer *)

Module Mailer.

(** Subject and bodies of a mail are fixed by the function that sends it
    and by its arguments. *)
Inductive Kind :=
| LoginThanks
| ExerciseReminder
| SignupOtp (code : string)
| TestEmail.

Record Mail := mkMail {
  kind : Kind;
  recipient : string;
  greeted : string
}.

(** [SMTP_HOST], and what [transporter.sendMail] does with a mail: resolve
    ([true]) or reject ([false]). *)
Record Env := mkEnv {
  host : option string;
  sendMail : Mail -> bool
}.

(** [!host] is false. *)
Definition configured (env : Env) : bool :=
  match host env with
  | Some (String _ _) => true
  | _ => false
  end.

(** The three notification functions share one shape: return at once
    without a host, hand the mail to the transport otherwise, and swallow
    its failure. They return nothing and never throw; the result here is
    the list of mails the transport accepted. *)
Definition notify (env : Env) (m : Mail) : list Mail :=
  if configured env then (if sendMail env m then [m] else []) else [].

Definition sendLoginThanksEmail (env : Env) (to name : string) : list Mail :=
  notify env (mkMail LoginThanks to name).

Definition sendExerciseReminderEmail (env : Env) (to name : string) : list Mail :=
  notify env (mkMail ExerciseReminder to name).

Definition sendSignupOtpEmail (env : Env) (to name code : string) : list Mail :=
  notify env (mkMail (SignupOtp code) to name).

(** [sendTestEmail] has no [try]: [None] is a thrown error. *)
Definition sendTestEmail (env : Env) (to : string) : option (list Mail) :=
  if configured env then
    let m := mkMail TestEmail to EmptyString in
    if sendMail env m then Some [m] else None
  else None.

End Mailer.

(** ** The daily reminder job *)

Module Scheduler.
Import Storage.

(** [getLocalDayString(d)] on a valid date. *)
Definition getLocalDayString (tz : JS.TimeZone) (d : Z) : string :=
  let year := JS.getFullYear tz d in
  let month := JSText.padStart 2 "0" (JSText.decimal (JS.getMonth tz d + 1)) in
  let day := JSText.padStart 2 "0" (JSText.decimal (JS.getDate tz d)) in
  JSText.decimal year +:+ "-" +:+ month +:+ "-" +:+ day.

(** What [daily_progress.findOne({ userId, day })] gives: a document, none,
    or a thrown error. *)
Inductive Lookup := Found | Missing | LookupFails.

(** What a run of the job did: the mails the transport accepted, the
    counter [sent], and whether the loop ran to its end. *)
Record Run := mkRun {
  delivered : list Mailer.Mail;
  sent : Z;
  finished : bool
}.

(** The [for (const u of users)] loop. *)
Fixpoint remind (env : Mailer.Env) (findOne : string -> string -> Lookup)
    (today : string) (us : list User) (acc : Run) : Run :=
  match us with
  | [] => mkRun (delivered acc) (sent acc) true
  | u :: us' =>
      match orNull (email u) with
      | None => remind env findOne today us' acc
      | Some to =>
          match findOne (userIdent u) today with
          | LookupFails => mkRun (delivered acc) (sent acc) false
          | Found => remind env findOne today us' acc
          | Missing =>
              remind env findOne today us'
                (mkRun (delivered acc
                        ++ Mailer.sendExerciseReminderEmail env to (username u))
                       (sent acc + 1) false)
          end
      end
  end.

(** The scheduled callback: nothing without a database. *)
Definition job (tz : JS.TimeZone) (env : Mailer.Env)
    (db : option (string -> string -> Lookup)) (st : State) (now : Z) : Run :=
  match db with
  | None => mkRun [] 0 true
  | Some findOne =>
      remind env findOne (getLocalDayString tz now) (listUsers st) (mkRun [] 0 false)
  end.

End Scheduler.

(** ** [POST /api/notify/reminders] *)

Module Reminders.
Import Storage.

(** A document of the Mongo [users] collection. *)
Record MongoUser := mkMongoUser {
  mongoId : string;
  mongoUsername : string;
  mongoPassword : option string;
  mongoEmail : option string
}.

(** What the Mongo block of the handler meets: no database, a thrown
    error, or the [users] collection. *)
Inductive Source :=
| NoDb
| FetchFails
| Collection (docs : list MongoUser).

(** A recipient: [{ id, username, email }]. *)
Record Recipient := mkRecipient {
  rcptId : string;
  rcptName : string;
  rcptEmail : option string
}.

Definition ofUser (u : User) : Recipient :=
  mkRecipient (userIdent u) (username u) (email u).

Definition ofMongo (u : MongoUser) : Recipient :=
  mkRecipient (mongoId u) (mongoUsername u) (mongoEmail u).

(** Prefer Mongo users if available, fallback to in-memory. The query
    keeps the documents whose [email] exists and is not null. *)
Definition recipients (source : Source) (st : State) : list Recipient :=
  match source with
  | Collection docs =>
      ofMongo <$> filter (fun u => is_Some (mongoEmail u)) docs
  | _ => ofUser <$> listUsers st
  end.

(** One callback of [users.map(async (u) => ...)]: the mails accepted and
    the increment of [count]. *)
Definition remindOne (env : Mailer.Env) (u : Recipient) : list Mailer.Mail * Z :=
  match orNull (rcptEmail u) with
  | None => ([], 0)
  | Some to => (Mailer.sendExerciseReminderEmail env to (rcptName u), 1)
  end.

Record Reply := mkReply { replySent : Z; replyTotal : Z }.

(** The handler: the reply and the mails accepted, in the order of the
    users. *)
Definition handle (env : Mailer.Env) (source : Source) (st : State)
  : Reply * list Mailer.Mail :=
  let us := recipients source st in
  let outcomes := remindOne env <$> us in
  (mkReply (foldr Z.add 0 (snd <$> outcomes)) (Z.of_nat (length us)),
   concat (fst <$> outcomes)).

End Reminders.

(** ** The Mongo connection holder *)

Module MongoConn.

(** A client is known by the URI it was built from, a database by its
    client and its name. *)
Record Db := mkDb { dbUri : string; dbName : string }.

(** The module's two variables. *)
Record State := mkState { client : option string; db : option Db }.

Definition initial : State := mkState None None.

(** What an attempt to connect meets: [new MongoClient(uri)] throws,
    [client.connect()] rejects, or both succeed. *)
Inductive Attempt := BadUri | Refused | Connects.

(** [connectMongo(uri, dbName)]: the database returned, [None] for a
    thrown error, and the state left. *)
Definition connectMongo (uri name : string) (attempt : Attempt) (st : State)
  : option Db * State :=
  match client st, db st with
  | Some _, Some d => (Some d, st)
  | _, _ =>
      match attempt with
      | BadUri => (None, st)
      | Refused => (None, mkState (Some uri) (db st))
      | Connects => (Some (mkDb uri name), mkState (Some uri) (Some (mkDb uri name)))
      end
  end.

Definition getDb (st : State) : option Db := db st.

(** [closeMongo()]; [closes] tells whether [client.close()] resolves. The
    boolean returned is false for a thrown error. *)
Definition closeMongo (closes : bool) (st : State) : bool * State :=
  match client st with
  | Some _ => if closes then (true, mkState None None) else (false, st)
  | None => (true, st)
  end.

(** A call of the module's interface, with what it meets. *)
Inductive Call :=
| Connect (uri name : string) (attempt : Attempt)
| Close (closes : bool).

Definition step (st : State) (c : Call) : State :=
  match c with
  | Connect uri name attempt => snd (connectMongo uri name attempt st)
  | Close closes => snd (closeMongo closes st)
  end.

Definition run (calls : list Call) : State := foldl step initial calls.

End MongoConn.

(** ** Binding the port *)

Module Server.

(** What [server.listen(port)] leads to: the listening callback, the
    [error] event with code [EADDRINUSE], or another [error]. *)
Inductive Listen := Listening | AddrInUse | OtherError.

Inductive Outcome :=
| Serving (port : Z)
| Crashed (port : Z)
| OutOfFuel.

Definition maxAttempts : Z := 5.

(** [tryListen()] with the variables [port] and [attempts] as they stand;
    every call of itself uses one unit of fuel. *)
Fixpoint tryListen (listen : Z -> Listen) (fuel : nat) (port attempts : Z)
  : Outcome :=
  match listen port with
  | Listening => Serving port
  | OtherError => Crashed port
  | AddrInUse =>
      if attempts <? maxAttempts then
        match fuel with
        | O => OutOfFuel
        | S fuel' => tryListen listen fuel' (port + 1) (attempts + 1)
        end
      else Crashed port
  end.

(** The start-up: [attempts = 0] and [port] from the environment. *)
Definition start (listen : Z -> Listen) (port : Z) : Outcome :=
  tryListen listen 5 port 0.

End Server.

(** ** Registration and login *)

Module Auth.
Import Storage.
Export Reminders (MongoUser, mkMongoUser, mongoId, mongoUsername,
                  mongoPassword, mongoEmail).

(** What a call to Mongo gives a handler: no database configured, a thrown
    error, or a result. *)
Inductive Db (A : Type) :=
| NoDb
| DbThrows
| DbReturns (a : A).
Arguments NoDb {A}.
Arguments DbThrows {A}.
Arguments DbReturns {A} a.

(** A value, or a thrown error with its message. *)
Inductive Try (A : Type) :=
| Throws (message : string)
| Returns (a : A).
Arguments Throws {A} message.
Arguments Returns {A} a.

(** [message || fallback]. *)
Definition orMessage (message fallback : string) : string :=
  match message with
  | EmptyString => fallback
  | _ => message
  end.

(** The user without its password. *)
Record UserResponse := mkUserResponse {
  respId : string;
  respUsername : string;
  respEmail : option string
}.

Definition withoutPassword (u : User) : UserResponse :=
  mkUserResponse (userIdent u) (username u) (email u).

Inductive Reply :=
| Success (status : Z) (user : UserResponse)
| Failure (status : Z) (message : string).

(** What mirroring the new user to Mongo meets: no database, an accepted
    insert, a duplicate-key error (code 11000), or another error. *)
Inductive Mirror := NoMirror | Mirrored | DuplicateKey | MirrorFails.

(** [POST /api/auth/register]. The handler reads the store once, in
    [storage.getUserByUsername], and writes it once, in
    [storage.createUser]; between the two it awaits [bcrypt.hash], and
    other requests may run while it waits. It is embedded as its two
    halves, each on the store as it stands when that half runs. *)

(** What the first half leaves: a reply, or the parsed body with the
    handler waiting for [bcrypt.hash]. *)
Inductive Checked :=
| Answered (reply : Reply)
| Hashing (input : InsertUser).

(** Up to the test on [existingUser]. [body] is the outcome of
    [insertUserSchema.parse(req.body)], [precheck] that of the Mongo
    [findOne({ username })], [st] the store when
    [storage.getUserByUsername] reads it. *)
Definition registerCheck (body : Try InsertUser)
    (precheck : Db (option MongoUser)) (st : State) : Checked :=
  match body with
  | Throws message => Answered (Failure 400 (orMessage message "Registration failed"))
  | Returns input =>
      match precheck with
      | DbReturns (Some _) => Answered (Failure 400 "Username already taken")
      | _ =>
          match getUserByUsername (newUsername input) st with
          | Some _ => Answered (Failure 400 "Username already taken")
          | None => Hashing input
          end
      end
  end.

(** From the outcome of [bcrypt.hash] on. [hash] is [bcrypt.hash(_, 10)],
    [ident] the UUID drawn, [mirror] what the insert into Mongo meets, [st]
    the store when [storage.createUser] writes it. *)
Definition registerCreate (input : InsertUser) (hash : string -> Try string)
    (ident : string) (mirror : Mirror) (st : State) : Reply * State :=
  match hash (newPassword input) with
  | Throws message => (Failure 400 (orMessage message "Registration failed"), st)
  | Returns hashedPassword =>
      let '(user, st') :=
        createUser ident
          (mkInsertUser (newUsername input) hashedPassword (newEmail input)) st in
      match mirror with
      | DuplicateKey => (Failure 400 "Username already taken", st')
      | _ => (Success 201 (withoutPassword user), st')
      end
  end.

(** [POST /api/auth/login]. [name] and [pass] are the two fields of the
    body, [lookup] the outcome of the Mongo [findOne({ username })] the
    handler falls back on, [compare] is [bcrypt.compare]. The update of
    [lastLoginAt] and the thank-you mail do not reach the reply. *)
Definition login (name pass : option string) (lookup : Db (option MongoUser))
    (compare : string -> string -> Try bool) (st : State) : Reply :=
  match orNull name, orNull pass with
  | Some username, Some password =>
      let user := getUserByUsername username st in
      let userFromMongo :=
        match user, lookup with
        | None, DbReturns found => found
        | _, _ => None
        end in
      match user, userFromMongo with
      | None, None => Failure 401 "Invalid credentials"
      | _, _ =>
          let hashed :=
            match user with
            | Some u => Some (Storage.password u)
            | None => userFromMongo ≫= mongoPassword
            end in
          match orNull hashed with
          | None => Failure 401 "Invalid credentials"
          | Some h =>
              match compare password h with
              | Throws message => Failure 500 (orMessage message "Login failed")
              | Returns false => Failure 401 "Invalid credentials"
              | Returns true =>
                  match user, userFromMongo with
                  | Some u, _ => Success 200 (withoutPassword u)
                  | None, Some m =>
                      Success 200
                        (mkUserResponse (mongoId m) (mongoUsername m) (mongoEmail m))
                  | None, None => Failure 401 "Invalid credentials"
                  end
              end
          end
      end
  | _, _ => Failure 400 "Username and password are required"
  end.

End Auth.

(* ===================================================================== *)
(** * Part II. The vocabulary of the properties *)
(* ===================================================================== *)

(** ** The two walks, by recursion on the array *)

Module Walks.

(** The day gap the handlers compute between a date and the one before. *)
Definition gap (prev x : Z) : Z := JS.roundDays (x - prev).

(** The run counter after one more date, as a function of the counter
    before it. *)
Definition extend (prev x run : Z) : Z :=
  if gap prev x =? 1 then run + 1
  else if gap prev x =? 0 then run
  else 1.

(** One turn of the longest-streak loop at an index above 0, on the state
    [(longestStreak, run)]. *)
Definition turn (prev x : Z) (st : Z * Z) : Z * Z :=
  if gap prev x =? 1 then (fst st, snd st + 1)
  else if gap prev x =? 0 then st
  else (Z.max (fst st) (snd st), 1).

(** The longest-streak loop from the element after [prev] to the end. *)
Fixpoint forward (prev : Z) (rest : list Z) (st : Z * Z) : Z * Z :=
  match rest with
  | [] => st
  | x :: rest' => forward x rest' (turn prev x st)
  end.

Definition longestOf (dates : list Z) : Z :=
  match dates with
  | [] => 0
  | x :: rest => let st := forward x rest (0, 1) in Z.max (fst st) (snd st)
  end.

(** The current-streak loop standing on [cur], with the earlier elements
    in [before], nearest first. *)
Fixpoint backward (cur : Z) (before : list Z) (streak : Z) : Z :=
  match before with
  | [] => streak
  | p :: before' =>
      if gap p cur =? 1 then backward p before' (streak + 1)
      else if gap p cur =? 0 then backward p before' streak
      else streak
  end.

Definition currentOf (dates : list Z) : Z :=
  match reverse dates with
  | [] => 0
  | x :: before => backward x before 1
  end.

(** The comparator both handlers pass to [sort]. *)
Definition byTime : Z -> Z -> Z := fun a b => a - b.

End Walks.

(** ** The events that parse *)

Module Stats.
Import Schema.

(** The time values of the events whose timestamp parses, in the order of
    the documents. *)
Definition validTimes (DateParse : string -> JS.Date) (docs : list UserProgress)
  : list Z :=
  omap (ProgressStats.newDate DateParse) docs.

(** The timestamp of the event parses. *)
Definition parses (DateParse : string -> JS.Date) (p : UserProgress) : Prop :=
  JS.isInvalid (ProgressStats.newDate DateParse p) = false.

#[global] Instance parses_dec DateParse p : Decision (parses DateParse p).
Proof. unfold parses. apply _. Defined.

End Stats.

(** ** Calendar days *)

Module Calendar.

(** The local calendar day of a time value, as a day number. *)
Definition localDay (tz : JS.TimeZone) (t : Z) : Z := JS.Day (JS.LocalTime tz t).

(** A later instant never falls on an earlier local calendar day. UTC and
    every fixed offset are such. *)
Definition MonotoneDays (tz : JS.TimeZone) : Prop :=
  forall s t, s <= t -> localDay tz s <= localDay tz t.

(** [t] lies in the calendar month and year of [now]. *)
Definition inMonth (tz : JS.TimeZone) (now t : Z) : Prop :=
  JS.getMonth tz t = JS.getMonth tz now
  /\ JS.getFullYear tz t = JS.getFullYear tz now.

(** Year, month and date all match. *)
Definition sameDay (tz : JS.TimeZone) (a b : Z) : Prop :=
  JS.getFullYear tz a = JS.getFullYear tz b
  /\ JS.getMonth tz a = JS.getMonth tz b
  /\ JS.getDate tz a = JS.getDate tz b.

End Calendar.

(** ** Runs of consecutive days *)

Module Runs.

(** The [k] days from [d] on are all among [days]. *)
Definition isRun (days : list Z) (d k : Z) : Prop :=
  forall j, 0 <= j < k -> d + j ∈ days.

(** [L] is the greatest length of a run of consecutive days in [days]. *)
Definition MaxRun (days : list Z) (L : Z) : Prop :=
  (forall d k, isRun days d k -> k <= L) /\ (exists d, isRun days d L).

(** The forward walk on day numbers, where the gap is a difference. *)
Definition dayTurn (prev x : Z) (st : Z * Z) : Z * Z :=
  if x - prev =? 1 then (fst st, snd st + 1)
  else if x - prev =? 0 then st
  else (Z.max (fst st) (snd st), 1).

Fixpoint dayForward (prev : Z) (rest : list Z) (st : Z * Z) : Z * Z :=
  match rest with
  | [] => st
  | x :: rest' => dayForward x rest' (dayTurn prev x st)
  end.

Definition dayLongest (days : list Z) : Z :=
  match days with
  | [] => 0
  | x :: rest =>
      Z.max (fst (dayForward x rest (0, 1))) (snd (dayForward x rest (0, 1)))
  end.

(** What the walk knows after the days in [pre], the last of them [prev]:
    the run that ends on [prev] has length [run] and cannot be extended to
    the left, no run is longer than [max lo run], and there is a run of
    length [lo]. *)
Record Inv (pre : list Z) (prev lo run : Z) : Prop := mkInv {
  inv_run_pos : 1 <= run;
  inv_lo_nonneg : 0 <= lo;
  inv_prev_in : prev ∈ pre;
  inv_prev_max : forall x, x ∈ pre -> x <= prev;
  inv_run : isRun pre (prev - run + 1) run;
  inv_run_maximal : prev - run ∉ pre;
  inv_bound : forall d k, isRun pre d k -> k <= Z.max lo run;
  inv_lo : exists d, isRun pre d lo
}.

End Runs.

(** ** Events within one half-day window *)

Module Aligned.

Definition halfDay : Z := 43200000.

(** [t] lies on day [day t], at a time of day in the twelve hours from
    [a]. *)
Definition aligned (day : Z -> Z) (a : Z) (t : Z) : Prop :=
  a <= t - day t * JS.msPerDay < a + halfDay.

(** The events in [times] share one UTC offset [off], and their local
    times of day all lie in the twelve hours from [a]. Date-only
    timestamps do, in UTC and under any fixed offset, and so do events
    recorded every day at about the same hour. *)
Definition withinHalfDay (tz : JS.TimeZone) (off a : Z) (times : list Z) : Prop :=
  Forall (fun t => tz t = off
                   /\ a <= JS.TimeWithinDay (JS.LocalTime tz t) < a + halfDay)
         times.

End Aligned.

(** ** Fixtures for the scenarios *)

Module Scenario.
Import Schema.

(** A stored row of user [u1] completed at [completedAt]. *)
Definition event (completedAt : string) : UserProgress :=
  mkUserProgress "p" (Some "u1") (Some "r1") (Some completedAt) 15 None.

(** A row whose [completedAt] is missing. *)
Definition eventWithoutDate : UserProgress :=
  mkUserProgress "p" (Some "u1") (Some "r1") None 15 None.

(** The instant a timestamp denotes; a date-only string is UTC midnight. *)
Definition at_ (s : string) : Z := default 0 (JS.parse s).

(** The stats on a UTC host with the ISO parser. *)
Definition stats (docs : list UserProgress) (now : Z)
  : option ProgressStats.StreakResult :=
  ProgressStats.computeStreaks JS.utc JS.parse docs now.

End Scenario.

(** ** The reading of the longest streak on arbitrary timestamps

    Whatever the events, the longest streak is the greatest length of a run
    of consecutive local calendar days on which an event lies. *)
Definition longest_is_max_run_of_calendar_days : Prop :=
  forall (tz : JS.TimeZone) (DateParse : string -> JS.Date)
         (docs : list Schema.UserProgress) (now : Z)
         (r : ProgressStats.StreakResult),
    ProgressStats.computeStreaks tz DateParse docs now = Some r ->
    Runs.MaxRun (Calendar.localDay tz <$> Stats.validTimes DateParse docs)
                (ProgressStats.longestStreak r).

(** ** Fixtures for the store *)

Module Fixtures.
Import Schema Storage.

Definition empty : State := mkState [] [] [].

Definition asha : InsertUser := mkInsertUser "asha" "h1" None.

(** A store with the one user [asha] under the identifier [id-1]. *)
Definition withAsha : State := snd (createUser "id-1" asha empty).

Definition firstAssessment : InsertAssessment :=
  mkInsertAssessment (Some "u1") "18-25" "beginner" ["calm"] "15" None.

Definition secondAssessment : InsertAssessment :=
  mkInsertAssessment (Some "u1") "18-25" "advanced" ["strength"] "30" None.

Definition assessed : State := snd (createAssessment "a-1" 0 firstAssessment empty).

(** A store with one row of user [u1], completed at 2024-03-01T00:00Z. *)
Definition oneRow : State :=
  snd (createUserProgress "p-1" 1709251200000
         (mkInsertUserProgress (Some "u1") None 15 None) empty).

End Fixtures.

(** ** The vocabulary of the further properties *)

(** The characters of the ISO date and time forms. *)
Module IsoText.
Import JSText.

Definition dateChars (y mo d : Z) : list ascii :=
  fixed 4 y ++ ["-"%char] ++ fixed 2 mo ++ ["-"%char] ++ fixed 2 d.

Definition timeChars (h mi s ms : Z) : list ascii :=
  ["T"%char] ++ fixed 2 h ++ [":"%char] ++ fixed 2 mi ++ [":"%char]
  ++ fixed 2 s ++ ["."%char] ++ fixed 3 ms ++ ["Z"%char].

End IsoText.

(** Who a reminder is due to. *)
Module Remind.
Import Storage.

(** A user the job may remind: an address on file and no document for
    today. *)
Definition due (findOne : string -> string -> Scheduler.Lookup) (today : string)
    (u : User) (m : Mailer.Mail) : Prop :=
  Mailer.kind m = Mailer.ExerciseReminder
  /\ email u = Some (Mailer.recipient m)
  /\ Mailer.recipient m <> EmptyString
  /\ Mailer.greeted m = username u
  /\ findOne (userIdent u) today = Scheduler.Missing.

(** The users an endpoint call counts: those with an address. *)
Definition addressed (u : Reminders.Recipient) : bool :=
  match orNull (Reminders.rcptEmail u) with Some _ => true | None => false end.

End Remind.

(** What the connection holder keeps true. *)
Module Held.
Import MongoConn.

(** The database held is the one of the client held. *)
Definition coherent (st : State) : Prop :=
  forall d, db st = Some d -> client st = Some (dbUri d).

(** A database held was obtained by a connection that succeeded. *)
Definition obtained (calls : list Call) (st : State) : Prop :=
  forall d, db st = Some d -> Connect (dbUri d) (dbName d) Connects ∈ calls.

End Held.

Module Named.
Import Storage.

(** The test of [getUserByUsername]. *)
Definition named (name : string) (user : User) : bool :=
  bool_decide (username user = name).

End Named.

(* ===================================================================== *)
(** * Part III. Lemmas *)
(* ===================================================================== *)

(** ** The built-ins *)

Module JSFacts.

(** [YearFromDay] is the year the day lies in. *)
Lemma YearFromDay_spec (d : Z) :
  JS.DayFromYear (JS.YearFromDay d) <= d < JS.DayFromYear (JS.YearFromDay d + 1).
Proof.
  unfold JS.YearFromDay.
  remember (1970 + 400 * d / 146097) as y0 eqn:Hy.
  destruct (Z.ltb_spec d (JS.DayFromYear y0));
    [|destruct (Z.leb_spec (JS.DayFromYear (y0 + 1)) d)];
    unfold JS.DayFromYear in *; Z.div_mod_to_equations; lia.
Qed.

Lemma DayFromYear_step (y : Z) :
  JS.DayFromYear (y + 1) = JS.DayFromYear y + JS.DaysInYear y.
Proof.
  unfold JS.DayFromYear, JS.DaysInYear.
  destruct (Z.eqb_spec (y mod 4) 0); cbn [negb];
    [destruct (Z.eqb_spec (y mod 100) 0); cbn [negb];
       [destruct (Z.eqb_spec (y mod 400) 0); cbn [negb]|]|];
    Z.div_mod_to_equations; lia.
Qed.

(** Within one month of one year the date counts days. *)
Lemma DateFromTime_diff (a b : Z) :
  JS.YearFromTime a = JS.YearFromTime b ->
  JS.MonthFromTime a = JS.MonthFromTime b ->
  JS.DateFromTime a - JS.DateFromTime b = JS.Day a - JS.Day b.
Proof.
  intros Hy Hm. unfold JS.DateFromTime, JS.DayWithinYear, JS.InLeapYear.
  rewrite Hy, Hm. lia.
Qed.

(** A whole number of days rounds to itself. *)
Lemma roundDays_days (n : Z) : JS.roundDays (n * JS.msPerDay) = n.
Proof.
  unfold JS.roundDays, JS.msPerDay. symmetry.
  apply (Z.div_unique _ _ n 86400000); lia.
Qed.

(** From twelve hours up to thirty-six the gap is one day. *)
Lemma roundDays_one (ms : Z) : JS.roundDays ms = 1 <-> 43200000 <= ms < 129600000.
Proof. unfold JS.roundDays, JS.msPerDay. split; intros H; Z.div_mod_to_equations; lia. Qed.

Lemma roundDays_zero (ms : Z) : JS.roundDays ms = 0 <-> -43200000 <= ms < 43200000.
Proof. unfold JS.roundDays, JS.msPerDay. split; intros H; Z.div_mod_to_equations; lia. Qed.

Example parse_date_only : JS.parse "2024-03-01" = Some 1709251200000.
Proof. reflexivity. Qed.

Example parse_iso : JS.parse "2024-03-01T12:00:00.000Z" = Some 1709294400000.
Proof. reflexivity. Qed.

Example parse_no_such_day : JS.parse "2024-02-30" = None.
Proof. reflexivity. Qed.

Example parse_garbage : JS.parse "not-a-date" = None.
Proof. reflexivity. Qed.

Example parse_empty : JS.parse "" = None.
Proof. reflexivity. Qed.

Example fields_2024_03_01 :
  (JS.getFullYear JS.utc 1709251200000,
   JS.getMonth JS.utc 1709251200000,
   JS.getDate JS.utc 1709251200000) = (2024, 2, 1).
Proof. reflexivity. Qed.

Example fields_leap_day :
  (JS.getFullYear JS.utc 1709164800000,
   JS.getMonth JS.utc 1709164800000,
   JS.getDate JS.utc 1709164800000) = (2024, 1, 29).
Proof. reflexivity. Qed.

Example fields_before_epoch :
  (JS.getFullYear JS.utc (-1), JS.getMonth JS.utc (-1), JS.getDate JS.utc (-1))
  = (1969, 11, 31).
Proof. reflexivity. Qed.

Example round_half_day_up : JS.roundDays 43200000 = 1.
Proof. reflexivity. Qed.

Example round_below_half_day : JS.roundDays 43199999 = 0.
Proof. reflexivity. Qed.

End JSFacts.

(** ** The index loops compute the walks and never read out of range *)

Module WalkFacts.
Import Walks.

(** Case analysis on the gap the way the loops branch on it. *)
Ltac case_gap a b :=
  destruct (gap a b =? 1); [|destruct (gap a b =? 0)].

Lemma currentLoop_backward (l : list Z) (i : nat) (x : Z) (s : Z) :
  l !! i = Some x ->
  ProgressStats.currentLoop l i s = Some (backward x (reverse (take i l)) s).
Proof.
  revert x s. induction i as [|j IH]; intros x s Hi.
  - reflexivity.
  - destruct (lookup_lt_is_Some_2 l j) as [p Hj].
    { apply lookup_lt_Some in Hi. lia. }
    cbn [ProgressStats.currentLoop]. rewrite Hi, Hj. cbn [mbind option_bind].
    rewrite (take_S_r _ _ _ Hj), reverse_snoc. cbn [backward].
    rewrite !(IH p) by exact Hj.
    change (JS.roundDays (x - p)) with (gap p x).
    case_gap p x; reflexivity.
Qed.

Lemma computeCurrent_total (l : list Z) :
  ProgressStats.computeCurrent l = Some (currentOf l).
Proof.
  unfold ProgressStats.computeCurrent, currentOf.
  destruct (decide (length l = 0%nat)) as [H0|Hn].
  - apply nil_length_inv in H0. subst l. reflexivity.
  - destruct (lookup_lt_is_Some_2 l (length l - 1)) as [x Hx]; [lia|].
    rewrite (currentLoop_backward _ _ _ _ Hx).
    assert (Hl : l = take (length l - 1) l ++ [x]).
    { rewrite <- (take_drop (length l - 1) l) at 1. f_equal.
      rewrite (drop_S _ _ _ Hx). replace (S (length l - 1)) with (length l) by lia.
      rewrite drop_all. reflexivity. }
    assert (Hr : reverse l = x :: reverse (take (length l - 1) l)).
    { rewrite Hl at 1. apply reverse_snoc. }
    rewrite Hr. reflexivity.
Qed.

Lemma longestLoop_forward (l : list Z) (n j : nat) (p : Z) (st : Z * Z) :
  l !! j = Some p -> (S j + n = length l)%nat ->
  ProgressStats.longestLoop l n (S j) st = Some (forward p (drop (S j) l) st).
Proof.
  revert j p st. induction n as [|n IH]; intros j p st Hj Hn.
  - rewrite drop_ge by lia. reflexivity.
  - destruct (lookup_lt_is_Some_2 l (S j)) as [x Hx]; [lia|].
    destruct st as [lo run].
    cbn [ProgressStats.longestLoop ProgressStats.longestStep].
    rewrite Hx, Hj. cbn [mbind option_bind].
    rewrite (drop_S _ _ _ Hx). cbn [forward]. unfold turn. cbn [fst snd].
    change (JS.roundDays (x - p)) with (gap p x).
    case_gap p x; cbn [mbind option_bind]; apply IH; first [exact Hx | lia].
Qed.

(** The state in which the longest-streak loop ends. *)
Lemma longestLoop_exit (l : list Z) :
  ProgressStats.longestLoop l (length l) 0 (0, 0)
  = Some (match l with [] => (0, 0) | x :: rest => forward x rest (0, 1) end).
Proof.
  destruct l as [|x rest]; [reflexivity|].
  cbn [length ProgressStats.longestLoop ProgressStats.longestStep mbind option_bind].
  apply (longestLoop_forward (x :: rest) (length rest) 0 x); [reflexivity|].
  cbn [length]. lia.
Qed.

Lemma computeLongest_total (l : list Z) :
  ProgressStats.computeLongest l = Some (longestOf l).
Proof.
  unfold ProgressStats.computeLongest. rewrite longestLoop_exit.
  destruct l; reflexivity.
Qed.

(** *** The run in which the forward walk ends is the current streak *)

Lemma backward_shift (cur : Z) (before : list Z) (s k : Z) :
  backward cur before (s + k) = backward cur before s + k.
Proof.
  revert cur s. induction before as [|p b IH]; intros cur s; cbn [backward].
  - reflexivity.
  - case_gap p cur.
    + replace (s + k + 1) with (s + 1 + k) by lia. apply IH.
    + apply IH.
    + reflexivity.
Qed.

Lemma backward_ge (cur : Z) (before : list Z) (s : Z) : s <= backward cur before s.
Proof.
  revert cur s. induction before as [|p b IH]; intros cur s; cbn [backward].
  - lia.
  - case_gap p cur.
    + specialize (IH p (s + 1)). lia.
    + apply IH.
    + lia.
Qed.

Lemma snd_turn (prev x : Z) (st : Z * Z) :
  snd (turn prev x st) = extend prev x (snd st).
Proof. unfold turn, extend. case_gap prev x; reflexivity. Qed.

Lemma last_cons_default (y d : Z) (rest : list Z) :
  List.last (y :: rest) d = List.last rest y.
Proof.
  revert y d. induction rest as [|z r IH]; intros y d; [reflexivity|].
  change (List.last (y :: z :: r) d) with (List.last (z :: r) d).
  rewrite (IH z d). symmetry. apply IH.
Qed.

Lemma forward_snoc (prev : Z) (rest : list Z) (x : Z) (st : Z * Z) :
  forward prev (rest ++ [x]) st = turn (List.last rest prev) x (forward prev rest st).
Proof.
  revert prev st. induction rest as [|y rest IH]; intros prev st.
  - reflexivity.
  - cbn [app forward]. rewrite IH, last_cons_default. reflexivity.
Qed.

Lemma reverse_cons_last (prev : Z) (rest : list Z) :
  exists before, reverse (prev :: rest) = List.last rest prev :: before.
Proof.
  destruct rest as [|y rest _] using rev_ind.
  - exists []. reflexivity.
  - exists (reverse (prev :: rest)).
    rewrite last_last. rewrite app_comm_cons. apply reverse_snoc.
Qed.

Lemma currentOf_snoc (prev : Z) (rest : list Z) (x : Z) :
  currentOf (prev :: rest ++ [x])
  = extend (List.last rest prev) x (currentOf (prev :: rest)).
Proof.
  unfold currentOf. rewrite app_comm_cons, reverse_snoc.
  destruct (reverse_cons_last prev rest) as [before ->].
  cbn [backward]. unfold extend.
  case_gap (List.last rest prev) x; try reflexivity.
  apply (backward_shift _ _ 1 1).
Qed.

Lemma snd_forward_current (prev : Z) (rest : list Z) (lo : Z) :
  snd (forward prev rest (lo, 1)) = currentOf (prev :: rest).
Proof.
  induction rest as [|x rest IH] using rev_ind.
  - reflexivity.
  - rewrite forward_snoc, snd_turn, IH, currentOf_snoc. reflexivity.
Qed.

Lemma currentOf_le_longestOf (l : list Z) : currentOf l <= longestOf l.
Proof.
  destruct l as [|x rest]; [reflexivity|].
  unfold longestOf. rewrite <- (snd_forward_current x rest 0). lia.
Qed.

Lemma currentOf_nonneg (l : list Z) : 0 <= currentOf l.
Proof.
  unfold currentOf. destruct (reverse l) as [|x b]; [lia|].
  pose proof (backward_ge x b 1). lia.
Qed.

Lemma currentOf_zero (l : list Z) : currentOf l = 0 <-> l = [].
Proof.
  unfold currentOf. destruct (reverse l) as [|x b] eqn:E.
  - apply (f_equal reverse) in E. rewrite reverse_involutive in E. tauto.
  - pose proof (backward_ge x b 1). split; [lia|].
    intros ->. discriminate.
Qed.

End WalkFacts.

(** ** The sort *)

Module SortFacts.
Import Walks.

#[global] Instance byTime_total : Total (JS.sortRel byTime).
Proof. intros a b. unfold JS.sortRel, byTime. lia. Qed.

#[global] Instance byTime_trans : Transitive (JS.sortRel byTime).
Proof. intros a b c. unfold JS.sortRel, byTime. lia. Qed.

#[global] Instance byTime_antisymm : AntiSymm (=) (JS.sortRel byTime).
Proof. intros a b. unfold JS.sortRel, byTime. lia. Qed.

Lemma sort_sorted (l : list Z) : Sorted Z.le (JS.sort byTime l).
Proof.
  pose proof (Sorted_merge_sort (JS.sortRel byTime) l) as H.
  unfold JS.sort. induction H as [|x l' Hs IH Hd]; constructor; [exact IH|].
  destruct Hd as [|y l'' Hxy]; constructor.
  unfold JS.sortRel, byTime in Hxy. lia.
Qed.

Lemma sort_perm (l : list Z) : JS.sort byTime l ≡ₚ l.
Proof. apply merge_sort_Permutation. Qed.

(** The sorted array is determined by the multiset of its elements. *)
Lemma sort_unique (l1 l2 : list Z) :
  l1 ≡ₚ l2 -> JS.sort byTime l1 = JS.sort byTime l2.
Proof.
  intros Hp. apply (Sorted_unique (JS.sortRel byTime)).
  - apply Sorted_merge_sort; apply _.
  - apply Sorted_merge_sort; apply _.
  - unfold JS.sort. rewrite !merge_sort_Permutation. exact Hp.
Qed.

Lemma sort_nil_iff (l : list Z) : JS.sort byTime l = [] <-> l = [].
Proof.
  split; [|intros ->; reflexivity].
  intros H. apply Permutation_nil_r. rewrite <- H. symmetry. apply sort_perm.
Qed.

(** The first element that a filter keeps of a sorted array is the least
    element satisfying the predicate. *)
Lemma filter_first_sorted (P : Z -> Prop) `{!forall x, Decision (P x)}
    (l : list Z) (f : Z) :
  Sorted Z.le l ->
  filter P l !! 0%nat = Some f ->
  f ∈ l /\ P f /\ forall x, x ∈ l -> P x -> f <= x.
Proof.
  intros Hs. apply Sorted_StronglySorted in Hs; [|apply _].
  induction Hs as [|y l Hs IH Hall]; [discriminate|].
  rewrite filter_cons. destruct (decide (P y)) as [Hy|Hy]; cbn.
  - intros [= <-]. split; [left|]. split; [exact Hy|].
    intros x Hx _. apply elem_of_cons in Hx as [->|Hx]; [lia|].
    rewrite Forall_forall in Hall. apply Hall. exact Hx.
  - intros Hf. destruct (IH Hf) as (Hin & HP & Hmin).
    split; [right; exact Hin|]. split; [exact HP|].
    intros x Hx HPx. apply elem_of_cons in Hx as [->|Hx]; [contradiction|].
    apply Hmin; assumption.
Qed.

Lemma filter_first_none (P : Z -> Prop) `{!forall x, Decision (P x)}
    (l : list Z) :
  filter P l !! 0%nat = None -> forall x, x ∈ l -> ~ P x.
Proof.
  intros Hf x Hx HPx.
  assert (Hin : x ∈ filter P l) by (apply list_elem_of_filter; split; assumption).
  destruct (filter P l); [inversion Hin | discriminate].
Qed.

End SortFacts.

(** ** The stats as a function of the events that parse *)

Module StatsFacts.
Import Schema ProgressStats Walks Stats.

Section Facts.
Variable tz : JS.TimeZone.
Variable DateParse : string -> JS.Date.

Lemma dates_validTimes (docs : list UserProgress) :
  dates DateParse docs = JS.sort byTime (validTimes DateParse docs).
Proof.
  unfold dates, validTimes. f_equal.
  induction docs as [|p docs IH]; [reflexivity|].
  rewrite fmap_cons, filter_cons. cbn [omap list_omap].
  unfold JS.isInvalid, JS.getTime at 1.
  destruct (newDate DateParse p) as [t|]; cbn.
  - rewrite decide_True by reflexivity. cbn. f_equal. exact IH.
  - rewrite decide_False by discriminate. exact IH.
Qed.

Lemma validTimes_filter (docs : list UserProgress) :
  validTimes DateParse (filter (parses DateParse) docs) = validTimes DateParse docs.
Proof.
  unfold validTimes.
  induction docs as [|p docs IH]; [reflexivity|].
  rewrite filter_cons.
  destruct (decide (parses DateParse p)) as [Hp|Hp];
    unfold parses, JS.isInvalid, JS.getTime in Hp;
    cbn [omap list_omap]; destruct (newDate DateParse p) as [t|];
    try discriminate; try (exfalso; apply Hp; reflexivity).
  - rewrite IH. reflexivity.
  - exact IH.
Qed.

Lemma validTimes_perm (docs1 docs2 : list UserProgress) :
  docs1 ≡ₚ docs2 -> validTimes DateParse docs1 ≡ₚ validTimes DateParse docs2.
Proof. intros H. unfold validTimes. rewrite H. reflexivity. Qed.

Lemma dates_nil_iff (docs : list UserProgress) :
  dates DateParse docs = [] <-> validTimes DateParse docs = [].
Proof. rewrite dates_validTimes. apply SortFacts.sort_nil_iff. Qed.

(** The computation never throws, and its three fields are these. *)
Lemma computeStreaks_total (docs : list UserProgress) (now : Z) :
  computeStreaks tz DateParse docs now
  = Some (mkStreakResult
            (currentOf (dates DateParse docs))
            (longestOf (dates DateParse docs))
            (computeIsFirstOfMonth tz (dates DateParse docs) now)).
Proof.
  unfold computeStreaks.
  rewrite WalkFacts.computeCurrent_total, WalkFacts.computeLongest_total.
  reflexivity.
Qed.

(** The result depends on the documents through [validTimes] only, and on
    these up to their order. *)
Lemma computeStreaks_validTimes (docs1 docs2 : list UserProgress) (now : Z) :
  validTimes DateParse docs1 ≡ₚ validTimes DateParse docs2 ->
  computeStreaks tz DateParse docs1 now = computeStreaks tz DateParse docs2 now.
Proof.
  intros H. rewrite !computeStreaks_total, !dates_validTimes.
  rewrite (SortFacts.sort_unique _ _ H). reflexivity.
Qed.

End Facts.

(** The POST loop is the GET loop. *)
Lemma streakLoop_currentLoop (l : list Z) (i : nat) (s : Z) :
  PostProgress.streakLoop l i s = currentLoop l i s.
Proof.
  revert s. induction i as [|j IH]; intros s; [reflexivity|].
  cbn [PostProgress.streakLoop currentLoop].
  destruct (l !! S j) as [di|]; [|reflexivity].
  destruct (l !! j) as [dj|]; [|reflexivity]. cbn [mbind option_bind].
  rewrite !IH. reflexivity.
Qed.

Lemma streak_computeCurrent (l : list Z) :
  PostProgress.streak l = computeCurrent l.
Proof.
  unfold PostProgress.streak, computeCurrent.
  destruct (decide (length l = 0%nat)); [reflexivity|].
  apply streakLoop_currentLoop.
Qed.

End StatsFacts.

(** ** Calendar days and the first-of-month flag *)

Module CalendarFacts.
Import ProgressStats Calendar.

Lemma utc_monotone : MonotoneDays JS.utc.
Proof.
  intros s t Hst. unfold localDay, JS.LocalTime, JS.utc, JS.Day, JS.msPerDay.
  apply Z.div_le_mono; lia.
Qed.

Section Local.
Variable tz : JS.TimeZone.

Lemma isSameDay_spec (a b : Z) : isSameDay tz a b = true <-> sameDay tz a b.
Proof.
  unfold isSameDay, sameDay. rewrite !andb_true_iff, !Z.eqb_eq. tauto.
Qed.

Lemma sameDay_inMonth (t now : Z) : sameDay tz t now -> inMonth tz now t.
Proof. unfold sameDay, inMonth. tauto. Qed.

(** Two instants with equal year, month and date lie on one day. *)
Lemma sameDay_localDay (a b : Z) : sameDay tz a b -> localDay tz a = localDay tz b.
Proof.
  intros (Hy & Hm & Hd).
  pose proof (JSFacts.DateFromTime_diff _ _ Hy Hm) as H.
  unfold JS.getDate in Hd. unfold localDay. lia.
Qed.

Lemma getDate_mono (a b : Z) :
  MonotoneDays tz ->
  JS.getFullYear tz a = JS.getFullYear tz b ->
  JS.getMonth tz a = JS.getMonth tz b ->
  a <= b -> JS.getDate tz a <= JS.getDate tz b.
Proof.
  intros Hmono Hy Hm Hab.
  pose proof (JSFacts.DateFromTime_diff _ _ Hy Hm) as H.
  specialize (Hmono a b Hab). unfold localDay in Hmono.
  unfold JS.getDate. lia.
Qed.

Lemma firstOfMonth_singleton (t now : Z) :
  sameDay tz t now -> computeIsFirstOfMonth tz [t] now = true.
Proof.
  intros Hsame. unfold computeIsFirstOfMonth.
  rewrite filter_cons, decide_True by (apply sameDay_inMonth, Hsame).
  cbn. apply isSameDay_spec, Hsame.
Qed.

(** Later dates of the month of the first date do not change the flag. *)
Lemma firstOfMonth_same_month (now t : Z) (rest : list Z) :
  Forall (fun x => JS.getMonth tz x = JS.getMonth tz t
                   /\ JS.getFullYear tz x = JS.getFullYear tz t) rest ->
  computeIsFirstOfMonth tz (t :: rest) now = computeIsFirstOfMonth tz [t] now.
Proof.
  intros Hall. unfold computeIsFirstOfMonth. rewrite !filter_cons.
  destruct (decide (JS.getMonth tz t = JS.getMonth tz now
                    /\ JS.getFullYear tz t = JS.getFullYear tz now)) as [Hin|Hout].
  - reflexivity.
  - rewrite filter_nil.
    induction Hall as [|x rest [Hm Hy] _ IH]; [reflexivity|].
    rewrite filter_cons, decide_False; [exact IH|].
    rewrite Hm, Hy. exact Hout.
Qed.

(** The flag, by the earliest in-month event in time. *)
Lemma firstOfMonth_by_time (times : list Z) (now : Z) :
  computeIsFirstOfMonth tz (JS.sort Walks.byTime times) now = true
  <-> exists t, t ∈ times /\ inMonth tz now t
        /\ (forall t', t' ∈ times -> inMonth tz now t' -> t <= t')
        /\ sameDay tz t now.
Proof.
  pose proof (SortFacts.sort_sorted times) as Hs.
  pose proof (SortFacts.sort_perm times) as Hp.
  unfold computeIsFirstOfMonth. fold (inMonth tz now).
  destruct (filter (inMonth tz now) (JS.sort Walks.byTime times) !! 0%nat)
    as [f|] eqn:Hf.
  - destruct (SortFacts.filter_first_sorted _ _ _ Hs Hf) as (Hin & Hm & Hmin).
    rewrite isSameDay_spec. split.
    + intros Hsame. exists f. rewrite <- Hp. split; [exact Hin|].
      split; [exact Hm|]. split; [|exact Hsame].
      intros t' Ht'. apply Hmin. rewrite Hp. exact Ht'.
    + intros (t & Ht & Htm & Htmin & Hsame).
      assert (f = t) as ->; [|exact Hsame].
      apply Z.le_antisymm.
      * apply Hmin; [rewrite Hp|]; assumption.
      * apply Htmin; [rewrite <- Hp|]; assumption.
  - split; [discriminate|].
    intros (t & Ht & Htm & _). exfalso.
    apply (SortFacts.filter_first_none _ _ Hf t); [rewrite Hp|]; assumption.
Qed.

(** The flag, by the earliest in-month day. *)
Lemma firstOfMonth_by_day (times : list Z) (now : Z) :
  MonotoneDays tz ->
  computeIsFirstOfMonth tz (JS.sort Walks.byTime times) now = true
  <-> exists t, t ∈ times /\ inMonth tz now t
        /\ (forall t', t' ∈ times -> inMonth tz now t' ->
                       JS.getDate tz t <= JS.getDate tz t')
        /\ sameDay tz t now.
Proof.
  intros Hmono. rewrite firstOfMonth_by_time. split.
  - intros (t & Ht & Htm & Hmin & Hsame). exists t.
    split; [exact Ht|]. split; [exact Htm|]. split; [|exact Hsame].
    intros t' Ht' Htm'. destruct Htm as [Hm Hy], Htm' as [Hm' Hy'].
    apply getDate_mono; [exact Hmono|congruence|congruence|].
    apply Hmin; [exact Ht'|split; assumption].
  - intros (t & Ht & Htm & Hmin & Hsame).
    pose proof (SortFacts.sort_perm times) as Hp.
    destruct (filter (inMonth tz now) (JS.sort Walks.byTime times) !! 0%nat)
      as [f|] eqn:Hf.
    + destruct (SortFacts.filter_first_sorted _ _ _
                  (SortFacts.sort_sorted times) Hf) as (Hin & Hfm & Hfmin).
      rewrite Hp in Hin.
      exists f. split; [exact Hin|]. split; [exact Hfm|]. split.
      * intros t' Ht' Htm'. apply Hfmin; [rewrite Hp; exact Ht'|exact Htm'].
      * assert (Hft : f <= t) by (apply Hfmin; [rewrite Hp|]; assumption).
        destruct Htm as [Hm Hy], Hfm as [Hm' Hy'].
        assert (Hd1 : JS.getDate tz f <= JS.getDate tz t)
          by (apply getDate_mono; [exact Hmono|congruence|congruence|exact Hft]).
        assert (Hd2 : JS.getDate tz t <= JS.getDate tz f)
          by (apply Hmin; [exact Hin|split; assumption]).
        destruct Hsame as (Sy & Sm & Sd).
        repeat split; [congruence|congruence|lia].
    + exfalso.
      apply (SortFacts.filter_first_none _ _ Hf t); [rewrite Hp|]; assumption.
Qed.

End Local.
End CalendarFacts.

(** ** Runs of consecutive days *)

Module RunFacts.
Import Runs.

Create HintDb runs discriminated.

(** Membership in an array extended at its end. *)
Ltac in_snoc H :=
  apply elem_of_app in H as [H|H]; [|apply list_elem_of_singleton in H].

Lemma elem_snoc_l (pre : list Z) (x y : Z) : y ∈ pre -> y ∈ pre ++ [x].
Proof. intros Hy. apply elem_of_app. left. exact Hy. Qed.

Lemma elem_snoc_r (pre : list Z) (x : Z) : x ∈ pre ++ [x].
Proof. apply elem_of_app. right. apply list_elem_of_singleton. reflexivity. Qed.

Lemma isRun_subseteq (days days' : list Z) (d k : Z) :
  days ⊆ days' -> isRun days d k -> isRun days' d k.
Proof. intros Hsub Hr j Hj. apply Hsub, Hr, Hj. Qed.

Lemma isRun_snoc_l (pre : list Z) (x d k : Z) :
  isRun pre d k -> isRun (pre ++ [x]) d k.
Proof. apply isRun_subseteq. intros y. apply elem_snoc_l. Qed.

#[export] Hint Resolve elem_snoc_l elem_snoc_r isRun_snoc_l : runs.

Lemma MaxRun_equiv (days days' : list Z) (L : Z) :
  (forall x, x ∈ days <-> x ∈ days') -> MaxRun days L -> MaxRun days' L.
Proof.
  intros Heq [Hmax [d Hd]]. split.
  - intros d' k Hr. apply (Hmax d'). intros j Hj. apply Heq, Hr, Hj.
  - exists d. intros j Hj. apply Heq, Hd, Hj.
Qed.

(** There is at most one greatest run length. *)
Lemma MaxRun_unique (days : list Z) (L L' : Z) :
  MaxRun days L -> MaxRun days L' -> L = L'.
Proof.
  intros [H1 [d1 E1]] [H2 [d2 E2]].
  pose proof (H1 _ _ E2). pose proof (H2 _ _ E1). lia.
Qed.

Lemma MaxRun_nil : MaxRun [] 0.
Proof.
  split.
  - intros d k Hr. destruct (Z_le_gt_dec k 0) as [|Hk]; [assumption|].
    specialize (Hr 0 ltac:(lia)). inversion Hr.
  - exists 0. intros j Hj. lia.
Qed.

(** A run in an array extended by a new greatest day either avoids that
    day or ends on it. *)
Lemma isRun_snoc (pre : list Z) (x d k : Z) :
  (forall y, y ∈ pre -> y <= x) ->
  isRun (pre ++ [x]) d k ->
  isRun pre d k \/ (0 < k /\ x = d + k - 1).
Proof.
  intros Hmax Hr.
  destruct (Z_le_gt_dec k 0) as [Hk|Hk].
  { left. intros j Hj. lia. }
  assert (Hle : forall j, 0 <= j < k -> d + j <= x).
  { intros j Hj. specialize (Hr j Hj). in_snoc Hr; [apply Hmax, Hr|lia]. }
  destruct (Z.eq_dec x (d + k - 1)) as [Hx|Hx]; [right; lia|].
  left. intros j Hj. specialize (Hr j Hj). in_snoc Hr; [exact Hr|].
  specialize (Hle (k - 1) ltac:(lia)). lia.
Qed.

Lemma Inv_init (x : Z) : Inv [x] x 0 1.
Proof.
  split; try lia.
  - apply list_elem_of_singleton. reflexivity.
  - intros y Hy. apply list_elem_of_singleton in Hy. lia.
  - intros j Hj. apply list_elem_of_singleton. lia.
  - intros Hin. apply list_elem_of_singleton in Hin. lia.
  - intros d k Hr. destruct (Z_le_gt_dec k 1) as [|Hk]; [lia|].
    pose proof (Hr 0 ltac:(lia)) as H0. pose proof (Hr 1 ltac:(lia)) as H1.
    apply list_elem_of_singleton in H0, H1. lia.
  - exists 0. intros j Hj. lia.
Qed.

(** One turn of the walk keeps the invariant. *)
Lemma Inv_step (pre : list Z) (prev lo run x : Z) :
  prev <= x -> Inv pre prev lo run ->
  Inv (pre ++ [x]) x (fst (dayTurn prev x (lo, run))) (snd (dayTurn prev x (lo, run))).
Proof.
  intros Hle [Hrun Hlo Hin Hmax Hr Hmaxl Hbound [d0 Hd0]].
  assert (Hmx : forall y, y ∈ pre -> y <= x).
  { intros y Hy. specialize (Hmax y Hy). lia. }
  assert (Hmax' : forall y, y ∈ pre ++ [x] -> y <= x).
  { intros y Hy. in_snoc Hy; [apply Hmx, Hy|lia]. }
  assert (Hold : exists d, isRun (pre ++ [x]) d (Z.max lo run)).
  { destruct (Z_le_gt_dec run lo).
    - exists d0. rewrite Z.max_l by lia. auto with runs.
    - exists (prev - run + 1). rewrite Z.max_r by lia. auto with runs. }
  unfold dayTurn. cbn [fst snd].
  destruct (Z.eqb_spec (x - prev) 1) as [H1|H1];
    [|destruct (Z.eqb_spec (x - prev) 0) as [H0|H0]]; cbn [fst snd].
  - (* the next day: the run grows *)
    split; try assumption; try lia; auto with runs.
    + intros j Hj. destruct (Z.eq_dec j run) as [->|Hne].
      * replace (x - (run + 1) + 1 + run) with x by lia. auto with runs.
      * replace (x - (run + 1) + 1 + j) with (prev - run + 1 + j) by lia.
        apply elem_snoc_l, Hr. lia.
    + intros Hc. in_snoc Hc; [|lia].
      apply Hmaxl. replace (prev - run) with (x - (run + 1)) by lia. exact Hc.
    + intros d k Hrk. destruct (isRun_snoc pre x d k Hmx Hrk) as [Hp|[Hk Hend]].
      * specialize (Hbound d k Hp). lia.
      * destruct (Z_le_gt_dec k (run + 1)) as [|Hbig]; [lia|].
        exfalso. specialize (Hrk (k - 2 - run) ltac:(lia)). in_snoc Hrk; [|lia].
        apply Hmaxl. replace (prev - run) with (d + (k - 2 - run)) by lia.
        exact Hrk.
    + exists d0. auto with runs.
  - (* the same day again: nothing changes *)
    assert (x = prev) by lia. subst x.
    assert (Heq : forall y, y ∈ pre ++ [prev] <-> y ∈ pre).
    { intros y. rewrite elem_of_app, list_elem_of_singleton. split; [|tauto].
      intros [Hy| ->]; assumption. }
    split; try assumption; try lia; auto with runs.
    + rewrite Heq. exact Hmaxl.
    + intros d k Hrk. apply (Hbound d). intros j Hj. apply Heq, Hrk, Hj.
    + exists d0. auto with runs.
  - (* a gap: the run is closed and a new one starts *)
    split; try assumption; try lia; auto with runs.
    + intros j Hj. replace (x - 1 + 1 + j) with x by lia. auto with runs.
    + intros Hc. in_snoc Hc; [|lia]. specialize (Hmax _ Hc). lia.
    + intros d k Hrk. destruct (isRun_snoc pre x d k Hmx Hrk) as [Hp|[Hk Hend]].
      * specialize (Hbound d k Hp). lia.
      * destruct (Z_le_gt_dec k 1) as [|Hbig]; [lia|].
        exfalso. specialize (Hrk (k - 2) ltac:(lia)). in_snoc Hrk; [|lia].
        specialize (Hmax _ Hrk). lia.
Qed.

Lemma dayForward_MaxRun (rest pre : list Z) (prev lo run : Z) :
  Sorted Z.le (prev :: rest) -> Inv pre prev lo run ->
  MaxRun (pre ++ rest)
    (Z.max (fst (dayForward prev rest (lo, run)))
           (snd (dayForward prev rest (lo, run)))).
Proof.
  revert pre prev lo run. induction rest as [|x rest IH]; intros pre prev lo run Hs HI.
  - rewrite app_nil_r. cbn [dayForward fst snd].
    destruct HI as [Hrun Hlo Hin Hmax Hr Hmaxl Hbound [d0 Hd0]].
    split; [exact Hbound|].
    destruct (Z_le_gt_dec run lo).
    + exists d0. rewrite Z.max_l by lia. exact Hd0.
    + exists (prev - run + 1). rewrite Z.max_r by lia. exact Hr.
  - cbn [dayForward].
    apply Sorted_inv in Hs as [Hs Hhd]. apply HdRel_inv in Hhd.
    pose proof (Inv_step pre prev lo run x Hhd HI) as HI'.
    destruct (dayTurn prev x (lo, run)) as [lo' run'].
    replace (pre ++ x :: rest) with ((pre ++ [x]) ++ rest)
      by (rewrite <- app_assoc; reflexivity).
    apply IH; assumption.
Qed.

(** On a sorted array of days the walk returns the greatest run length. *)
Lemma dayLongest_MaxRun (days : list Z) :
  Sorted Z.le days -> MaxRun days (dayLongest days).
Proof.
  destruct days as [|x rest]; intros Hs.
  - apply MaxRun_nil.
  - apply (dayForward_MaxRun rest [x] x 0 1 Hs (Inv_init x)).
Qed.

End RunFacts.

(** ** Events within one half-day window *)

Module AlignedFacts.
Import Walks Runs Aligned.

Section Day.
Variable day : Z -> Z.
Variable a : Z.

(** Between two such events the rounded gap is the difference of their
    days. *)
Lemma gap_aligned (s t : Z) :
  aligned day a s -> aligned day a t -> gap s t = day t - day s.
Proof.
  unfold aligned, halfDay, gap, JS.roundDays, JS.msPerDay. intros Hs Ht.
  symmetry.
  apply (Z.div_unique _ _ _
           (2 * (t - day t * 86400000 - (s - day s * 86400000)) + 86400000));
    lia.
Qed.

Lemma forward_aligned (prev : Z) (rest : list Z) (st : Z * Z) :
  Forall (aligned day a) (prev :: rest) ->
  forward prev rest st = dayForward (day prev) (day <$> rest) st.
Proof.
  revert prev st. induction rest as [|x rest IH]; intros prev st Hall.
  - reflexivity.
  - apply Forall_cons in Hall as [Hp Hall].
    pose proof Hall as Hall'. apply Forall_cons in Hall' as [Hx _].
    cbn [forward fmap list_fmap dayForward].
    rewrite (IH x _ Hall). f_equal.
    unfold turn, dayTurn. rewrite (gap_aligned _ _ Hp Hx). reflexivity.
Qed.

Lemma longestOf_aligned (l : list Z) :
  Forall (aligned day a) l -> longestOf l = dayLongest (day <$> l).
Proof.
  destruct l as [|x rest]; intros Hall; [reflexivity|].
  unfold longestOf, dayLongest. cbn [fmap list_fmap].
  rewrite (forward_aligned _ _ _ Hall). reflexivity.
Qed.

(** Sorted by time, such events are sorted by day. *)
Lemma sorted_aligned (l : list Z) :
  Forall (aligned day a) l -> Sorted Z.le l -> Sorted Z.le (day <$> l).
Proof.
  intros Hall Hs. induction Hs as [|x l Hs IH Hhd]; [constructor|].
  apply Forall_cons in Hall as [Hx Hall].
  cbn [fmap list_fmap]. constructor; [apply IH, Hall|].
  destruct Hhd as [|y l' Hxy]; constructor.
  apply Forall_cons in Hall as [Hy _].
  unfold aligned, halfDay, JS.msPerDay in *. lia.
Qed.

(** On such events the longest streak is the greatest run of consecutive
    days. *)
Lemma longestOf_MaxRun (times : list Z) :
  Forall (aligned day a) times ->
  MaxRun (day <$> times) (longestOf (JS.sort byTime times)).
Proof.
  intros Hall.
  assert (Hsorted : Forall (aligned day a) (JS.sort byTime times)).
  { rewrite (SortFacts.sort_perm times). exact Hall. }
  rewrite (longestOf_aligned _ Hsorted).
  apply (RunFacts.MaxRun_equiv (day <$> JS.sort byTime times)).
  - intros x. rewrite (SortFacts.sort_perm times). reflexivity.
  - apply RunFacts.dayLongest_MaxRun, sorted_aligned;
      [exact Hsorted | apply SortFacts.sort_sorted].
Qed.

End Day.

(** Events with one offset and local times of day in one half-day window
    are aligned on their local calendar days. *)
Lemma withinHalfDay_aligned (tz : JS.TimeZone) (off a : Z) (times : list Z) :
  withinHalfDay tz off a times ->
  Forall (aligned (Calendar.localDay tz) (a - off)) times.
Proof.
  unfold withinHalfDay. intros Hal. eapply Forall_impl; [exact Hal|].
  intros t [Hoff Htod]. unfold aligned, Calendar.localDay.
  unfold JS.TimeWithinDay, JS.Day, JS.LocalTime in *. rewrite Hoff in *.
  pose proof (Z.div_mod (t + off) JS.msPerDay ltac:(discriminate)). lia.
Qed.

End AlignedFacts.

(** ** Dates as text *)

Module TextFacts.
Import JSText.

Lemma digit_digitChar (n : Z) : 0 <= n <= 9 -> JS.digit (digitChar n) = Some n.
Proof.
  intros Hn.
  assert (Hall : Forall (fun k => JS.digit (digitChar k) = Some k) (seqZ 0 10))
    by (apply (bool_decide_unpack _); vm_compute; exact I).
  rewrite Forall_forall in Hall. apply Hall, elem_of_seqZ. lia.
Qed.

Lemma length_fixed (w : nat) (n : Z) : length (fixed w n) = w.
Proof.
  revert n. induction w as [|w IH]; intros n; [reflexivity|].
  cbn [fixed]. rewrite length_app, IH. cbn. lia.
Qed.

Lemma digits_snoc (acc : Z) (cs : list ascii) (c : ascii) :
  JS.digits acc (cs ++ [c])
  = (a ← JS.digits acc cs; n ← JS.digit c; Some (10 * a + n)).
Proof.
  revert acc. induction cs as [|c' cs IH]; intros acc; cbn [app JS.digits].
  - destruct (JS.digit c); reflexivity.
  - destruct (JS.digit c') as [n'|]; cbn [mbind option_bind]; [apply IH|reflexivity].
Qed.

(** Reading back [w] printed digits. *)
Lemma digits_fixed (w : nat) (n : Z) :
  0 <= n < 10 ^ Z.of_nat w -> JS.digits 0 (fixed w n) = Some n.
Proof.
  revert n. induction w as [|w IH]; intros n Hn.
  - cbn in *. f_equal. lia.
  - cbn [fixed]. rewrite digits_snoc.
    rewrite Nat2Z.inj_succ, Z.pow_succ_r in Hn by lia.
    rewrite IH by (Z.div_mod_to_equations; lia). cbn [mbind option_bind].
    rewrite digit_digitChar by (Z.div_mod_to_equations; lia).
    cbn [mbind option_bind]. f_equal. Z.div_mod_to_equations; lia.
Qed.

Lemma list_of_string_of_list (l : list ascii) :
  list_ascii_of_string (string_of_list_ascii l) = l.
Proof. apply list_ascii_of_string_of_list_ascii. Qed.

Lemma length_string_of_list (l : list ascii) :
  String.length (string_of_list_ascii l) = length l.
Proof. induction l as [|c l IH]; cbn; [reflexivity|]. rewrite IH. reflexivity. Qed.

Lemma substring_of_list (p n : nat) (l : list ascii) :
  list_ascii_of_string (String.substring p n (string_of_list_ascii l))
  = take n (drop p l).
Proof.
  revert p n. induction l as [|c l IH]; intros p n.
  - destruct p, n; reflexivity.
  - destruct p as [|p].
    + destruct n as [|n]; [reflexivity|]. cbn. f_equal. apply (IH 0%nat n).
    + cbn. apply IH.
Qed.

Lemma get_of_list (p : nat) (l : list ascii) :
  String.get p (string_of_list_ascii l) = l !! p.
Proof.
  revert p. induction l as [|c l IH]; intros p.
  - destruct p; reflexivity.
  - destruct p as [|p]; [reflexivity|]. cbn. apply IH.
Qed.

(** A field of [w] printed digits at position [p]. *)
Lemma field_fixed (pre post : list ascii) (w : nat) (n : Z) :
  0 <= n < 10 ^ Z.of_nat w ->
  JS.field (string_of_list_ascii (pre ++ fixed w n ++ post)) (length pre) w = Some n.
Proof.
  intros Hn. unfold JS.field. rewrite substring_of_list.
  rewrite drop_app_length.
  rewrite take_app_length' by (rewrite length_fixed; reflexivity).
  rewrite length_fixed. rewrite decide_True by reflexivity.
  apply digits_fixed, Hn.
Qed.

Lemma charAt_of_list (pre post : list ascii) (c : ascii) :
  JS.charAt (string_of_list_ascii (pre ++ c :: post)) (length pre) c = true.
Proof.
  unfold JS.charAt. rewrite get_of_list.
  rewrite list_lookup_middle by reflexivity. apply bool_decide_eq_true. reflexivity.
Qed.

End TextFacts.

(** ** The calendar fields of a time value *)

Module FieldFacts.
Import JSText.

Lemma MonthFromTime_range (t : Z) : 0 <= JS.MonthFromTime t <= 11.
Proof.
  unfold JS.MonthFromTime.
  repeat match goal with |- context [if ?b then _ else _] => destruct b end; lia.
Qed.

Lemma InLeapYear_cases (t : Z) :
  (JS.InLeapYear t = 0 /\ JS.DaysInYear (JS.YearFromTime t) = 365)
  \/ (JS.InLeapYear t = 1 /\ JS.DaysInYear (JS.YearFromTime t) = 366).
Proof.
  unfold JS.InLeapYear, JS.DaysInYear.
  repeat match goal with |- context [negb ?b] => destruct b; cbn [negb] end;
    cbn; auto.
Qed.

Lemma DayWithinYear_range (t : Z) :
  0 <= JS.DayWithinYear t < JS.DaysInYear (JS.YearFromTime t).
Proof.
  unfold JS.DayWithinYear, JS.YearFromTime.
  pose proof (JSFacts.YearFromDay_spec (JS.Day t)) as H.
  rewrite JSFacts.DayFromYear_step in H. lia.
Qed.

(** Year, month and date give the day back. *)
Lemma MakeDay_fields (t : Z) :
  JS.MakeDay (JS.YearFromTime t) (JS.MonthFromTime t) (JS.DateFromTime t) = JS.Day t.
Proof.
  unfold JS.MakeDay, JS.DateFromTime, JS.DayWithinYear.
  fold (JS.InLeapYear t). lia.
Qed.

Lemma DateFromTime_range (t : Z) :
  1 <= JS.DateFromTime t <= JS.DaysInMonth (JS.YearFromTime t) (JS.MonthFromTime t).
Proof.
  pose proof (DayWithinYear_range t) as Hd.
  unfold JS.DaysInMonth. fold (JS.InLeapYear t).
  unfold JS.DateFromTime, JS.MonthFromTime.
  destruct (InLeapYear_cases t) as [[Hl Hy]|[Hl Hy]]; rewrite Hl, Hy in *;
    repeat match goal with
           | |- context [if ?a <? ?b then _ else _] => destruct (Z.ltb_spec a b)
           end; cbn;
    repeat match goal with
           | |- context [JS.monthStart ?a ?b] =>
               let v := eval vm_compute in (JS.monthStart a b) in
               change (JS.monthStart a b) with v
           end; lia.
Qed.

Lemma DateFromTime_le_31 (t : Z) : 1 <= JS.DateFromTime t <= 31.
Proof.
  pose proof (DateFromTime_range t) as H.
  pose proof (MonthFromTime_range t) as Hm.
  assert (JS.DaysInMonth (JS.YearFromTime t) (JS.MonthFromTime t) <= 31); [|lia].
  unfold JS.DaysInMonth. revert Hm. generalize (JS.MonthFromTime t). intros m Hm.
  assert (Hall : forall leap, leap = 1 \/ leap = 0 ->
             Forall (fun k => (if k =? 11 then 31
                               else JS.monthStart (k + 1) leap - JS.monthStart k leap)
                              <= 31)
                    (seqZ 0 12))
    by (intros leap [->| ->]; apply (bool_decide_unpack _); vm_compute; exact I).
  cbn zeta.
  match goal with
  | |- context [JS.monthStart m ?leap] =>
      assert (Hleap : leap = 1 \/ leap = 0)
        by (destruct (JS.DaysInYear (JS.YearFromTime t) =? 366); auto);
      specialize (Hall leap Hleap)
  end.
  rewrite Forall_forall in Hall. apply (Hall m), elem_of_seqZ. lia.
Qed.

Lemma time_fields_range (t : Z) :
  0 <= HourFromTime t <= 23 /\ 0 <= MinFromTime t <= 59
  /\ 0 <= SecFromTime t <= 59 /\ 0 <= msFromTime t <= 999.
Proof.
  unfold HourFromTime, MinFromTime, SecFromTime, msFromTime,
    JS.msPerHour, JS.msPerMinute, JS.msPerSecond.
  repeat split; Z.div_mod_to_equations; lia.
Qed.

(** Hour, minute, second and millisecond give the time within the day. *)
Lemma MakeTime_fields (t : Z) :
  JS.MakeTime (HourFromTime t) (MinFromTime t) (SecFromTime t) (msFromTime t)
  = JS.TimeWithinDay t.
Proof.
  unfold JS.MakeTime, HourFromTime, MinFromTime, SecFromTime, msFromTime,
    JS.TimeWithinDay, JS.msPerHour, JS.msPerMinute, JS.msPerSecond, JS.msPerDay.
  Z.div_mod_to_equations. lia.
Qed.

Lemma MakeDate_fields (t : Z) :
  JS.MakeDate (JS.Day t) (JS.TimeWithinDay t) = t.
Proof.
  unfold JS.MakeDate, JS.Day, JS.TimeWithinDay, JS.msPerDay.
  Z.div_mod_to_equations. lia.
Qed.

End FieldFacts.

(** ** Printing a date and reading it back *)

Module IsoFacts.
Import JSText IsoText.

Ltac width_bound :=
  change (Z.of_nat 4) with 4; change (Z.of_nat 2) with 2;
  change (Z.of_nat 3) with 3; lia.

Lemma length_dateChars (y mo d : Z) : length (dateChars y mo d) = 10%nat.
Proof.
  unfold dateChars. rewrite !length_app, !TextFacts.length_fixed. reflexivity.
Qed.

Lemma length_timeChars (h mi s ms : Z) : length (timeChars h mi s ms) = 14%nat.
Proof.
  unfold timeChars. rewrite !length_app, !TextFacts.length_fixed. reflexivity.
Qed.

Section Fields.
Variables y mo d h mi s ms : Z.
Hypothesis Hy : 0 <= y <= 9999.
Hypothesis Hmo : 1 <= mo <= 12.
Hypothesis Hd : 1 <= d <= JS.DaysInMonth y (mo - 1).
Hypothesis Hd31 : d <= 31.
Hypothesis Hh : 0 <= h <= 23.
Hypothesis Hmi : 0 <= mi <= 59.
Hypothesis Hs : 0 <= s <= 59.
Hypothesis Hms : 0 <= ms <= 999.

(** The date part is read whatever follows it. *)
Lemma date_parseYMD (rest : list ascii) :
  JS.parseYMD (string_of_list_ascii (dateChars y mo d ++ rest))
  = Some (JS.MakeDay y (mo - 1) d).
Proof.
  unfold JS.parseYMD.
  set (str := string_of_list_ascii (dateChars y mo d ++ rest)).
  assert (F1 : JS.field str 0 4 = Some y).
  { refine (TextFacts.field_fixed [] _ 4 y _). width_bound. }
  assert (F2 : JS.field str 5 2 = Some mo).
  { refine (TextFacts.field_fixed (fixed 4 y ++ ["-"%char]) _ 2 mo _). width_bound. }
  assert (F3 : JS.field str 8 2 = Some d).
  { refine (TextFacts.field_fixed
              (fixed 4 y ++ ["-"%char] ++ fixed 2 mo ++ ["-"%char]) rest 2 d _).
    width_bound. }
  assert (C1 : JS.charAt str 4 "-" = true).
  { exact (TextFacts.charAt_of_list (fixed 4 y) _ "-"%char). }
  assert (C2 : JS.charAt str 7 "-" = true).
  { exact (TextFacts.charAt_of_list
             (fixed 4 y ++ ["-"%char] ++ fixed 2 mo) _ "-"%char). }
  rewrite F1, F2, F3. cbn [mbind option_bind]. rewrite C1, C2.
  destruct (Z.leb_spec 1 mo); [|lia]. destruct (Z.leb_spec mo 12); [|lia].
  destruct (Z.leb_spec 1 d); [|lia].
  destruct (Z.leb_spec d (JS.DaysInMonth y (mo - 1))); [|lia].
  reflexivity.
Qed.

Lemma time_parseHMS :
  JS.parseHMS (string_of_list_ascii (dateChars y mo d ++ timeChars h mi s ms))
  = Some (JS.MakeTime h mi s ms).
Proof.
  unfold JS.parseHMS.
  set (str := string_of_list_ascii (dateChars y mo d ++ timeChars h mi s ms)).
  pose (date := dateChars y mo d).
  assert (F1 : JS.field str 11 2 = Some h).
  { refine (TextFacts.field_fixed (date ++ ["T"%char]) _ 2 h _). width_bound. }
  assert (F2 : JS.field str 14 2 = Some mi).
  { refine (TextFacts.field_fixed
              (date ++ ["T"%char] ++ fixed 2 h ++ [":"%char]) _ 2 mi _).
    width_bound. }
  assert (F3 : JS.field str 17 2 = Some s).
  { refine (TextFacts.field_fixed
              (date ++ ["T"%char] ++ fixed 2 h ++ [":"%char] ++ fixed 2 mi
               ++ [":"%char]) _ 2 s _).
    width_bound. }
  assert (F4 : JS.field str 20 3 = Some ms).
  { refine (TextFacts.field_fixed
              (date ++ ["T"%char] ++ fixed 2 h ++ [":"%char] ++ fixed 2 mi
               ++ [":"%char] ++ fixed 2 s ++ ["."%char]) [_] 3 ms _).
    width_bound. }
  assert (C1 : JS.charAt str 10 "T" = true).
  { exact (TextFacts.charAt_of_list date _ "T"%char). }
  assert (C2 : JS.charAt str 13 ":" = true).
  { exact (TextFacts.charAt_of_list (date ++ ["T"%char] ++ fixed 2 h) _ ":"%char). }
  assert (C3 : JS.charAt str 16 ":" = true).
  { exact (TextFacts.charAt_of_list
             (date ++ ["T"%char] ++ fixed 2 h ++ [":"%char] ++ fixed 2 mi)
             _ ":"%char). }
  assert (C4 : JS.charAt str 19 "." = true).
  { exact (TextFacts.charAt_of_list
             (date ++ ["T"%char] ++ fixed 2 h ++ [":"%char] ++ fixed 2 mi
              ++ [":"%char] ++ fixed 2 s) _ "."%char). }
  assert (C5 : JS.charAt str 23 "Z" = true).
  { exact (TextFacts.charAt_of_list
             (date ++ ["T"%char] ++ fixed 2 h ++ [":"%char] ++ fixed 2 mi
              ++ [":"%char] ++ fixed 2 s ++ ["."%char] ++ fixed 3 ms)
             [] "Z"%char). }
  rewrite F1, F2, F3, F4. cbn [mbind option_bind]. rewrite C1, C2, C3, C4, C5.
  destruct (Z.leb_spec h 23); [|lia]. destruct (Z.leb_spec mi 59); [|lia].
  destruct (Z.leb_spec s 59); [|lia]. reflexivity.
Qed.

Lemma parse_date_time :
  JS.parse (string_of_list_ascii (dateChars y mo d ++ timeChars h mi s ms))
  = Some (JS.MakeDate (JS.MakeDay y (mo - 1) d) (JS.MakeTime h mi s ms)).
Proof.
  unfold JS.parse. rewrite TextFacts.length_string_of_list, length_app,
    length_dateChars, length_timeChars.
  rewrite decide_False by discriminate. rewrite decide_True by reflexivity.
  rewrite date_parseYMD, time_parseHMS. reflexivity.
Qed.

Lemma parse_dateChars :
  JS.parse (string_of_list_ascii (dateChars y mo d))
  = Some (JS.MakeDate (JS.MakeDay y (mo - 1) d) 0).
Proof.
  unfold JS.parse. rewrite TextFacts.length_string_of_list, length_dateChars.
  rewrite decide_True by reflexivity.
  rewrite <- (app_nil_r (dateChars y mo d)), date_parseYMD. reflexivity.
Qed.

End Fields.

(** The characters [toISOString] prints for a year of four digits. *)
Lemma toISOString_chars (t : Z) :
  0 <= JS.YearFromTime t <= 9999 ->
  toISOString t
  = string_of_list_ascii
      (dateChars (JS.YearFromTime t) (JS.MonthFromTime t + 1) (JS.DateFromTime t)
       ++ timeChars (HourFromTime t) (MinFromTime t) (SecFromTime t)
                    (msFromTime t)).
Proof.
  intros Hy. unfold toISOString, dateChars, timeChars, isoYear.
  destruct (Z.leb_spec 0 (JS.YearFromTime t)); [|lia].
  destruct (Z.leb_spec (JS.YearFromTime t) 9999); [|lia].
  cbn [andb]. rewrite <- !app_assoc. reflexivity.
Qed.

(** [Date.parse(d.toISOString())] is the time value of [d], for the years
    printed in four digits. *)
Lemma parse_toISOString (t : Z) :
  0 <= JS.YearFromTime t <= 9999 -> JS.parse (toISOString t) = Some t.
Proof.
  intros Hy.
  pose proof (FieldFacts.MonthFromTime_range t) as Hm.
  pose proof (FieldFacts.DateFromTime_range t) as Hd.
  pose proof (FieldFacts.DateFromTime_le_31 t) as Hd31.
  destruct (FieldFacts.time_fields_range t) as (Hh & Hmi & Hs & Hms).
  assert (Hd' : 1 <= JS.DateFromTime t
                <= JS.DaysInMonth (JS.YearFromTime t) (JS.MonthFromTime t + 1 - 1))
    by (replace (JS.MonthFromTime t + 1 - 1) with (JS.MonthFromTime t) by lia;
        exact Hd).
  rewrite (toISOString_chars t Hy).
  rewrite parse_date_time by (first [exact Hd' | lia]).
  replace (JS.MonthFromTime t + 1 - 1) with (JS.MonthFromTime t) by lia.
  rewrite FieldFacts.MakeDay_fields, FieldFacts.MakeTime_fields,
    FieldFacts.MakeDate_fields. reflexivity.
Qed.

(** The date-only form of the calendar fields of [t] reads as the start of
    the day of [t]. *)
Lemma parse_date_of_fields (t : Z) :
  0 <= JS.YearFromTime t <= 9999 ->
  JS.parse (string_of_list_ascii
              (dateChars (JS.YearFromTime t) (JS.MonthFromTime t + 1)
                         (JS.DateFromTime t)))
  = Some (JS.Day t * JS.msPerDay).
Proof.
  intros Hy.
  pose proof (FieldFacts.MonthFromTime_range t) as Hm.
  pose proof (FieldFacts.DateFromTime_range t) as Hd.
  pose proof (FieldFacts.DateFromTime_le_31 t) as Hd31.
  assert (Hd' : 1 <= JS.DateFromTime t
                <= JS.DaysInMonth (JS.YearFromTime t) (JS.MonthFromTime t + 1 - 1))
    by (replace (JS.MonthFromTime t + 1 - 1) with (JS.MonthFromTime t) by lia;
        exact Hd).
  rewrite parse_dateChars by (first [exact Hd' | lia]).
  replace (JS.MonthFromTime t + 1 - 1) with (JS.MonthFromTime t) by lia.
  rewrite FieldFacts.MakeDay_fields. unfold JS.MakeDate. f_equal. lia.
Qed.

Lemma substring_prefix (a b : list ascii) :
  String.substring 0 (length a) (string_of_list_ascii (a ++ b))
  = string_of_list_ascii a.
Proof. induction a as [|c a IH]; cbn; [destruct b; reflexivity|]. rewrite IH. reflexivity. Qed.

(** The first ten characters of [toISOString] are the date-only form. *)
Lemma sliceTo_toISOString (t : Z) :
  0 <= JS.YearFromTime t <= 9999 ->
  sliceTo 10 (toISOString t)
  = string_of_list_ascii
      (dateChars (JS.YearFromTime t) (JS.MonthFromTime t + 1) (JS.DateFromTime t)).
Proof.
  intros Hy. rewrite (toISOString_chars t Hy). unfold sliceTo.
  rewrite <- (length_dateChars (JS.YearFromTime t) (JS.MonthFromTime t + 1)
                (JS.DateFromTime t)) at 1.
  apply substring_prefix.
Qed.

(** *** [String(n)] and [padStart] on the fields of a date *)

Lemma decimal_four (n : Z) :
  1000 <= n <= 9999 -> decimal n = string_of_list_ascii (fixed 4 n).
Proof.
  intros Hn. unfold decimal. destruct (Z.ltb_spec n 0); [lia|].
  f_equal. cbn [decimalGo fixed app].
  destruct (Z.ltb_spec n 10); [lia|].
  destruct (Z.ltb_spec (n / 10) 10); [Z.div_mod_to_equations; lia|].
  destruct (Z.ltb_spec (n / 10 / 10) 10); [Z.div_mod_to_equations; lia|].
  destruct (Z.ltb_spec (n / 10 / 10 / 10) 10); [|Z.div_mod_to_equations; lia].
  reflexivity.
Qed.

Lemma padStart_two (n : Z) :
  0 <= n <= 99 -> padStart 2 "0" (decimal n) = string_of_list_ascii (fixed 2 n).
Proof.
  intros Hn. unfold padStart, decimal. destruct (Z.ltb_spec n 0); [lia|].
  cbn [decimalGo fixed app].
  destruct (Z.ltb_spec n 10).
  - replace (n / 10 mod 10) with 0 by (Z.div_mod_to_equations; lia). reflexivity.
  - destruct (Z.ltb_spec (n / 10) 10); [|Z.div_mod_to_equations; lia]. reflexivity.
Qed.

Lemma string_of_list_app (a b : list ascii) :
  string_of_list_ascii (a ++ b) = string_of_list_ascii a +:+ string_of_list_ascii b.
Proof. induction a as [|c a IH]; cbn; [reflexivity|]. rewrite IH. reflexivity. Qed.

(** The day string of the scheduler is the date-only form of the local
    fields. *)
Lemma getLocalDayString_chars (tz : JS.TimeZone) (t : Z) :
  1000 <= JS.getFullYear tz t <= 9999 ->
  Scheduler.getLocalDayString tz t
  = string_of_list_ascii
      (dateChars (JS.getFullYear tz t) (JS.getMonth tz t + 1) (JS.getDate tz t)).
Proof.
  intros Hy. unfold Scheduler.getLocalDayString, dateChars.
  pose proof (FieldFacts.MonthFromTime_range (JS.LocalTime tz t)) as Hm.
  pose proof (FieldFacts.DateFromTime_le_31 (JS.LocalTime tz t)) as Hd.
  rewrite (decimal_four _ Hy).
  rewrite (padStart_two (JS.getMonth tz t + 1)) by (unfold JS.getMonth; lia).
  rewrite (padStart_two (JS.getDate tz t)) by (unfold JS.getDate; lia).
  rewrite !string_of_list_app. reflexivity.
Qed.

(** Year, month and date are functions of the day. *)
Lemma fields_of_Day (a b : Z) :
  JS.Day a = JS.Day b ->
  JS.YearFromTime a = JS.YearFromTime b
  /\ JS.MonthFromTime a = JS.MonthFromTime b
  /\ JS.DateFromTime a = JS.DateFromTime b.
Proof.
  intros H.
  assert (Hy : JS.YearFromTime a = JS.YearFromTime b)
    by (unfold JS.YearFromTime; rewrite H; reflexivity).
  assert (Hm : JS.MonthFromTime a = JS.MonthFromTime b)
    by (unfold JS.MonthFromTime, JS.DayWithinYear, JS.InLeapYear;
        rewrite H, Hy; reflexivity).
  split; [exact Hy|]. split; [exact Hm|].
  unfold JS.DateFromTime, JS.DayWithinYear, JS.InLeapYear.
  rewrite H, Hy, Hm. reflexivity.
Qed.

End IsoFacts.

(** ** The map and the store *)

Module MapFacts.
Import JSMap.

Section Map.
Context {V : Type}.
Implicit Types (m : t V) (k : string) (v : V).

Lemma get_None m k : get k m = None <-> k ∉ keys m.
Proof.
  unfold keys. induction m as [|[k' v'] m IH]; cbn.
  - split; [intros _ H; inversion H|reflexivity].
  - destruct (decide (k' = k)) as [->|Hne].
    + split; [discriminate|]. intros H. exfalso. apply H. left.
    + rewrite IH, not_elem_of_cons. split; [intros H; split; [congruence|exact H]|tauto].
Qed.

Lemma get_replace m k v k' :
  get k' (replace k v m)
  = if decide (k = k') then (fun _ => v) <$> get k m else get k' m.
Proof.
  induction m as [|[k0 v0] m IH]; cbn.
  - destruct (decide (k = k')); reflexivity.
  - repeat case_decide; simplify_eq; cbn; repeat case_decide; simplify_eq; done.
Qed.

Lemma get_app m1 m2 k :
  get k (m1 ++ m2) = match get k m1 with Some v => Some v | None => get k m2 end.
Proof.
  induction m1 as [|[k0 v0] m1 IH]; cbn; [reflexivity|].
  destruct (decide (k0 = k)); [reflexivity|exact IH].
Qed.

(** Reading the key just written gives the value written. *)
Lemma get_set_eq m k v : get k (set k v m) = Some v.
Proof.
  unfold set. destruct (get k m) as [old|] eqn:E.
  - rewrite get_replace, decide_True by reflexivity. rewrite E. reflexivity.
  - rewrite get_app, E. cbn. rewrite decide_True by reflexivity. reflexivity.
Qed.

(** Writing one key leaves every other key as it was. *)
Lemma get_set_ne m k v k' : k <> k' -> get k' (set k v m) = get k' m.
Proof.
  intros Hne. unfold set. destruct (get k m) as [old|] eqn:E.
  - rewrite get_replace, decide_False by exact Hne. reflexivity.
  - rewrite get_app. destruct (get k' m); [reflexivity|].
    cbn. rewrite decide_False by exact Hne. reflexivity.
Qed.

(** A new key goes to the end. *)
Lemma values_set_fresh m k v : get k m = None -> values (set k v m) = values m ++ [v].
Proof.
  intros E. unfold set, values. rewrite E, fmap_app. reflexivity.
Qed.

Lemma keys_replace m k v : keys (replace k v m) = keys m.
Proof.
  unfold keys. induction m as [|[k0 v0] m IH]; cbn; [reflexivity|].
  destruct (decide (k0 = k)) as [->|Hne]; cbn; [reflexivity|].
  rewrite IH. reflexivity.
Qed.

Lemma length_values_replace m k v : length (values (replace k v m)) = length (values m).
Proof.
  unfold values. rewrite !length_fmap.
  rewrite <- (length_fmap fst (replace k v m)), <- (length_fmap fst m).
  change (length (keys (replace k v m)) = length (keys m)).
  rewrite keys_replace. reflexivity.
Qed.

(** The keys stay distinct. *)
Lemma keys_set_NoDup m k v : NoDup (keys m) -> NoDup (keys (set k v m)).
Proof.
  intros Hnd. unfold set. destruct (get k m) as [old|] eqn:E.
  - rewrite keys_replace. exact Hnd.
  - unfold keys in *. rewrite fmap_app. apply NoDup_app. split; [exact Hnd|].
    split; [|apply NoDup_singleton].
    intros x Hx Hx'. apply list_elem_of_singleton in Hx'. subst x.
    apply get_None in E. contradiction.
Qed.

(** Every value held after a write was held before or is the one
    written. *)
Lemma values_set_elem m k v x :
  x ∈ values (set k v m) -> x = v \/ x ∈ values m.
Proof.
  unfold set. destruct (get k m) as [old|] eqn:E.
  - clear E. unfold values. induction m as [|[k0 v0] m IH]; cbn.
    + intros H. inversion H.
    + destruct (decide (k0 = k)) as [->|Hne]; cbn.
      * rewrite !elem_of_cons. tauto.
      * rewrite !elem_of_cons. intros [->|H]; [tauto|]. destruct (IH H); tauto.
  - unfold values. rewrite fmap_app, elem_of_app. cbn.
    rewrite list_elem_of_singleton. tauto.
Qed.

(** The value written is held after the write. *)
Lemma values_set_new m k v : v ∈ values (set k v m).
Proof.
  unfold set. destruct (get k m) as [old|] eqn:E.
  - unfold values. induction m as [|[k0 v0] m IH]; cbn in *; [discriminate|].
    destruct (decide (k0 = k)) as [->|Hne]; cbn; [left|right; apply IH, E].
  - unfold values. rewrite fmap_app, elem_of_app. right. cbn. left.
Qed.

End Map.
End MapFacts.

Module StorageFacts.
Import Schema Storage.

Lemma find_snoc {A : Type} (f : A -> bool) (l : list A) (x : A) :
  List.find f (l ++ [x])
  = match List.find f l with
    | Some y => Some y
    | None => if f x then Some x else None
    end.
Proof.
  induction l as [|y l IH]; cbn; [reflexivity|].
  destruct (f y); [reflexivity|exact IH].
Qed.

Lemma orNull_Some (s : option string) (u : string) :
  orNull s = Some u -> s = Some u /\ u <> EmptyString.
Proof.
  destruct s as [[|c s]|]; cbn; intros [= <-]. split; [reflexivity|discriminate].
Qed.

Lemma orNull_not_empty (s : option string) : orNull s <> Some EmptyString.
Proof. destruct s as [[|c s]|]; cbn; discriminate. Qed.

Lemma orNullZ_not_zero (n : option Z) : orNullZ n <> Some 0.
Proof. destruct n as [[| |]|]; cbn; discriminate. Qed.

(** The rows of a user after a progress row is written: those held
    before, or the row written. *)
Lemma getUserProgress_after (ident : string) (now : Z)
    (progress : InsertUserProgress) (st : State) (uid : string) (row : UserProgress) :
  row ∈ getUserProgress uid (snd (createUserProgress ident now progress st)) ->
  row = fst (createUserProgress ident now progress st)
  \/ row ∈ getUserProgress uid st.
Proof.
  unfold getUserProgress. cbn [createUserProgress fst snd userProgress].
  rewrite !list_elem_of_filter. intros [Hu Hin].
  apply MapFacts.values_set_elem in Hin as [->|Hin]; [left; reflexivity|].
  right. split; assumption.
Qed.

(** The row written is among the rows of its user. *)
Lemma getUserProgress_new (ident : string) (now : Z)
    (progress : InsertUserProgress) (st : State) (uid : string) :
  orNull (newUserId progress) = Some uid ->
  fst (createUserProgress ident now progress st)
  ∈ getUserProgress uid (snd (createUserProgress ident now progress st)).
Proof.
  intros Hu. unfold getUserProgress. cbn [createUserProgress fst snd userProgress].
  apply list_elem_of_filter. split; [exact Hu|apply MapFacts.values_set_new].
Qed.

(** With a fresh identifier the row goes to the end of the rows of its
    user. *)
Lemma getUserProgress_fresh (ident : string) (now : Z)
    (progress : InsertUserProgress) (st : State) (uid : string) :
  JSMap.get ident (userProgress st) = None ->
  getUserProgress uid (snd (createUserProgress ident now progress st))
  = getUserProgress uid st
    ++ (if decide (orNull (newUserId progress) = Some uid)
        then [fst (createUserProgress ident now progress st)] else []).
Proof.
  intros Hfresh. unfold getUserProgress.
  cbn [createUserProgress fst snd userProgress].
  rewrite (MapFacts.values_set_fresh _ _ _ Hfresh), filter_app. reflexivity.
Qed.

End StorageFacts.

(** ** The handler of [POST /api/progress] *)

Module PostFacts.
Import Schema Storage PostHandler.

(** The streak and the flag are always computed. *)
Lemma compute_total (tz : JS.TimeZone) (DateParse : string -> JS.Date)
    (docs : list UserProgress) (now : Z) :
  PostProgress.compute tz DateParse docs now
  = Some (PostProgress.mkReply
            (Walks.currentOf (ProgressStats.dates DateParse docs))
            (ProgressStats.computeIsFirstOfMonth tz
               (ProgressStats.dates DateParse docs) now)).
Proof.
  unfold PostProgress.compute. rewrite StatsFacts.streak_computeCurrent.
  change (PostProgress.dates DateParse docs) with (ProgressStats.dates DateParse docs).
  rewrite WalkFacts.computeCurrent_total. reflexivity.
Qed.

(** The handler on a body that names a user. *)
Lemma handle_named (tz : JS.TimeZone) (DateParse : string -> JS.Date)
    (progress : InsertUserProgress) (ident : string) (created now : Z)
    (st : State) (uid : string) :
  orNull (newUserId progress) = Some uid ->
  let row := fst (createUserProgress ident created progress st) in
  let st' := snd (createUserProgress ident created progress st) in
  let ds := ProgressStats.dates DateParse (getUserProgress uid st') in
  handle tz DateParse (Some progress) ident created now st
  = (Json row (Walks.currentOf ds) (ProgressStats.computeIsFirstOfMonth tz ds now),
     st').
Proof.
  intros Hu. cbn zeta. unfold handle.
  destruct (createUserProgress ident created progress st) as [row st'] eqn:E.
  rewrite Hu, compute_total. reflexivity.
Qed.

(** A row that parses contributes its instant. *)
Lemma validTimes_elem (DateParse : string -> JS.Date) (docs : list UserProgress)
    (row : UserProgress) (t : Z) :
  row ∈ docs -> ProgressStats.newDate DateParse row = Some t ->
  t ∈ Stats.validTimes DateParse docs.
Proof.
  intros Hin Hp. unfold Stats.validTimes. apply list_elem_of_omap.
  exists row. split; assumption.
Qed.

Lemma validTimes_inv (DateParse : string -> JS.Date) (docs : list UserProgress)
    (t : Z) :
  t ∈ Stats.validTimes DateParse docs ->
  exists row, row ∈ docs /\ ProgressStats.newDate DateParse row = Some t.
Proof. unfold Stats.validTimes. intros H. apply list_elem_of_omap in H. exact H. Qed.

(** The flag on a sorted array, read off its earliest in-month element. *)
Lemma firstOfMonth_all_today (tz : JS.TimeZone) (times : list Z) (now : Z) :
  (exists t, t ∈ times /\ Calendar.inMonth tz now t) ->
  (forall t, t ∈ times -> Calendar.inMonth tz now t -> Calendar.sameDay tz t now) ->
  ProgressStats.computeIsFirstOfMonth tz (JS.sort Walks.byTime times) now = true.
Proof.
  intros (t0 & Ht0 & Hm0) Hall.
  pose proof (SortFacts.sort_sorted times) as Hs.
  pose proof (SortFacts.sort_perm times) as Hp.
  unfold ProgressStats.computeIsFirstOfMonth. fold (Calendar.inMonth tz now).
  destruct (filter (Calendar.inMonth tz now) (JS.sort Walks.byTime times) !! 0%nat)
    as [f|] eqn:Hf.
  - destruct (SortFacts.filter_first_sorted _ _ _ Hs Hf) as (Hin & Hm & _).
    apply CalendarFacts.isSameDay_spec, Hall; [rewrite <- Hp|]; assumption.
  - exfalso. apply (SortFacts.filter_first_none _ _ Hf t0); [rewrite Hp|]; assumption.
Qed.

End PostFacts.

(** ** The reminder job and the reminders endpoint *)

Module RemindFacts.
Import Storage Remind.

Lemma notify_configured (env : Mailer.Env) (m x : Mailer.Mail) :
  x ∈ Mailer.notify env m -> x = m /\ Mailer.configured env = true.
Proof.
  unfold Mailer.notify. destruct (Mailer.configured env); [|intros H; inversion H].
  destruct (Mailer.sendMail env m); [|intros H; inversion H].
  intros H. apply list_elem_of_singleton in H. split; [exact H|reflexivity].
Qed.

Lemma length_notify (env : Mailer.Env) (m : Mailer.Mail) :
  (length (Mailer.notify env m) <= 1)%nat.
Proof.
  unfold Mailer.notify.
  destruct (Mailer.configured env); [|cbn; lia].
  destruct (Mailer.sendMail env m); cbn; lia.
Qed.

(** What the loop adds to its counters. *)
Lemma remind_spec (env : Mailer.Env) (findOne : string -> string -> Scheduler.Lookup)
    (today : string) (us : list User) (acc : Scheduler.Run) :
  let r := Scheduler.remind env findOne today us acc in
  Scheduler.sent acc <= Scheduler.sent r <= Scheduler.sent acc + Z.of_nat (length us)
  /\ Z.of_nat (length (Scheduler.delivered r))
     - Z.of_nat (length (Scheduler.delivered acc))
     <= Scheduler.sent r - Scheduler.sent acc
  /\ forall m, m ∈ Scheduler.delivered r ->
       m ∈ Scheduler.delivered acc
       \/ (Mailer.configured env = true /\ exists u, u ∈ us /\ due findOne today u m).
Proof.
  cbn zeta. revert acc. induction us as [|u us IH]; intros acc.
  - cbn. split; [lia|]. split; [lia|]. intros m Hm. left. exact Hm.
  - cbn [Scheduler.remind length].
    destruct (orNull (email u)) as [to|] eqn:Eto.
    2:{ destruct (IH acc) as (H1 & H2 & H3). split; [lia|]. split; [lia|].
        intros m Hm. destruct (H3 m Hm) as [Hl|(Hc & u' & Hu' & Hd)]; [left; exact Hl|].
        right. split; [exact Hc|]. exists u'. split; [right; exact Hu'|exact Hd]. }
    destruct (findOne (userIdent u) today) eqn:Ef.
    + destruct (IH acc) as (H1 & H2 & H3). split; [lia|]. split; [lia|].
      intros m Hm. destruct (H3 m Hm) as [Hl|(Hc & u' & Hu' & Hd)]; [left; exact Hl|].
      right. split; [exact Hc|]. exists u'. split; [right; exact Hu'|exact Hd].
    + match goal with
      | |- context [Scheduler.remind env findOne today us ?a] =>
          destruct (IH a) as (H1 & H2 & H3)
      end.
      cbn [Scheduler.sent Scheduler.delivered] in *.
      pose proof (length_notify env
                    (Mailer.mkMail Mailer.ExerciseReminder to (username u))) as Hn.
      unfold Mailer.sendExerciseReminderEmail in *.
      rewrite length_app in H2.
      split; [lia|]. split; [lia|].
      intros m Hm. destruct (H3 m Hm) as [Hl|(Hc & u' & Hu' & Hd)].
      * apply elem_of_app in Hl as [Hl|Hl]; [left; exact Hl|].
        apply notify_configured in Hl as [-> Hc].
        right. split; [exact Hc|]. exists u. split; [left|].
        apply StorageFacts.orNull_Some in Eto as [Ee Hne].
        repeat split; assumption.
      * right. split; [exact Hc|]. exists u'. split; [right; exact Hu'|exact Hd].
    + cbn. split; [lia|]. split; [lia|]. intros m Hm. left. exact Hm.
Qed.

Lemma remindOne_count (env : Mailer.Env) (u : Reminders.Recipient) :
  snd (Reminders.remindOne env u) = (if addressed u then 1 else 0)
  /\ Z.of_nat (length (fst (Reminders.remindOne env u)))
     <= snd (Reminders.remindOne env u)
  /\ (Mailer.configured env = false -> fst (Reminders.remindOne env u) = []).
Proof.
  unfold Reminders.remindOne, addressed.
  destruct (orNull (Reminders.rcptEmail u)) as [to|]; cbn [fst snd].
  - split; [reflexivity|].
    pose proof (length_notify env
                  (Mailer.mkMail Mailer.ExerciseReminder to (Reminders.rcptName u))).
    unfold Mailer.sendExerciseReminderEmail. split; [lia|].
    intros Hc. unfold Mailer.notify. rewrite Hc. reflexivity.
  - split; [reflexivity|]. split; [cbn; lia|reflexivity].
Qed.

Lemma handle_spec (env : Mailer.Env) (us : list Reminders.Recipient) :
  foldr Z.add 0 (snd <$> (Reminders.remindOne env <$> us))
  = Z.of_nat (length (filter (fun u => addressed u = true) us))
  /\ Z.of_nat (length (concat (fst <$> (Reminders.remindOne env <$> us))))
     <= foldr Z.add 0 (snd <$> (Reminders.remindOne env <$> us))
  /\ (Mailer.configured env = false ->
      concat (fst <$> (Reminders.remindOne env <$> us)) = []).
Proof.
  induction us as [|u us (IH1 & IH2 & IH3)]; [cbn; split; [reflexivity|split; [lia|reflexivity]]|].
  destruct (remindOne_count env u) as (Hc & Hl & Hn).
  rewrite !fmap_cons. cbn [foldr concat]. rewrite filter_cons, length_app.
  split; [|split].
  - rewrite Hc, IH1. destruct (addressed u); cbn.
    + rewrite decide_True by reflexivity. cbn [length]. lia.
    + rewrite decide_False by discriminate. lia.
  - lia.
  - intros Hcfg. rewrite (Hn Hcfg), (IH3 Hcfg). reflexivity.
Qed.

End RemindFacts.

(** ** Day strings *)

Module DayKeyFacts.
Import JSText.

Lemma string_of_list_inj (a b : list ascii) :
  string_of_list_ascii a = string_of_list_ascii b -> a = b.
Proof.
  intros H. rewrite <- (TextFacts.list_of_string_of_list a),
    <- (TextFacts.list_of_string_of_list b), H. reflexivity.
Qed.

(** The day string read back as a date is the local day, at midnight
    UTC. *)
Lemma parse_getLocalDayString (tz : JS.TimeZone) (t : Z) :
  1000 <= JS.getFullYear tz t <= 9999 ->
  JS.parse (Scheduler.getLocalDayString tz t)
  = Some (Calendar.localDay tz t * JS.msPerDay).
Proof.
  intros Hy. rewrite (IsoFacts.getLocalDayString_chars tz t Hy).
  unfold JS.getFullYear, JS.getMonth, JS.getDate, Calendar.localDay in *.
  apply IsoFacts.parse_date_of_fields. lia.
Qed.

Lemma parse_dayKey (t : Z) :
  0 <= JS.YearFromTime t <= 9999 ->
  JS.parse (PostHandler.dayKey t) = Some (JS.Day t * JS.msPerDay).
Proof.
  intros Hy. unfold PostHandler.dayKey. rewrite (IsoFacts.sliceTo_toISOString t Hy).
  apply IsoFacts.parse_date_of_fields, Hy.
Qed.

Lemma msPerDay_cancel (a b : Z) : a * JS.msPerDay = b * JS.msPerDay -> a = b.
Proof. unfold JS.msPerDay. lia. Qed.

End DayKeyFacts.

(** ** The connection holder, the port and the accounts *)

Module ConnFacts.
Import MongoConn Held.

Lemma coherent_initial : coherent initial.
Proof. intros d H. discriminate. Qed.

Lemma coherent_step (st : State) (c : Call) : coherent st -> coherent (step st c).
Proof.
  intros Hst. destruct c as [uri name attempt|closes]; cbn.
  - unfold connectMongo.
    destruct (client st) as [cl|] eqn:Ec, (db st) as [d0|] eqn:Ed;
      try exact Hst;
      try (specialize (Hst d0 Ed); rewrite Ec in Hst; discriminate);
      destruct attempt; cbn; try exact Hst;
      intros d H; cbn in *; try discriminate; injection H as <-; reflexivity.
  - unfold closeMongo. destruct (client st) as [cl|]; [|exact Hst].
    destruct closes; [|exact Hst]. intros d H. discriminate.
Qed.

Lemma foldl_step_coherent (calls : list Call) (st : State) :
  coherent st -> coherent (foldl step st calls).
Proof.
  revert st. induction calls as [|c calls IH]; intros st Hst; [exact Hst|].
  cbn. apply IH, coherent_step, Hst.
Qed.

Lemma coherent_run (calls : list Call) : coherent (run calls).
Proof. apply foldl_step_coherent, coherent_initial. Qed.

Lemma db_connect (uri name : string) (attempt : Attempt) (st : State) (d : Db) :
  db (snd (connectMongo uri name attempt st)) = Some d ->
  db st = Some d \/ (attempt = Connects /\ d = mkDb uri name).
Proof.
  unfold connectMongo.
  destruct (client st) as [cl|], (db st) as [d0|] eqn:Ed, attempt; cbn;
    rewrite ?Ed; intros H; try (left; exact H); try discriminate;
    injection H as <-; right; split; reflexivity.
Qed.

Lemma db_close (closes : bool) (st : State) (d : Db) :
  db (snd (closeMongo closes st)) = Some d -> db st = Some d.
Proof.
  unfold closeMongo. destruct (client st) as [cl|], closes; cbn;
    intros H; try exact H; discriminate.
Qed.

Lemma foldl_step_obtained (calls done : list Call) (st : State) :
  obtained done st -> obtained (done ++ calls) (foldl step st calls).
Proof.
  revert done st. induction calls as [|c calls IH]; intros done st Hst.
  - rewrite app_nil_r. exact Hst.
  - cbn [foldl]. replace (done ++ c :: calls) with ((done ++ [c]) ++ calls)
      by (rewrite <- app_assoc; reflexivity).
    apply IH. intros d Hd. apply elem_of_app.
    destruct c as [uri name attempt|closes]; cbn [step] in Hd.
    + apply db_connect in Hd as [Hd|[-> ->]]; [left; apply Hst, Hd|].
      right. cbn. left.
    + apply db_close in Hd. left. apply Hst, Hd.
Qed.

Lemma obtained_run (calls : list Call) : obtained calls (run calls).
Proof.
  apply (foldl_step_obtained calls [] initial). intros d H. discriminate.
Qed.

End ConnFacts.

Module ServerFacts.
Import Server.

(** With as much fuel as attempts left, the retry ends on the first port
    not in use among [port .. port + fuel]. *)
Lemma tryListen_spec (listen : Z -> Listen) (fuel : nat) (port attempts : Z) :
  Z.of_nat fuel + attempts = maxAttempts ->
  tryListen listen fuel port attempts <> OutOfFuel
  /\ (forall p, tryListen listen fuel port attempts = Serving p
        <-> port <= p <= port + Z.of_nat fuel
            /\ listen p = Listening
            /\ forall q, port <= q < p -> listen q = AddrInUse)
  /\ (forall p, tryListen listen fuel port attempts = Crashed p ->
        port <= p <= port + Z.of_nat fuel
        /\ listen p <> Listening
        /\ forall q, port <= q < p -> listen q = AddrInUse).
Proof.
  unfold maxAttempts. revert port attempts.
  induction fuel as [|fuel IH]; intros port attempts Hf.
  - cbn [tryListen]. destruct (listen port) eqn:El.
    + split; [discriminate|]. split.
      * intros p. split.
        -- intros [= <-]. split; [lia|]. split; [exact El|]. intros q Hq. lia.
        -- intros (Hp & Hl & Hq). f_equal. lia.
      * discriminate.
    + destruct (Z.ltb_spec attempts maxAttempts) as [Hlt|Hge];
        [unfold maxAttempts in Hlt; lia|].
      split; [discriminate|]. split.
      * intros p. split; [discriminate|]. intros (Hp & Hl & Hq).
        assert (p = port) as -> by lia. rewrite El in Hl. discriminate.
      * intros p [= <-]. split; [lia|]. split; [rewrite El; discriminate|].
        intros q Hq. lia.
    + split; [discriminate|]. split.
      * intros p. split; [discriminate|]. intros (Hp & Hl & Hq).
        assert (p = port) as -> by lia. rewrite El in Hl. discriminate.
      * intros p [= <-]. split; [lia|]. split; [rewrite El; discriminate|].
        intros q Hq. lia.
  - cbn [tryListen]. destruct (listen port) eqn:El.
    + split; [discriminate|]. split.
      * intros p. split.
        -- intros [= <-]. split; [lia|]. split; [exact El|]. intros q Hq. lia.
        -- intros (Hp & Hl & Hq). f_equal.
           destruct (Z.eq_dec p port) as [->|Hne]; [reflexivity|].
           specialize (Hq port ltac:(lia)). rewrite El in Hq. discriminate.
      * discriminate.
    + destruct (Z.ltb_spec attempts maxAttempts) as [Hlt|Hge];
        [|unfold maxAttempts in Hge; lia].
      destruct (IH (port + 1) (attempts + 1) ltac:(lia)) as (H1 & H2 & H3).
      split; [exact H1|]. split.
      * intros p. rewrite H2. split.
        -- intros (Hp & Hl & Hq). split; [lia|]. split; [exact Hl|].
           intros q Hq'. destruct (Z.eq_dec q port) as [->|Hne]; [exact El|].
           apply Hq. lia.
        -- intros (Hp & Hl & Hq).
           assert (p <> port) by (intros ->; rewrite El in Hl; discriminate).
           split; [lia|]. split; [exact Hl|]. intros q Hq'. apply Hq. lia.
      * intros p Hp. destruct (H3 p Hp) as (Hr & Hl & Hq).
        split; [lia|]. split; [exact Hl|].
        intros q Hq'. destruct (Z.eq_dec q port) as [->|Hne]; [exact El|].
        apply Hq. lia.
    + split; [discriminate|]. split.
      * intros p. split; [discriminate|]. intros (Hp & Hl & Hq).
        destruct (Z.eq_dec p port) as [->|Hne]; [rewrite El in Hl; discriminate|].
        specialize (Hq port ltac:(lia)). rewrite El in Hq. discriminate.
      * intros p [= <-]. split; [lia|]. split; [rewrite El; discriminate|].
        intros q Hq. lia.
Qed.

End ServerFacts.

Module AuthFacts.
Import Storage Named.

Lemma find_named_None (name : string) (l : list User) :
  List.find (named name) l = None <-> name ∉ username <$> l.
Proof.
  induction l as [|u l IH]; cbn.
  - split; [intros _ H; inversion H|reflexivity].
  - unfold named at 1. rewrite not_elem_of_cons. case_bool_decide as Hn.
    + split; [discriminate|]. intros [Hne _]. congruence.
    + rewrite IH. split; [intros H; split; [congruence|exact H]|tauto].
Qed.

Lemma find_named_Some (name : string) (l : list User) (u : User) :
  List.find (named name) l = Some u -> u ∈ l /\ username u = name.
Proof.
  induction l as [|v l IH]; cbn; [discriminate|].
  unfold named at 1. case_bool_decide as Hn.
  - intros [= <-]. split; [left|exact Hn].
  - intros H. destruct (IH H) as [Hin He]. split; [right; exact Hin|exact He].
Qed.

(** The only user of a name is the one [find] returns. *)
Lemma find_named_middle (name : string) (l1 l2 : list User) (v : User) :
  name ∉ username <$> l1 -> username v = name ->
  List.find (named name) (l1 ++ v :: l2) = Some v.
Proof.
  intros Hl1 Hv. induction l1 as [|u l1 IH]; cbn.
  - unfold named. rewrite bool_decide_eq_true_2 by exact Hv. reflexivity.
  - rewrite fmap_cons in Hl1. apply not_elem_of_cons in Hl1 as [Hne Hl1].
    unfold named at 1. rewrite bool_decide_eq_false_2 by congruence.
    apply IH, Hl1.
Qed.

(** A write appends the value or puts it where an older one stood. *)
Lemma values_replace {V : Type} (m : JSMap.t V) (k : string) (v : V) :
  is_Some (JSMap.get k m) ->
  exists l1 old l2,
    JSMap.values m = l1 ++ old :: l2
    /\ JSMap.values (JSMap.replace k v m) = l1 ++ v :: l2.
Proof.
  unfold JSMap.values. induction m as [|[k0 v0] m IH]; cbn.
  - intros [x H]. discriminate.
  - destruct (decide (k0 = k)) as [->|Hne].
    + intros _. exists [], v0, (m.*2). split; reflexivity.
    + intros H. destruct (IH H) as (l1 & old & l2 & E1 & E2).
      exists (v0 :: l1), old, l2. cbn. rewrite E1, E2. split; reflexivity.
Qed.

Lemma values_set_cases {V : Type} (m : JSMap.t V) (k : string) (v : V) :
  JSMap.values (JSMap.set k v m) = JSMap.values m ++ [v]
  \/ exists l1 old l2,
       JSMap.values m = l1 ++ old :: l2
       /\ JSMap.values (JSMap.set k v m) = l1 ++ v :: l2.
Proof.
  unfold JSMap.set. destruct (JSMap.get k m) as [old|] eqn:E.
  - right. apply values_replace. rewrite E. eexists. reflexivity.
  - left. unfold JSMap.values. rewrite fmap_app. reflexivity.
Qed.

(** A user written under a name nobody holds is the one found by that
    name afterwards. *)
Lemma getUserByUsername_createUser (ident : string) (input : InsertUser)
    (st : State) :
  getUserByUsername (newUsername input) st = None ->
  getUserByUsername (newUsername input) (snd (createUser ident input st))
  = Some (fst (createUser ident input st)).
Proof.
  unfold getUserByUsername, createUser. cbn [fst snd users].
  fold (named (newUsername input)). intros Hnone.
  apply find_named_None in Hnone.
  set (user := mkUser ident (newUsername input) (newPassword input) (newEmail input)).
  destruct (values_set_cases (users st) ident user)
    as [E|(l1 & old & l2 & E1 & E2)].
  - rewrite E. rewrite <- (app_nil_r (_ ++ [user])), <- app_assoc.
    apply find_named_middle; [exact Hnone|reflexivity].
  - rewrite E2. apply find_named_middle; [|reflexivity].
    rewrite E1, fmap_app in Hnone. intros Hin. apply Hnone, elem_of_app.
    left. exact Hin.
Qed.

(** Writing a user whose name nobody holds keeps the names distinct. *)
Lemma NoDup_names_createUser (ident : string) (input : InsertUser) (st : State) :
  getUserByUsername (newUsername input) st = None ->
  NoDup (username <$> listUsers st) ->
  NoDup (username <$> listUsers (snd (createUser ident input st))).
Proof.
  unfold getUserByUsername, createUser, listUsers. cbn [fst snd users].
  fold (named (newUsername input)). intros Hnone Hnd.
  apply find_named_None in Hnone.
  set (user := mkUser ident (newUsername input) (newPassword input) (newEmail input)).
  destruct (values_set_cases (users st) ident user)
    as [E|(l1 & old & l2 & E1 & E2)].
  - rewrite E, fmap_app. apply NoDup_app. split; [exact Hnd|].
    split; [|apply NoDup_singleton].
    intros x Hx Hx'. apply list_elem_of_singleton in Hx'. subst x.
    apply Hnone, Hx.
  - rewrite E2. rewrite E1 in Hnd, Hnone.
    rewrite fmap_app, fmap_cons in *.
    apply NoDup_app in Hnd as (N1 & N2 & N3). apply NoDup_cons in N3 as [N3 N4].
    rewrite elem_of_app, elem_of_cons in Hnone.
    apply NoDup_app. split; [exact N1|]. split.
    + intros x Hx Hx'. apply elem_of_cons in Hx' as [->|Hx'].
      * apply Hnone. left. exact Hx.
      * apply (N2 x Hx). right. exact Hx'.
    + apply NoDup_cons. split; [|exact N4]. intros Hin. apply Hnone.
      right. right. exact Hin.
Qed.

(** Somebody holds a name that a stored user carries. *)
Lemma find_named_held (name : string) (l : list User) (u : User) :
  u ∈ l -> username u = name -> is_Some (List.find (named name) l).
Proof.
  intros Hin Hname. destruct (List.find (named name) l) eqn:E; [eexists; reflexivity|].
  apply find_named_None in E. exfalso. apply E.
  rewrite <- Hname. apply list_elem_of_fmap_2, Hin.
Qed.

(** With a fresh identifier the user written goes to the end. *)
Lemma listUsers_createUser (ident : string) (input : InsertUser) (st : State) :
  getUser ident st = None ->
  listUsers (snd (createUser ident input st))
  = listUsers st ++ [fst (createUser ident input st)].
Proof.
  intros Hfresh. unfold listUsers. cbn. apply MapFacts.values_set_fresh, Hfresh.
Qed.

(** A user written with a fresh identifier under a name somebody holds
    stays behind the holder. *)
Lemma getUserByUsername_createUser_held (ident : string) (input : InsertUser)
    (st : State) (u : User) :
  getUser ident st = None ->
  getUserByUsername (newUsername input) st = Some u ->
  getUserByUsername (newUsername input) (snd (createUser ident input st)) = Some u.
Proof.
  intros Hfresh Hheld. unfold getUserByUsername in *.
  fold (listUsers st) in Hheld. fold (listUsers (snd (createUser ident input st))).
  rewrite (listUsers_createUser ident input st Hfresh), StorageFacts.find_snoc, Hheld.
  reflexivity.
Qed.

(** With a fresh identifier the names stay distinct exactly when nobody
    held the new one. *)
Lemma NoDup_names_createUser_iff (ident : string) (input : InsertUser)
    (st : State) :
  getUser ident st = None ->
  NoDup (username <$> listUsers st) ->
  NoDup (username <$> listUsers (snd (createUser ident input st)))
  <-> getUserByUsername (newUsername input) st = None.
Proof.
  intros Hfresh Hnd. split; [|intros Hnone; apply NoDup_names_createUser; assumption].
  rewrite (listUsers_createUser ident input st Hfresh), fmap_app. cbn.
  intros Hnd'. apply NoDup_app in Hnd' as (_ & Hdis & _).
  unfold getUserByUsername. fold (listUsers st). fold (named (newUsername input)).
  apply find_named_None. intros Hin. apply (Hdis _ Hin). left.
Qed.

(** What a check that passes has seen. *)
Lemma registerCheck_Hashing (body : Auth.Try InsertUser)
    (precheck : Auth.Db (option Reminders.MongoUser)) (st : State)
    (input : InsertUser) :
  Auth.registerCheck body precheck st = Auth.Hashing input ->
  body = Auth.Returns input
  /\ getUserByUsername (newUsername input) st = None.
Proof.
  unfold Auth.registerCheck. destruct body as [message|input']; [discriminate|].
  destruct precheck as [| |[found|]]; try discriminate;
    (destruct (getUserByUsername (newUsername input') st) eqn:Eu;
       [discriminate|]);
    intros [= <-]; (split; [reflexivity|exact Eu]).
Qed.

(** A check on a store where the name is held is turned down. *)
Lemma registerCheck_held (input : InsertUser)
    (precheck : Auth.Db (option Reminders.MongoUser)) (st : State) :
  is_Some (getUserByUsername (newUsername input) st) ->
  Auth.registerCheck (Auth.Returns input) precheck st
  = Auth.Answered (Auth.Failure 400 "Username already taken").
Proof.
  intros [u Hu]. unfold Auth.registerCheck. rewrite Hu.
  destruct precheck as [| |[found|]]; reflexivity.
Qed.

(** What the second half answers and leaves once the hash is made. *)
Lemma registerCreate_hashed (input : InsertUser) (hash : string -> Auth.Try string)
    (ident : string) (mirror : Auth.Mirror) (st : State) (h : string) :
  hash (newPassword input) = Auth.Returns h ->
  Auth.registerCreate input hash ident mirror st
  = (match mirror with
     | Auth.DuplicateKey => Auth.Failure 400 "Username already taken"
     | _ => Auth.Success 201
              (Auth.withoutPassword
                 (mkUser ident (newUsername input) h (newEmail input)))
     end,
     snd (createUser ident (mkInsertUser (newUsername input) h (newEmail input)) st)).
Proof.
  intros Hhash. unfold Auth.registerCreate. rewrite Hhash.
  destruct mirror; reflexivity.
Qed.

(** The second half answers with success only once the hash is made. *)
Lemma registerCreate_success (input : InsertUser) (hash : string -> Auth.Try string)
    (ident : string) (mirror : Auth.Mirror) (st st' : State) (status : Z)
    (resp : Auth.UserResponse) :
  Auth.registerCreate input hash ident mirror st = (Auth.Success status resp, st') ->
  exists h,
    hash (newPassword input) = Auth.Returns h
    /\ resp = Auth.withoutPassword
                (mkUser ident (newUsername input) h (newEmail input))
    /\ st' = snd (createUser ident
                    (mkInsertUser (newUsername input) h (newEmail input)) st).
Proof.
  unfold Auth.registerCreate.
  destruct (hash (newPassword input)) as [message|h]; [discriminate|].
  intros H. exists h. split; [reflexivity|].
  cbn [createUser] in *. destruct mirror; try discriminate;
    injection H as _ <- <-; (split; reflexivity).
Qed.

Lemma orNull_filled (s : string) : s <> EmptyString -> orNull (Some s) = Some s.
Proof. destruct s; [contradiction|reflexivity]. Qed.

End AuthFacts.

(* ===================================================================== *)
(** * Part IV. Properties of the streak computation *)
(* ===================================================================== *)

Import Schema ProgressStats.

(** C4. For every reference time, the computation on an empty history does
    not fail and returns [currentStreak = 0], [longestStreak = 0] and
    [isFirstOfMonth = false]; the handler answers with that body. *)
Theorem empty_history_zero
    (tz : JS.TimeZone) (DateParse : string -> JS.Date) (now : Z) :
  computeStreaks tz DateParse [] now = Some (mkStreakResult 0 0 false)
  /\ handler tz DateParse (Some []) now = Json (mkStreakResult 0 0 false).
Proof. split; reflexivity. Qed.

(** C2. Permuting the events does not change the result. The parsed dates
    are sorted ascending before either walk, so the result is a function of
    the multiset of the timestamps that parse: two histories with the same
    such multiset give the same [StreakResult]. *)
Theorem order_of_events_irrelevant
    (tz : JS.TimeZone) (DateParse : string -> JS.Date) (now : Z) :
  (forall docs1 docs2 : list UserProgress,
     docs1 ≡ₚ docs2 ->
     computeStreaks tz DateParse docs1 now = computeStreaks tz DateParse docs2 now)
  /\ (forall docs1 docs2 : list UserProgress,
        Stats.validTimes DateParse docs1 ≡ₚ Stats.validTimes DateParse docs2 ->
        computeStreaks tz DateParse docs1 now
        = computeStreaks tz DateParse docs2 now)
  /\ (forall docs : list UserProgress,
        Sorted Z.le (dates DateParse docs)
        /\ dates DateParse docs ≡ₚ Stats.validTimes DateParse docs).
Proof.
  split; [|split].
  - intros docs1 docs2 Hperm.
    apply StatsFacts.computeStreaks_validTimes, StatsFacts.validTimes_perm, Hperm.
  - intros docs1 docs2. apply StatsFacts.computeStreaks_validTimes.
  - intros docs. rewrite StatsFacts.dates_validTimes.
    split; [apply SortFacts.sort_sorted | apply SortFacts.sort_perm].
Qed.

Lemma order_of_events_irrelevant_witness :
  [Scenario.event "2024-03-04"; Scenario.event "2024-03-03"]
    ≡ₚ [Scenario.event "2024-03-03"; Scenario.event "2024-03-04"]
  /\ Scenario.stats [Scenario.event "2024-03-04"; Scenario.event "2024-03-03"]
                    (Scenario.at_ "2024-03-05")
     = Scenario.stats [Scenario.event "2024-03-03"; Scenario.event "2024-03-04"]
                      (Scenario.at_ "2024-03-05")
  /\ Scenario.stats [Scenario.event "2024-03-03"; Scenario.event "2024-03-04"]
                    (Scenario.at_ "2024-03-05")
     = Some (mkStreakResult 2 2 false).
Proof.
  split; [apply perm_swap|]. split; [|reflexivity].
  apply (proj1 (order_of_events_irrelevant JS.utc JS.parse
                  (Scenario.at_ "2024-03-05"))).
  apply perm_swap.
Defined.

(** C9. For every event list and reference time the computation returns a
    result with [0 <= currentStreak <= longestStreak]: the longest-streak
    loop ends with its run counter equal to the current streak, and the
    final maximum takes that counter in. *)
Theorem current_streak_at_most_longest
    (tz : JS.TimeZone) (DateParse : string -> JS.Date)
    (docs : list UserProgress) (now : Z) :
  exists r lo,
    computeStreaks tz DateParse docs now = Some r
    /\ 0 <= currentStreak r <= longestStreak r
    /\ longestLoop (dates DateParse docs) (length (dates DateParse docs)) 0 (0, 0)
       = Some (lo, currentStreak r)
    /\ longestStreak r = Z.max lo (currentStreak r).
Proof.
  set (ds := dates DateParse docs).
  exists (mkStreakResult (Walks.currentOf ds) (Walks.longestOf ds)
                         (computeIsFirstOfMonth tz ds now)).
  exists (match ds with [] => 0 | x :: rest => fst (Walks.forward x rest (0, 1)) end).
  split; [apply StatsFacts.computeStreaks_total|]. cbn [currentStreak longestStreak].
  split; [split; [apply WalkFacts.currentOf_nonneg
                 |apply WalkFacts.currentOf_le_longestOf]|].
  rewrite WalkFacts.longestLoop_exit.
  destruct ds as [|x rest]; [split; reflexivity|].
  rewrite <- (WalkFacts.snd_forward_current x rest 0).
  split; [|reflexivity].
  destruct (Walks.forward x rest (0, 1)); reflexivity.
Qed.

(** C10. The two endpoints carry the same logic: on every array of parsed
    dates and every reference time the streak of [POST /api/progress] is the
    current streak of [GET /api/progress/stats/:userId] and the two
    first-of-month flags are equal; on the same stored rows the two
    handlers build the same array and report the same two values. *)
Theorem post_and_stats_agree
    (tz : JS.TimeZone) (DateParse : string -> JS.Date) :
  (forall (ds : list Z) (now : Z),
     PostProgress.streak ds = computeCurrent ds
     /\ PostProgress.isFirstOfMonth tz ds now = computeIsFirstOfMonth tz ds now)
  /\ (forall (docs : list UserProgress) (now : Z),
        PostProgress.dates DateParse docs = dates DateParse docs
        /\ exists r, computeStreaks tz DateParse docs now = Some r
             /\ PostProgress.compute tz DateParse docs now
                = Some (PostProgress.mkReply (currentStreak r) (isFirstOfMonth r))).
Proof.
  split.
  - intros ds now. split; [apply StatsFacts.streak_computeCurrent | reflexivity].
  - intros docs now. split; [reflexivity|].
    eexists. split; [apply StatsFacts.computeStreaks_total|].
    unfold PostProgress.compute. rewrite StatsFacts.streak_computeCurrent.
    change (PostProgress.dates DateParse docs) with (dates DateParse docs).
    rewrite WalkFacts.computeCurrent_total. reflexivity.
Qed.

(** C3. The current and the longest streak do not depend on the reference
    time (only the first-of-month flag does): the current streak is counted
    back from the most recent event and is 0 only when no event parses.
    With events on 2024-03-01 and 2024-03-02 the current streak is 2 at
    every reference time, also on 2024-03-20. *)
Theorem streaks_independent_of_now
    (tz : JS.TimeZone) (DateParse : string -> JS.Date) (docs : list UserProgress) :
  (exists c l,
      (forall now, exists f,
          computeStreaks tz DateParse docs now = Some (mkStreakResult c l f))
      /\ (c = 0 <-> Stats.validTimes DateParse docs = []))
  /\ (forall now, exists f,
        computeStreaks tz JS.parse
          [Scenario.event "2024-03-01"; Scenario.event "2024-03-02"] now
        = Some (mkStreakResult 2 2 f))
  /\ Scenario.stats [Scenario.event "2024-03-01"; Scenario.event "2024-03-02"]
                    (Scenario.at_ "2024-03-20")
     = Some (mkStreakResult 2 2 false).
Proof.
  split; [|split].
  - exists (Walks.currentOf (dates DateParse docs)),
           (Walks.longestOf (dates DateParse docs)).
    split.
    + intros now. eexists. apply StatsFacts.computeStreaks_total.
    + rewrite WalkFacts.currentOf_zero. apply StatsFacts.dates_nil_iff.
  - intros now. eexists. rewrite StatsFacts.computeStreaks_total. reflexivity.
  - reflexivity.
Qed.

(** C7. Events whose timestamp does not parse are dropped before anything
    else: the computation never fails on them and returns what it returns
    on the list without them. One unparseable timestamp (and a missing one)
    next to two consecutive days gives the 2-day streak of the two days
    alone. *)
Theorem unparseable_events_discarded
    (tz : JS.TimeZone) (DateParse : string -> JS.Date)
    (docs : list UserProgress) (now : Z) :
  computeStreaks tz DateParse docs now
  = computeStreaks tz DateParse (filter (Stats.parses DateParse) docs) now
  /\ (exists r, computeStreaks tz DateParse docs now = Some r
                /\ handler tz DateParse (Some docs) now = Json r)
  /\ (exists f,
        computeStreaks tz JS.parse
          [Scenario.event "2024-03-01"; Scenario.event "not-a-date";
           Scenario.event "2024-03-02"; Scenario.eventWithoutDate] now
        = Some (mkStreakResult 2 2 f)
        /\ computeStreaks tz JS.parse
             [Scenario.event "2024-03-01"; Scenario.event "2024-03-02"] now
           = Some (mkStreakResult 2 2 f)).
Proof.
  split; [|split].
  - apply StatsFacts.computeStreaks_validTimes.
    rewrite StatsFacts.validTimes_filter. reflexivity.
  - eexists. unfold handler. rewrite StatsFacts.computeStreaks_total.
    split; reflexivity.
  - eexists. rewrite !StatsFacts.computeStreaks_total. split; reflexivity.
Qed.

(** C8. When exactly one event parses, the result has [currentStreak = 1]
    and [longestStreak = 1] at every reference time; when moreover that
    event falls on the calendar day of the reference time, the result is
    [currentStreak = 1], [longestStreak = 1], [isFirstOfMonth = true]. *)
Theorem single_event_streak_one
    (tz : JS.TimeZone) (DateParse : string -> JS.Date)
    (docs : list UserProgress) (t : Z)
    (Hone : Stats.validTimes DateParse docs = [t]) :
  (forall now, exists f,
      computeStreaks tz DateParse docs now = Some (mkStreakResult 1 1 f))
  /\ (forall now, Calendar.sameDay tz t now ->
        computeStreaks tz DateParse docs now = Some (mkStreakResult 1 1 true)).
Proof.
  assert (Hd : dates DateParse docs = [t]).
  { rewrite StatsFacts.dates_validTimes, Hone. reflexivity. }
  split.
  - intros now. eexists. rewrite StatsFacts.computeStreaks_total, Hd. reflexivity.
  - intros now Hsame. rewrite StatsFacts.computeStreaks_total, Hd.
    rewrite (CalendarFacts.firstOfMonth_singleton tz t now Hsame). reflexivity.
Qed.

Lemma single_event_streak_one_witness :
  Stats.validTimes JS.parse
    [Scenario.event "not-a-date"; Scenario.event "2024-04-01T18:30:00.000Z"]
  = [1711996200000]
  /\ Calendar.sameDay JS.utc 1711996200000 (Scenario.at_ "2024-04-01")
  /\ Scenario.stats
       [Scenario.event "not-a-date"; Scenario.event "2024-04-01T18:30:00.000Z"]
       (Scenario.at_ "2024-04-01")
     = Some (mkStreakResult 1 1 true).
Proof.
  assert (H1 : Stats.validTimes JS.parse
                 [Scenario.event "not-a-date";
                  Scenario.event "2024-04-01T18:30:00.000Z"]
               = [1711996200000]) by reflexivity.
  assert (H2 : Calendar.sameDay JS.utc 1711996200000 (Scenario.at_ "2024-04-01"))
    by (repeat split; reflexivity).
  split; [exact H1|]. split; [exact H2|].
  exact (proj2 (single_event_streak_one JS.utc JS.parse _ _ H1)
           (Scenario.at_ "2024-04-01") H2).
Defined.

(** C6. [isFirstOfMonth] is true exactly when some event lies in the
    calendar month and year of the reference time and the earliest day of
    such events is the calendar day of the reference time (year, month and
    date all equal). It is false when no event lies in that month, false
    for 2024-04-15 with events on 2024-04-01 and 2024-04-15, and true for
    2024-04-01 with its one event on 2024-04-01. The host's time zone is
    one in which a later instant never falls on an earlier local day. *)
Theorem first_of_month_iff_earliest_day_is_today
    (tz : JS.TimeZone) (DateParse : string -> JS.Date)
    (docs : list UserProgress) (now : Z)
    (Hmono : Calendar.MonotoneDays tz) :
  (exists r, computeStreaks tz DateParse docs now = Some r
     /\ (isFirstOfMonth r = true
         <-> exists t, t ∈ Stats.validTimes DateParse docs
               /\ Calendar.inMonth tz now t
               /\ (forall t', t' ∈ Stats.validTimes DateParse docs ->
                              Calendar.inMonth tz now t' ->
                              JS.getDate tz t <= JS.getDate tz t')
               /\ Calendar.sameDay tz t now)
     /\ ((forall t, t ∈ Stats.validTimes DateParse docs ->
                    ~ Calendar.inMonth tz now t) ->
         isFirstOfMonth r = false))
  /\ Scenario.stats [Scenario.event "2024-04-01"; Scenario.event "2024-04-15"]
                    (Scenario.at_ "2024-04-15")
     = Some (mkStreakResult 1 1 false)
  /\ Scenario.stats [Scenario.event "2024-04-01"] (Scenario.at_ "2024-04-01")
     = Some (mkStreakResult 1 1 true).
Proof.
  split; [|split; reflexivity].
  eexists. split; [apply StatsFacts.computeStreaks_total|]. cbn [isFirstOfMonth].
  rewrite StatsFacts.dates_validTimes. split.
  - apply CalendarFacts.firstOfMonth_by_day, Hmono.
  - intros Hnone. apply not_true_is_false.
    rewrite CalendarFacts.firstOfMonth_by_time.
    intros (t & Ht & Htm & _). exact (Hnone t Ht Htm).
Qed.

Lemma first_of_month_iff_earliest_day_is_today_witness :
  Calendar.MonotoneDays JS.utc
  /\ exists r,
       Scenario.stats [Scenario.event "2024-04-15"; Scenario.event "2024-04-01"]
                      (Scenario.at_ "2024-04-15") = Some r
       /\ (isFirstOfMonth r = true
           <-> exists t,
                 t ∈ [Scenario.at_ "2024-04-15"; Scenario.at_ "2024-04-01"]
                 /\ Calendar.inMonth JS.utc (Scenario.at_ "2024-04-15") t
                 /\ (forall t',
                       t' ∈ [Scenario.at_ "2024-04-15"; Scenario.at_ "2024-04-01"] ->
                       Calendar.inMonth JS.utc (Scenario.at_ "2024-04-15") t' ->
                       JS.getDate JS.utc t <= JS.getDate JS.utc t')
                 /\ Calendar.sameDay JS.utc t (Scenario.at_ "2024-04-15")).
Proof.
  split; [exact CalendarFacts.utc_monotone|].
  destruct (proj1 (first_of_month_iff_earliest_day_is_today JS.utc JS.parse
                     [Scenario.event "2024-04-15"; Scenario.event "2024-04-01"]
                     (Scenario.at_ "2024-04-15") CalendarFacts.utc_monotone))
    as (r & Hr & Hiff & _).
  exists r. split; [exact Hr | exact Hiff].
Defined.

(** C1. What the code does with events of one calendar day: three events
    on 2024-03-01, at 00:00, 12:00 and 23:59:59.999, give
    [currentStreak = 2] and [longestStreak = 2] at every reference time,
    where the first of them alone gives 1 and 1 (with the same
    first-of-month flag); two events twelve hours apart on that day already
    count as two streak days. The gap between adjacent events is their
    distance in time rounded to whole days, which is 1 from twelve hours
    on. *)
Theorem same_day_events_half_a_day_apart_extend_the_streak :
  Calendar.sameDay JS.utc (Scenario.at_ "2024-03-01T00:00:00.000Z")
                          (Scenario.at_ "2024-03-01T12:00:00.000Z")
  /\ Calendar.sameDay JS.utc (Scenario.at_ "2024-03-01T00:00:00.000Z")
                             (Scenario.at_ "2024-03-01T23:59:59.999Z")
  /\ forall now, exists f,
       Scenario.stats [Scenario.event "2024-03-01T00:00:00.000Z";
                       Scenario.event "2024-03-01T12:00:00.000Z";
                       Scenario.event "2024-03-01T23:59:59.999Z"] now
       = Some (mkStreakResult 2 2 f)
       /\ Scenario.stats [Scenario.event "2024-03-01T00:00:00.000Z";
                          Scenario.event "2024-03-01T12:00:00.000Z"] now
          = Some (mkStreakResult 2 2 f)
       /\ Scenario.stats [Scenario.event "2024-03-01T00:00:00.000Z"] now
          = Some (mkStreakResult 1 1 f).
Proof.
  split; [repeat split; reflexivity|]. split; [repeat split; reflexivity|].
  intros now.
  exists (computeIsFirstOfMonth JS.utc [1709251200000] now).
  unfold Scenario.stats. rewrite !StatsFacts.computeStreaks_total.
  change (dates JS.parse [Scenario.event "2024-03-01T00:00:00.000Z";
                          Scenario.event "2024-03-01T12:00:00.000Z";
                          Scenario.event "2024-03-01T23:59:59.999Z"])
    with [1709251200000; 1709294400000; 1709337599999].
  change (dates JS.parse [Scenario.event "2024-03-01T00:00:00.000Z";
                          Scenario.event "2024-03-01T12:00:00.000Z"])
    with [1709251200000; 1709294400000].
  change (dates JS.parse [Scenario.event "2024-03-01T00:00:00.000Z"])
    with [1709251200000].
  rewrite (CalendarFacts.firstOfMonth_same_month JS.utc now 1709251200000
             [1709294400000; 1709337599999]) by (repeat constructor).
  rewrite (CalendarFacts.firstOfMonth_same_month JS.utc now 1709251200000
             [1709294400000]) by (repeat constructor).
  repeat split.
Qed.

(** C5. What the code does with events on two consecutive calendar days
    two hours apart, at 23:00 on 2024-03-01 and at 01:00 on 2024-03-02:
    [currentStreak = 1] and [longestStreak = 1] at every reference time,
    where the greatest run of consecutive calendar days among the event
    days has length 2. The forward loop takes the gap of the two events,
    their distance in time rounded to whole days, to be 0, the branch it
    comments as a same-day entry; so the longest streak is not in general
    the greatest length of a run of consecutive calendar days. The same
    rounding makes the events of one day count twice (C1). *)
Theorem consecutive_days_two_hours_apart_give_a_longest_streak_of_one :
  Calendar.localDay JS.utc (Scenario.at_ "2024-03-01T23:00:00.000Z") = 19783
  /\ Calendar.localDay JS.utc (Scenario.at_ "2024-03-02T01:00:00.000Z") = 19784
  /\ JS.roundDays (Scenario.at_ "2024-03-02T01:00:00.000Z"
                   - Scenario.at_ "2024-03-01T23:00:00.000Z") = 0
  /\ (forall now, exists f,
        Scenario.stats [Scenario.event "2024-03-01T23:00:00.000Z";
                        Scenario.event "2024-03-02T01:00:00.000Z"] now
        = Some (mkStreakResult 1 1 f))
  /\ Runs.MaxRun [19783; 19784] 2
  /\ ~ longest_is_max_run_of_calendar_days.
Proof.
  assert (Hrun : Runs.isRun [19783; 19784] 19783 2).
  { intros j Hj. assert (j = 0 \/ j = 1) as [-> | ->] by lia.
    - left.
    - right. left. }
  split; [reflexivity|]. split; [reflexivity|]. split; [reflexivity|].
  split; [|split; [split|]].
  - intros now.
    exists (computeIsFirstOfMonth JS.utc [1709334000000; 1709341200000] now).
    unfold Scenario.stats. rewrite StatsFacts.computeStreaks_total.
    change (dates JS.parse [Scenario.event "2024-03-01T23:00:00.000Z";
                            Scenario.event "2024-03-02T01:00:00.000Z"])
      with [1709334000000; 1709341200000].
    reflexivity.
  - intros d k Hk. destruct (Z_le_gt_dec k 2) as [Hle|Hgt]; [exact Hle|].
    exfalso.
    pose proof (Hk 0 ltac:(lia)) as H0. pose proof (Hk 1 ltac:(lia)) as H1.
    pose proof (Hk 2 ltac:(lia)) as H2.
    rewrite !elem_of_cons, elem_of_nil in H0, H1, H2. lia.
  - exists 19783. exact Hrun.
  - intros H.
    specialize (H JS.utc JS.parse
                  [Scenario.event "2024-03-01T23:00:00.000Z";
                   Scenario.event "2024-03-02T01:00:00.000Z"]
                  0 _ (StatsFacts.computeStreaks_total _ _ _ _)).
    destruct H as [Hmax _]. cbn [longestStreak] in Hmax.
    change (Calendar.localDay JS.utc <$>
              Stats.validTimes JS.parse
                [Scenario.event "2024-03-01T23:00:00.000Z";
                 Scenario.event "2024-03-02T01:00:00.000Z"])
      with [19783; 19784] in Hmax.
    specialize (Hmax _ _ Hrun). vm_compute in Hmax. apply Hmax. reflexivity.
Qed.

(* ===================================================================== *)
(** * Part V. Further properties of the code *)
(* ===================================================================== *)

(** ** The in-memory store *)

Section StoreProperties.
Import Storage.

(** X1. [createUser] never refuses: it stores the user under the
    identifier drawn, [getUser] on that identifier returns the user
    created, every other identifier reads as before, and the other maps
    are untouched. *)
Theorem createUser_then_getUser
    (ident : string) (input : InsertUser) (st : State) :
  let user := fst (createUser ident input st) in
  let st' := snd (createUser ident input st) in
  user = mkUser ident (newUsername input) (newPassword input) (newEmail input)
  /\ getUser ident st' = Some user
  /\ (forall other, other <> ident -> getUser other st' = getUser other st)
  /\ assessments st' = assessments st
  /\ userProgress st' = userProgress st.
Proof.
  cbn. split; [reflexivity|]. split; [apply MapFacts.get_set_eq|].
  split; [|split; reflexivity].
  intros other Hne. unfold getUser. cbn.
  apply MapFacts.get_set_ne. congruence.
Qed.

(** X2. [createUser] does not look at the name: with a fresh identifier
    the user goes to the end of [listUsers], and [getUserByUsername] keeps
    answering with the earliest user of a name, so a second user created
    under a name already held is never found by that name. *)
Theorem getUserByUsername_earliest_wins
    (ident : string) (input : InsertUser) (st : State)
    (Hfresh : getUser ident st = None) :
  let user := fst (createUser ident input st) in
  let st' := snd (createUser ident input st) in
  listUsers st' = listUsers st ++ [user]
  /\ forall name,
       getUserByUsername name st'
       = match getUserByUsername name st with
         | Some old => Some old
         | None => if decide (newUsername input = name) then Some user else None
         end.
Proof.
  cbn zeta. unfold getUser in Hfresh.
  assert (Hl : listUsers (snd (createUser ident input st))
               = listUsers st ++ [fst (createUser ident input st)]).
  { unfold listUsers. cbn. apply MapFacts.values_set_fresh, Hfresh. }
  split; [exact Hl|].
  intros name. unfold getUserByUsername. fold (listUsers st).
  fold (listUsers (snd (createUser ident input st))).
  rewrite Hl, StorageFacts.find_snoc.
  destruct (List.find _ (listUsers st)); [reflexivity|].
  cbn [createUser fst username].
  destruct (decide (newUsername input = name)) as [->|Hne].
  - rewrite bool_decide_eq_true_2 by reflexivity. reflexivity.
  - rewrite bool_decide_eq_false_2 by exact Hne. reflexivity.
Qed.

Lemma getUserByUsername_earliest_wins_witness :
  getUser "id-2" Fixtures.withAsha = None
  /\ getUserByUsername "asha"
       (snd (createUser "id-2" (mkInsertUser "asha" "h2" (Some "a@x.org"))
               Fixtures.withAsha))
     = Some (mkUser "id-1" "asha" "h1" None).
Proof.
  split; [reflexivity|].
  rewrite (proj2 (getUserByUsername_earliest_wins "id-2"
                    (mkInsertUser "asha" "h2" (Some "a@x.org"))
                    Fixtures.withAsha eq_refl)).
  reflexivity.
Defined.

(** X3. [createAssessment] appends and [getAssessmentByUserId] returns the
    earliest assessment of the user: once a user has an assessment, a later
    one is stored but never returned. An assessment created with an empty
    user id is stored with none. *)
Theorem getAssessmentByUserId_earliest_wins
    (ident : string) (now : Z) (input : InsertAssessment) (st : State)
    (Hfresh : JSMap.get ident (assessments st) = None) :
  let created := fst (createAssessment ident now input st) in
  let st' := snd (createAssessment ident now input st) in
  JSMap.get ident (assessments st') = Some created
  /\ assessmentUserId created <> Some EmptyString
  /\ forall uid,
       getAssessmentByUserId uid st'
       = match getAssessmentByUserId uid st with
         | Some old => Some old
         | None =>
             if decide (orNull (newAssessmentUserId input) = Some uid)
             then Some created else None
         end.
Proof.
  cbn zeta. split; [apply MapFacts.get_set_eq|].
  split; [apply StorageFacts.orNull_not_empty|].
  intros uid. unfold getAssessmentByUserId. cbn [createAssessment fst snd assessments].
  rewrite (MapFacts.values_set_fresh _ _ _ Hfresh), StorageFacts.find_snoc.
  destruct (List.find _ (JSMap.values (assessments st))); [reflexivity|].
  cbn [assessmentUserId].
  destruct (decide (orNull (newAssessmentUserId input) = Some uid)) as [E|E].
  - rewrite bool_decide_eq_true_2 by exact E. reflexivity.
  - rewrite bool_decide_eq_false_2 by exact E. reflexivity.
Qed.

Lemma getAssessmentByUserId_earliest_wins_witness :
  JSMap.get "a-2" (assessments Fixtures.assessed) = None
  /\ experience <$> getAssessmentByUserId "u1"
                      (snd (createAssessment "a-2" 86400000
                              Fixtures.secondAssessment Fixtures.assessed))
     = Some "beginner".
Proof.
  split; [reflexivity|].
  rewrite (proj2 (proj2 (getAssessmentByUserId_earliest_wins "a-2" 86400000
                           Fixtures.secondAssessment Fixtures.assessed eq_refl))).
  reflexivity.
Defined.

(** X4. With a fresh identifier [createUserProgress] adds its row at the
    end of the rows of the user it names and changes the rows of no other
    user; a row created with no user id, or an empty one, belongs to no
    user. *)
Theorem createUserProgress_then_getUserProgress
    (ident : string) (now : Z) (progress : InsertUserProgress) (st : State)
    (Hfresh : JSMap.get ident (userProgress st) = None) :
  let row := fst (createUserProgress ident now progress st) in
  let st' := snd (createUserProgress ident now progress st) in
  forall uid,
    getUserProgress uid st'
    = getUserProgress uid st
      ++ (if decide (orNull (newUserId progress) = Some uid) then [row] else []).
Proof.
  cbn zeta. intros uid. apply StorageFacts.getUserProgress_fresh, Hfresh.
Qed.

Lemma createUserProgress_then_getUserProgress_witness :
  JSMap.get "p-2" (userProgress Fixtures.oneRow) = None
  /\ Schema.id <$> getUserProgress "u1"
       (snd (createUserProgress "p-2" 1709337600000
               (mkInsertUserProgress (Some "u1") (Some "r1") 20 (Some 4))
               Fixtures.oneRow))
     = ["p-1"; "p-2"]
  /\ getUserProgress ""
       (snd (createUserProgress "p-2" 1709337600000
               (mkInsertUserProgress (Some "") (Some "r1") 20 (Some 4))
               Fixtures.oneRow))
     = [].
Proof.
  split; [reflexivity|]. split.
  - rewrite (createUserProgress_then_getUserProgress "p-2" 1709337600000
               (mkInsertUserProgress (Some "u1") (Some "r1") 20 (Some 4))
               Fixtures.oneRow eq_refl).
    reflexivity.
  - rewrite (createUserProgress_then_getUserProgress "p-2" 1709337600000
               (mkInsertUserProgress (Some "") (Some "r1") 20 (Some 4))
               Fixtures.oneRow eq_refl).
    reflexivity.
Defined.

(** X5. The row [createUserProgress] stores: its [completedAt] is the ISO
    form of the clock and reads back as that instant (for the years
    printed in four digits), so the streak computation never discards a
    row the store created; its user id and routine id are never the empty
    string and its rating is never 0, the falsy values being stored as
    null. *)
Theorem createUserProgress_row
    (ident : string) (now : Z) (progress : InsertUserProgress) (st : State)
    (Hyear : 0 <= JS.YearFromTime now <= 9999) :
  let row := fst (createUserProgress ident now progress st) in
  let st' := snd (createUserProgress ident now progress st) in
  JSMap.get ident (userProgress st') = Some row
  /\ ProgressStats.newDate JS.parse row = Some now
  /\ Stats.parses JS.parse row
  /\ Schema.userId row <> Some EmptyString
  /\ Schema.routineId row <> Some EmptyString
  /\ Schema.rating row <> Some 0.
Proof.
  cbn zeta.
  assert (Hp : ProgressStats.newDate JS.parse
                 (fst (createUserProgress ident now progress st)) = Some now).
  { unfold ProgressStats.newDate. cbn. apply IsoFacts.parse_toISOString, Hyear. }
  split; [apply MapFacts.get_set_eq|]. split; [exact Hp|].
  split; [unfold Stats.parses; rewrite Hp; reflexivity|].
  split; [apply StorageFacts.orNull_not_empty|].
  split; [apply StorageFacts.orNull_not_empty|apply StorageFacts.orNullZ_not_zero].
Qed.

Lemma createUserProgress_row_witness :
  0 <= JS.YearFromTime 1709294400123 <= 9999
  /\ Schema.completedAt
       (fst (createUserProgress "p-1" 1709294400123
               (mkInsertUserProgress (Some "u1") (Some "") 15 (Some 0))
               Fixtures.empty))
     = Some "2024-03-01T12:00:00.123Z"
  /\ ProgressStats.newDate JS.parse
       (fst (createUserProgress "p-1" 1709294400123
               (mkInsertUserProgress (Some "u1") (Some "") 15 (Some 0))
               Fixtures.empty))
     = Some 1709294400123.
Proof.
  assert (Hy : 0 <= JS.YearFromTime 1709294400123 <= 9999) by (vm_compute; split; discriminate).
  split; [exact Hy|]. split; [reflexivity|].
  exact (proj1 (proj2 (createUserProgress_row "p-1" 1709294400123
                         (mkInsertUserProgress (Some "u1") (Some "") 15 (Some 0))
                         Fixtures.empty Hy))).
Defined.

End StoreProperties.

(** ** [POST /api/progress] *)

Section PostProperties.
Import Storage PostHandler.

(** X6. The handler stores before it validates: a body that names no user
    (no user id, or an empty one) is answered with 400, and the row is in
    the store all the same, belonging to no user. A body the schema
    rejects is answered with 400 and leaves the store as it was. *)
Theorem post_without_user_is_rejected_but_stored
    (tz : JS.TimeZone) (DateParse : string -> JS.Date)
    (progress : InsertUserProgress) (ident : string) (created now : Z)
    (st : State)
    (Hnone : orNull (newUserId progress) = None) :
  let row := fst (createUserProgress ident created progress st) in
  let st' := snd (createUserProgress ident created progress st) in
  handle tz DateParse (Some progress) ident created now st
  = (Rejected 400 "userId is required for progress tracking", st')
  /\ JSMap.get ident (userProgress st') = Some row
  /\ Schema.userId row = None
  /\ (forall uid, row ∉ getUserProgress uid st')
  /\ handle tz DateParse None ident created now st
     = (Rejected 400 "Invalid progress data", st).
Proof.
  cbn zeta. split; [|split; [|split; [|split]]].
  - unfold handle.
    destruct (createUserProgress ident created progress st) as [row st'] eqn:E.
    rewrite Hnone. reflexivity.
  - apply MapFacts.get_set_eq.
  - exact Hnone.
  - intros uid Hin. unfold getUserProgress in Hin.
    apply list_elem_of_filter in Hin as [Hu _]. cbn in Hu. congruence.
  - reflexivity.
Qed.

Lemma post_without_user_is_rejected_but_stored_witness :
  orNull (newUserId (mkInsertUserProgress (Some "") (Some "r1") 15 None)) = None
  /\ fst (handle JS.utc JS.parse
            (Some (mkInsertUserProgress (Some "") (Some "r1") 15 None))
            "p-9" 1709251200000 1709251200000 Fixtures.empty)
     = Rejected 400 "userId is required for progress tracking"
  /\ length (JSMap.values
               (userProgress
                  (snd (handle JS.utc JS.parse
                          (Some (mkInsertUserProgress (Some "") (Some "r1") 15 None))
                          "p-9" 1709251200000 1709251200000 Fixtures.empty))))
     = 1%nat.
Proof.
  split; [reflexivity|].
  rewrite (proj1 (post_without_user_is_rejected_but_stored JS.utc JS.parse
                    (mkInsertUserProgress (Some "") (Some "r1") 15 None)
                    "p-9" 1709251200000 1709251200000 Fixtures.empty eq_refl)).
  split; vm_compute; reflexivity.
Defined.

(** X7. A body that names a user is always answered with the stored row,
    and the streak reported is at least 1: the row just created carries
    the ISO form of the clock, which parses, so the history is never
    empty. The streak is the current streak the stats endpoint computes
    on the rows of that user. *)
Theorem post_reports_a_streak_of_at_least_one
    (tz : JS.TimeZone) (DateParse : string -> JS.Date)
    (progress : InsertUserProgress) (ident : string) (created now : Z)
    (st : State) (uid : string)
    (Huser : orNull (newUserId progress) = Some uid)
    (Hparse : is_Some (DateParse (JSText.toISOString created))) :
  let row := fst (createUserProgress ident created progress st) in
  let st' := snd (createUserProgress ident created progress st) in
  exists streak flag,
    handle tz DateParse (Some progress) ident created now st
    = (Json row streak flag, st')
    /\ 1 <= streak
    /\ ProgressStats.computeCurrent
         (ProgressStats.dates DateParse (getUserProgress uid st'))
       = Some streak
    /\ row ∈ getUserProgress uid st'.
Proof.
  cbn zeta. destruct Hparse as [t Ht].
  eexists _, _. split; [apply (PostFacts.handle_named _ _ _ _ _ _ _ uid Huser)|].
  pose proof (StorageFacts.getUserProgress_new ident created progress st uid Huser)
    as Hin.
  split; [|split; [apply WalkFacts.computeCurrent_total|exact Hin]].
  set (ds := ProgressStats.dates DateParse _).
  pose proof (WalkFacts.currentOf_nonneg ds) as Hnn.
  destruct (Z.eq_dec (Walks.currentOf ds) 0) as [Hz|Hz]; [|lia].
  exfalso. apply WalkFacts.currentOf_zero in Hz. subst ds.
  apply StatsFacts.dates_nil_iff in Hz.
  pose proof (PostFacts.validTimes_elem DateParse _ _ t Hin Ht) as Hel.
  rewrite Hz in Hel. inversion Hel.
Qed.

Lemma post_reports_a_streak_of_at_least_one_witness :
  orNull (newUserId (mkInsertUserProgress (Some "u1") (Some "r1") 20 None))
  = Some "u1"
  /\ is_Some (JS.parse (JSText.toISOString 1709337600000))
  /\ exists streak flag,
       fst (handle JS.utc JS.parse
              (Some (mkInsertUserProgress (Some "u1") (Some "r1") 20 None))
              "p-2" 1709337600000 1709337600500 Fixtures.oneRow)
       = Json (fst (createUserProgress "p-2" 1709337600000
                      (mkInsertUserProgress (Some "u1") (Some "r1") 20 None)
                      Fixtures.oneRow)) streak flag
       /\ 1 <= streak.
Proof.
  assert (Hp : is_Some (JS.parse (JSText.toISOString 1709337600000)))
    by (eexists; vm_compute; reflexivity).
  split; [reflexivity|]. split; [exact Hp|].
  destruct (post_reports_a_streak_of_at_least_one JS.utc JS.parse
              (mkInsertUserProgress (Some "u1") (Some "r1") 20 None)
              "p-2" 1709337600000 1709337600500 Fixtures.oneRow "u1" eq_refl Hp)
    as (streak & flag & Hh & Hone & _).
  exists streak, flag. split; [exact (f_equal fst Hh)|exact Hone].
Defined.

(** X8. The first completion of the month gets the flag: when the user
    named has no row in the calendar month of the handler's clock other
    than rows of that very day, and the row just created falls on that
    day, the reply carries [isFirstOfMonth = true]. *)
Theorem post_flags_the_first_completion_of_the_month
    (tz : JS.TimeZone) (DateParse : string -> JS.Date)
    (progress : InsertUserProgress) (ident : string) (created now : Z)
    (st : State) (uid : string)
    (Huser : orNull (newUserId progress) = Some uid)
    (Hparse : DateParse (JSText.toISOString created) = Some created)
    (Htoday : Calendar.sameDay tz created now)
    (Hearlier : forall row t,
        row ∈ getUserProgress uid st ->
        ProgressStats.newDate DateParse row = Some t ->
        Calendar.inMonth tz now t -> Calendar.sameDay tz t now) :
  exists streak,
    handle tz DateParse (Some progress) ident created now st
    = (Json (fst (createUserProgress ident created progress st)) streak true,
       snd (createUserProgress ident created progress st)).
Proof.
  eexists. rewrite (PostFacts.handle_named _ _ _ _ _ _ _ uid Huser). cbn zeta.
  rewrite StatsFacts.dates_validTimes.
  rewrite PostFacts.firstOfMonth_all_today; [reflexivity| |].
  - exists created. split.
    + apply (PostFacts.validTimes_elem DateParse _
               (fst (createUserProgress ident created progress st)));
        [apply StorageFacts.getUserProgress_new, Huser|exact Hparse].
    + apply CalendarFacts.sameDay_inMonth, Htoday.
  - intros t Ht Hm. apply PostFacts.validTimes_inv in Ht as (row & Hin & Hp).
    apply StorageFacts.getUserProgress_after in Hin as [->|Hin].
    + unfold ProgressStats.newDate in Hp. cbn in Hp.
      rewrite Hparse in Hp. injection Hp as <-. exact Htoday.
    + exact (Hearlier row t Hin Hp Hm).
Qed.

Lemma post_flags_the_first_completion_of_the_month_witness :
  exists streak,
    handle JS.utc JS.parse
      (Some (mkInsertUserProgress (Some "u1") (Some "r1") 20 None))
      "p-2" 1709294400000 1709294400500 Fixtures.oneRow
    = (Json (fst (createUserProgress "p-2" 1709294400000
                    (mkInsertUserProgress (Some "u1") (Some "r1") 20 None)
                    Fixtures.oneRow)) streak true,
       snd (createUserProgress "p-2" 1709294400000
              (mkInsertUserProgress (Some "u1") (Some "r1") 20 None)
              Fixtures.oneRow)).
Proof.
  apply (post_flags_the_first_completion_of_the_month JS.utc JS.parse
           (mkInsertUserProgress (Some "u1") (Some "r1") 20 None)
           "p-2" 1709294400000 1709294400500 Fixtures.oneRow "u1").
  - reflexivity.
  - vm_compute. reflexivity.
  - repeat split; vm_compute; reflexivity.
  - intros row t Hin Hp _.
    change (getUserProgress "u1" Fixtures.oneRow)
      with [Schema.mkUserProgress "p-1" (Some "u1") None
              (Some "2024-03-01T00:00:00.000Z") 15 None] in Hin.
    apply list_elem_of_singleton in Hin. subst row.
    vm_compute in Hp. injection Hp as <-.
    repeat split; vm_compute; reflexivity.
Defined.

(** X9. A later completion of the month does not get the flag: when the
    user named already has a row that parses to an earlier date of the
    calendar month of the handler's clock, the reply carries
    [isFirstOfMonth = false]. The host's time zone is one in which a later
    instant never falls on an earlier local day, and the identifier drawn
    is fresh. *)
Theorem post_does_not_flag_a_later_completion
    (tz : JS.TimeZone) (DateParse : string -> JS.Date)
    (progress : InsertUserProgress) (ident : string) (created now : Z)
    (st : State) (uid : string) (old : Schema.UserProgress) (tOld : Z)
    (Hmono : Calendar.MonotoneDays tz)
    (Huser : orNull (newUserId progress) = Some uid)
    (Hfresh : JSMap.get ident (userProgress st) = None)
    (Hold : old ∈ getUserProgress uid st)
    (Hparse : ProgressStats.newDate DateParse old = Some tOld)
    (Hmonth : Calendar.inMonth tz now tOld)
    (Hbefore : JS.getDate tz tOld < JS.getDate tz now) :
  exists streak,
    handle tz DateParse (Some progress) ident created now st
    = (Json (fst (createUserProgress ident created progress st)) streak false,
       snd (createUserProgress ident created progress st)).
Proof.
  eexists. rewrite (PostFacts.handle_named _ _ _ _ _ _ _ uid Huser). cbn zeta.
  rewrite StatsFacts.dates_validTimes.
  assert (Hin : tOld ∈ Stats.validTimes DateParse
                  (getUserProgress uid
                     (snd (createUserProgress ident created progress st)))).
  { apply (PostFacts.validTimes_elem DateParse _ old); [|exact Hparse].
    rewrite (StorageFacts.getUserProgress_fresh ident created progress st uid
               Hfresh).
    apply elem_of_app. left. exact Hold. }
  rewrite (not_true_is_false
             (ProgressStats.computeIsFirstOfMonth tz _ now)); [reflexivity|].
  rewrite (CalendarFacts.firstOfMonth_by_day tz _ now Hmono).
  intros (t & Ht & Htm & Hmin & (_ & _ & Hd)).
  specialize (Hmin tOld Hin Hmonth). lia.
Qed.

Lemma post_does_not_flag_a_later_completion_witness :
  exists streak,
    handle JS.utc JS.parse
      (Some (mkInsertUserProgress (Some "u1") (Some "r1") 20 None))
      "p-2" 1709337600000 1709337600500 Fixtures.oneRow
    = (Json (fst (createUserProgress "p-2" 1709337600000
                    (mkInsertUserProgress (Some "u1") (Some "r1") 20 None)
                    Fixtures.oneRow)) streak false,
       snd (createUserProgress "p-2" 1709337600000
              (mkInsertUserProgress (Some "u1") (Some "r1") 20 None)
              Fixtures.oneRow)).
Proof.
  apply (post_does_not_flag_a_later_completion JS.utc JS.parse
           (mkInsertUserProgress (Some "u1") (Some "r1") 20 None)
           "p-2" 1709337600000 1709337600500 Fixtures.oneRow "u1"
           (Schema.mkUserProgress "p-1" (Some "u1") None
              (Some "2024-03-01T00:00:00.000Z") 15 None)
           1709251200000).
  - exact CalendarFacts.utc_monotone.
  - reflexivity.
  - reflexivity.
  - change (getUserProgress "u1" Fixtures.oneRow)
      with [Schema.mkUserProgress "p-1" (Some "u1") None
              (Some "2024-03-01T00:00:00.000Z") 15 None].
    apply list_elem_of_singleton. reflexivity.
  - vm_compute. reflexivity.
  - split; vm_compute; reflexivity.
  - vm_compute. reflexivity.
Defined.

End PostProperties.

(** ** The reminder job and its day string *)

Section ReminderProperties.
Import Storage.

(** X10. For a local year of four digits, [getLocalDayString] prints ten
    characters that [Date] reads back as the local calendar day, and two
    instants get the same string exactly when they fall on the same
    local calendar day. *)
Theorem day_string_names_the_local_day (tz : JS.TimeZone) (a b : Z) :
  1000 <= JS.getFullYear tz a <= 9999 ->
  1000 <= JS.getFullYear tz b <= 9999 ->
  String.length (Scheduler.getLocalDayString tz a) = 10%nat
  /\ JS.parse (Scheduler.getLocalDayString tz a)
     = Some (Calendar.localDay tz a * JS.msPerDay)
  /\ (Scheduler.getLocalDayString tz a = Scheduler.getLocalDayString tz b
      <-> Calendar.sameDay tz a b).
Proof.
  intros Ha Hb. split; [|split].
  - rewrite (IsoFacts.getLocalDayString_chars tz a Ha),
      TextFacts.length_string_of_list. apply IsoFacts.length_dateChars.
  - apply DayKeyFacts.parse_getLocalDayString, Ha.
  - split.
    + intros He.
      pose proof (DayKeyFacts.parse_getLocalDayString tz a Ha) as Pa.
      pose proof (DayKeyFacts.parse_getLocalDayString tz b Hb) as Pb.
      rewrite He, Pb in Pa. injection Pa as Pa.
      apply DayKeyFacts.msPerDay_cancel in Pa.
      unfold Calendar.sameDay, JS.getFullYear, JS.getMonth, JS.getDate.
      apply IsoFacts.fields_of_Day. symmetry. exact Pa.
    + intros (Ey & Em & Ed).
      rewrite (IsoFacts.getLocalDayString_chars tz a Ha),
        (IsoFacts.getLocalDayString_chars tz b Hb), Ey, Em, Ed. reflexivity.
Qed.

Lemma day_string_names_the_local_day_witness :
  String.length (Scheduler.getLocalDayString (fun _ => 19800000) 1709323200000)
  = 10%nat
  /\ JS.parse (Scheduler.getLocalDayString (fun _ => 19800000) 1709323200000)
     = Some (Calendar.localDay (fun _ => 19800000) 1709323200000 * JS.msPerDay)
  /\ (Scheduler.getLocalDayString (fun _ => 19800000) 1709323200000
      = Scheduler.getLocalDayString (fun _ => 19800000) 1709337600000
      <-> Calendar.sameDay (fun _ => 19800000) 1709323200000 1709337600000).
Proof.
  apply (day_string_names_the_local_day (fun _ => 19800000)
           1709323200000 1709337600000); vm_compute; split; discriminate.
Defined.

(** X11. The reminder job looks a user's day up under the local date, while
    [POST /api/progress] files it under the first ten characters of
    [toISOString], the UTC date. For years of four digits the two keys of
    one instant are the same string exactly when the local and the UTC
    calendar day of that instant are the same day. *)
Theorem reminder_key_is_the_posted_key_iff_local_day_is_utc_day
    (tz : JS.TimeZone) (t : Z) :
  1000 <= JS.getFullYear tz t <= 9999 ->
  0 <= JS.YearFromTime t <= 9999 ->
  (Scheduler.getLocalDayString tz t = PostHandler.dayKey t
   <-> Calendar.localDay tz t = JS.Day t).
Proof.
  intros Hl Hu. split.
  - intros He.
    pose proof (DayKeyFacts.parse_getLocalDayString tz t Hl) as Pl.
    pose proof (DayKeyFacts.parse_dayKey t Hu) as Pu.
    rewrite He, Pu in Pl. injection Pl as Pl.
    apply DayKeyFacts.msPerDay_cancel in Pl. symmetry. exact Pl.
  - intros He.
    destruct (IsoFacts.fields_of_Day (JS.LocalTime tz t) t He) as (Ey & Em & Ed).
    rewrite (IsoFacts.getLocalDayString_chars tz t Hl).
    unfold PostHandler.dayKey. rewrite (IsoFacts.sliceTo_toISOString t Hu).
    unfold JS.getFullYear, JS.getMonth, JS.getDate. rewrite Ey, Em, Ed.
    reflexivity.
Qed.

Lemma reminder_key_is_the_posted_key_iff_local_day_is_utc_day_witness :
  (Scheduler.getLocalDayString (fun _ => 19800000) 1709323200000
   = PostHandler.dayKey 1709323200000
   <-> Calendar.localDay (fun _ => 19800000) 1709323200000
       = JS.Day 1709323200000)
  /\ Scheduler.getLocalDayString (fun _ => 19800000) 1709323200000 = "2024-03-02"
  /\ PostHandler.dayKey 1709323200000 = "2024-03-01".
Proof.
  split; [|split; vm_compute; reflexivity].
  apply (reminder_key_is_the_posted_key_iff_local_day_is_utc_day
           (fun _ => 19800000) 1709323200000); vm_compute; split; discriminate.
Defined.

(** X12. One run of the reminder job: without a database it does nothing;
    otherwise it counts at most one reminder per stored user, the
    transport accepts no more mails than it counts, and every mail it
    hands over is an exercise reminder to the address of a stored user
    who has one and for whom [daily_progress] holds no document under
    today's local day string. *)
Theorem reminder_job_spares_users_done_today (tz : JS.TimeZone)
    (env : Mailer.Env) (db : option (string -> string -> Scheduler.Lookup))
    (st : State) (now : Z) :
  let r := Scheduler.job tz env db st now in
  0 <= Scheduler.sent r <= Z.of_nat (length (listUsers st))
  /\ Z.of_nat (length (Scheduler.delivered r)) <= Scheduler.sent r
  /\ (db = None -> Scheduler.delivered r = [] /\ Scheduler.sent r = 0)
  /\ forall m, m ∈ Scheduler.delivered r ->
       Mailer.kind m = Mailer.ExerciseReminder
       /\ Mailer.configured env = true
       /\ exists findOne u,
            db = Some findOne
            /\ u ∈ listUsers st
            /\ email u = Some (Mailer.recipient m)
            /\ Mailer.recipient m <> EmptyString
            /\ Mailer.greeted m = username u
            /\ findOne (userIdent u) (Scheduler.getLocalDayString tz now)
               = Scheduler.Missing.
Proof.
  cbn zeta. unfold Scheduler.job. destruct db as [findOne|].
  - destruct (RemindFacts.remind_spec env findOne
                (Scheduler.getLocalDayString tz now) (listUsers st)
                (Scheduler.mkRun [] 0 false)) as (H1 & H2 & H3).
    cbn [Scheduler.sent Scheduler.delivered length] in H1, H2.
    split; [lia|]. split; [lia|]. split; [discriminate|].
    intros m Hm. destruct (H3 m Hm) as [Hl|(Hc & u & Hu & Hk & He & Hne & Hg & Hf)].
    + cbn in Hl. inversion Hl.
    + split; [exact Hk|]. split; [exact Hc|]. exists findOne, u.
      repeat split; assumption.
  - cbn. split; [lia|]. split; [lia|]. split; [split; reflexivity|].
    intros m Hm. inversion Hm.
Qed.

(** X13. [POST /api/notify/reminders] reports as [sent] the number of
    recipients that have a non-empty address and as [total] the number of
    recipients, whatever the mailer does: the transport accepts at most
    [sent] mails, and none at all when no SMTP host is configured. *)
Theorem reminders_reply_counts_addresses_not_deliveries (env : Mailer.Env)
    (source : Reminders.Source) (st : State) :
  let reply := fst (Reminders.handle env source st) in
  let mails := snd (Reminders.handle env source st) in
  Reminders.replySent reply
  = Z.of_nat (length (filter (fun u => Remind.addressed u = true)
                             (Reminders.recipients source st)))
  /\ Reminders.replyTotal reply
     = Z.of_nat (length (Reminders.recipients source st))
  /\ 0 <= Reminders.replySent reply <= Reminders.replyTotal reply
  /\ Z.of_nat (length mails) <= Reminders.replySent reply
  /\ (Mailer.configured env = false -> mails = []).
Proof.
  cbn zeta. unfold Reminders.handle. cbn [fst snd Reminders.replySent Reminders.replyTotal].
  destruct (RemindFacts.handle_spec env (Reminders.recipients source st))
    as (H1 & H2 & H3).
  split; [exact H1|]. split; [reflexivity|]. split; [|split; [exact H2|exact H3]].
  rewrite H1. pose proof (length_filter (fun u => Remind.addressed u = true)
                            (Reminders.recipients source st)). lia.
Qed.

End ReminderProperties.

(** ** The connection holder and the port *)

Section StartupProperties.

(** X14. Whatever calls of [connectMongo] and [closeMongo] came before,
    a database [getDb] returns belongs to the client the module holds and
    was obtained by a call of [connectMongo] with its URI and name that
    connected. *)
Theorem getDb_is_the_database_of_the_client_held (calls : list MongoConn.Call)
    (d : MongoConn.Db) :
  MongoConn.getDb (MongoConn.run calls) = Some d ->
  MongoConn.client (MongoConn.run calls) = Some (MongoConn.dbUri d)
  /\ MongoConn.Connect (MongoConn.dbUri d) (MongoConn.dbName d) MongoConn.Connects
     ∈ calls.
Proof.
  intros H. split.
  - apply ConnFacts.coherent_run, H.
  - apply ConnFacts.obtained_run, H.
Qed.

Lemma getDb_is_the_database_of_the_client_held_witness :
  MongoConn.client
    (MongoConn.run [MongoConn.Connect "mongodb://a" "flexflow" MongoConn.Refused;
                    MongoConn.Connect "mongodb://b" "flexflow" MongoConn.Connects;
                    MongoConn.Close false])
  = Some "mongodb://b"
  /\ MongoConn.Connect "mongodb://b" "flexflow" MongoConn.Connects
     ∈ [MongoConn.Connect "mongodb://a" "flexflow" MongoConn.Refused;
        MongoConn.Connect "mongodb://b" "flexflow" MongoConn.Connects;
        MongoConn.Close false].
Proof.
  apply (getDb_is_the_database_of_the_client_held
           [MongoConn.Connect "mongodb://a" "flexflow" MongoConn.Refused;
            MongoConn.Connect "mongodb://b" "flexflow" MongoConn.Connects;
            MongoConn.Close false]
           (MongoConn.mkDb "mongodb://b" "flexflow")).
  reflexivity.
Defined.

(** X15. Once a database is held, [connectMongo] ignores its arguments:
    whatever URI and name it is given and whatever a new connection would
    meet, it returns the database held and changes nothing. *)
Theorem connectMongo_returns_the_database_held (calls : list MongoConn.Call)
    (d : MongoConn.Db) (uri name : string) (attempt : MongoConn.Attempt) :
  MongoConn.getDb (MongoConn.run calls) = Some d ->
  MongoConn.connectMongo uri name attempt (MongoConn.run calls)
  = (Some d, MongoConn.run calls).
Proof.
  unfold MongoConn.getDb. intros H.
  pose proof (ConnFacts.coherent_run calls d H) as Hc.
  unfold MongoConn.connectMongo. rewrite Hc, H. reflexivity.
Qed.

Lemma connectMongo_returns_the_database_held_witness :
  MongoConn.connectMongo "mongodb://other" "yoga" MongoConn.Refused
    (MongoConn.run [MongoConn.Connect "mongodb://b" "flexflow" MongoConn.Connects])
  = (Some (MongoConn.mkDb "mongodb://b" "flexflow"),
     MongoConn.run [MongoConn.Connect "mongodb://b" "flexflow" MongoConn.Connects]).
Proof.
  apply (connectMongo_returns_the_database_held
           [MongoConn.Connect "mongodb://b" "flexflow" MongoConn.Connects]).
  reflexivity.
Defined.

(** X16. The start-up always ends, and it serves on port [p] exactly when
    [p] is the first port from the configured one that is not in use, is
    at most five above it, and [listen] on it succeeds: five retries, six
    ports tried at most. *)
Theorem start_serves_on_the_first_free_port (listen : Z -> Server.Listen)
    (port : Z) :
  Server.start listen port <> Server.OutOfFuel
  /\ forall p,
       Server.start listen port = Server.Serving p
       <-> port <= p <= port + 5
           /\ listen p = Server.Listening
           /\ forall q, port <= q < p -> listen q = Server.AddrInUse.
Proof.
  unfold Server.start.
  destruct (ServerFacts.tryListen_spec listen 5 port 0 eq_refl) as (H1 & H2 & _).
  split; [exact H1|exact H2].
Qed.

(** X17. When the start-up gives up on port [p], every port from the
    configured one up to [p] was tried and was in use or failed: it never
    gives up while a port it may try is free. *)
Theorem start_crashes_only_without_a_free_port (listen : Z -> Server.Listen)
    (port p : Z) :
  Server.start listen port = Server.Crashed p ->
  port <= p <= port + 5
  /\ forall q, port <= q <= p -> listen q <> Server.Listening.
Proof.
  unfold Server.start. intros H.
  destruct (ServerFacts.tryListen_spec listen 5 port 0 eq_refl) as (_ & _ & H3).
  destruct (H3 p H) as (Hr & Hl & Hq). split; [exact Hr|].
  intros q Hq'. destruct (Z.eq_dec q p) as [->|Hne]; [exact Hl|].
  rewrite (Hq q) by lia. discriminate.
Qed.

Lemma start_crashes_only_without_a_free_port_witness :
  5000 <= 5005 <= 5000 + 5
  /\ forall q, 5000 <= q <= 5005 ->
       (fun _ : Z => Server.AddrInUse) q <> Server.Listening.
Proof.
  apply (start_crashes_only_without_a_free_port (fun _ => Server.AddrInUse) 5000 5005).
  reflexivity.
Defined.

End StartupProperties.

(** ** Registration and login *)

Section AccountProperties.
Import Storage.

(** X18. The handler checks the name before it awaits [bcrypt.hash] and
    does not check it again before [createUser]. With the names of the
    store distinct and a fresh identifier, they are distinct after the
    second half exactly when the hash failed or nobody held the name when
    [createUser] ran; so they stay distinct when the check read the very
    store [createUser] writes, no other request having changed it in
    between. *)
Theorem registration_keeps_usernames_distinct_iff_the_name_is_still_free
    (input : InsertUser) (hash : string -> Auth.Try string) (ident : string)
    (mirror : Auth.Mirror) (st : State) :
  NoDup (username <$> listUsers st) ->
  getUser ident st = None ->
  let st' := snd (Auth.registerCreate input hash ident mirror st) in
  (NoDup (username <$> listUsers st')
   <-> getUserByUsername (newUsername input) st = None
       \/ exists message, hash (newPassword input) = Auth.Throws message)
  /\ forall body precheck,
       Auth.registerCheck body precheck st = Auth.Hashing input ->
       NoDup (username <$> listUsers st').
Proof.
  intros Hnd Hfresh. cbn zeta.
  assert (Hiff : NoDup (username <$> listUsers
                          (snd (Auth.registerCreate input hash ident mirror st)))
                 <-> getUserByUsername (newUsername input) st = None
                     \/ exists message, hash (newPassword input) = Auth.Throws message).
  { destruct (hash (newPassword input)) as [message|h] eqn:Eh.
    - unfold Auth.registerCreate. rewrite Eh. cbn [snd].
      split; [intros _; right; exists message; reflexivity|intros _; exact Hnd].
    - rewrite (AuthFacts.registerCreate_hashed input hash ident mirror st h Eh).
      cbn [snd].
      rewrite (AuthFacts.NoDup_names_createUser_iff ident
                 (mkInsertUser (newUsername input) h (newEmail input)) st
                 Hfresh Hnd).
      cbn [newUsername]. split; [intros H; left; exact H|].
      intros [H|[message H]]; [exact H|discriminate]. }
  split; [exact Hiff|].
  intros body precheck Hcheck. apply Hiff. left.
  apply (AuthFacts.registerCheck_Hashing body precheck st input Hcheck).
Qed.

Lemma registration_keeps_usernames_distinct_iff_the_name_is_still_free_witness :
  (NoDup (username <$> listUsers
            (snd (Auth.registerCreate (mkInsertUser "asha" "secret" None)
                    (fun p => Auth.Returns ("#" +:+ p)) "u2" Auth.NoMirror
                    Fixtures.withAsha)))
   <-> getUserByUsername "asha" Fixtures.withAsha = None
       \/ exists message, Auth.Returns ("#" +:+ "secret") = Auth.Throws message)
  /\ forall body precheck,
       Auth.registerCheck body precheck Fixtures.withAsha
       = Auth.Hashing (mkInsertUser "asha" "secret" None) ->
       NoDup (username <$> listUsers
                (snd (Auth.registerCreate (mkInsertUser "asha" "secret" None)
                        (fun p => Auth.Returns ("#" +:+ p)) "u2" Auth.NoMirror
                        Fixtures.withAsha))).
Proof.
  apply (registration_keeps_usernames_distinct_iff_the_name_is_still_free
           (mkInsertUser "asha" "secret" None)
           (fun p => Auth.Returns ("#" +:+ p)) "u2" Auth.NoMirror
           Fixtures.withAsha).
  - vm_compute. apply NoDup_singleton.
  - reflexivity.
Defined.

(** X19. A registration answered with 201 lets its user log in only if
    nobody held the name when [createUser] ran. For a non-empty name and
    password and a [bcrypt] whose [compare] accepts the password against
    the non-empty hash [hash] made of it: if the name was free then, the
    login on the store left answers 200 with the user registered; if
    another user held it (a registration that overlapped), the login is
    answered as before this registration, against the hash of that other
    user, and with 401 when [compare] turns the password down. *)
Theorem registered_user_can_log_in_iff_the_name_was_free (input : InsertUser)
    (lookup : Auth.Db (option Reminders.MongoUser))
    (hash : string -> Auth.Try string) (compare : string -> string -> Auth.Try bool)
    (ident : string) (mirror : Auth.Mirror) (st st' : State)
    (resp : Auth.UserResponse) :
  Auth.registerCreate input hash ident mirror st = (Auth.Success 201 resp, st') ->
  getUser ident st = None ->
  newUsername input <> EmptyString ->
  newPassword input <> EmptyString ->
  (forall h, hash (newPassword input) = Auth.Returns h ->
             h <> EmptyString /\ compare (newPassword input) h = Auth.Returns true) ->
  (getUserByUsername (newUsername input) st = None ->
   Auth.login (Some (newUsername input)) (Some (newPassword input)) lookup compare st'
   = Auth.Success 200 resp)
  /\ (forall other,
        getUserByUsername (newUsername input) st = Some other ->
        getUserByUsername (newUsername input) st' = Some other
        /\ Auth.login (Some (newUsername input)) (Some (newPassword input))
             lookup compare st'
           = Auth.login (Some (newUsername input)) (Some (newPassword input))
               lookup compare st
        /\ (compare (newPassword input) (Storage.password other) = Auth.Returns false ->
            Auth.login (Some (newUsername input)) (Some (newPassword input))
              lookup compare st'
            = Auth.Failure 401 "Invalid credentials")).
Proof.
  intros Hreg Hfresh Hname Hpass Hbcrypt.
  destruct (AuthFacts.registerCreate_success _ _ _ _ _ _ _ _ Hreg)
    as (h & Hhash & -> & ->).
  destruct (Hbcrypt h Hhash) as [Hh Hcmp].
  split.
  - intros Hnone.
    pose proof (AuthFacts.getUserByUsername_createUser ident
                  (mkInsertUser (newUsername input) h (newEmail input)) st Hnone)
      as Hget.
    cbn [newUsername] in Hget.
    unfold Auth.login.
    rewrite (AuthFacts.orNull_filled _ Hname), (AuthFacts.orNull_filled _ Hpass).
    cbn zeta. rewrite Hget.
    cbn [Storage.password createUser fst newUsername newPassword newEmail].
    rewrite (AuthFacts.orNull_filled _ Hh), Hcmp. reflexivity.
  - intros other Hheld.
    pose proof (AuthFacts.getUserByUsername_createUser_held ident
                  (mkInsertUser (newUsername input) h (newEmail input)) st other
                  Hfresh Hheld) as Hget.
    cbn [newUsername] in Hget.
    assert (Hlogin : forall s,
               getUserByUsername (newUsername input) s = Some other ->
               Auth.login (Some (newUsername input)) (Some (newPassword input))
                 lookup compare s
               = match orNull (Some (Storage.password other)) with
                 | None => Auth.Failure 401 "Invalid credentials"
                 | Some h0 =>
                     match compare (newPassword input) h0 with
                     | Auth.Throws message =>
                         Auth.Failure 500 (Auth.orMessage message "Login failed")
                     | Auth.Returns false => Auth.Failure 401 "Invalid credentials"
                     | Auth.Returns true => Auth.Success 200 (Auth.withoutPassword other)
                     end
                 end).
    { intros s Hs. unfold Auth.login.
      rewrite (AuthFacts.orNull_filled _ Hname), (AuthFacts.orNull_filled _ Hpass).
      cbn zeta. rewrite Hs. reflexivity. }
    split; [exact Hget|]. split.
    + rewrite (Hlogin _ Hget), (Hlogin _ Hheld). reflexivity.
    + intros Hno. rewrite (Hlogin _ Hget).
      destruct (Storage.password other) as [|c rest] eqn:Ep; [reflexivity|].
      cbn [orNull]. rewrite Hno. reflexivity.
Qed.

Lemma registered_user_can_log_in_iff_the_name_was_free_witness :
  Auth.login (Some "bela") (Some "secret") Auth.NoDb
    (fun p h => Auth.Returns (bool_decide (h = "#" +:+ p)))
    (snd (Auth.registerCreate (mkInsertUser "bela" "secret" None)
            (fun p => Auth.Returns ("#" +:+ p)) "u2" Auth.NoMirror
            Fixtures.withAsha))
  = Auth.Success 200 (Auth.mkUserResponse "u2" "bela" None)
  /\ Auth.login (Some "asha") (Some "secret") Auth.NoDb
       (fun p h => Auth.Returns (bool_decide (h = "#" +:+ p)))
       (snd (Auth.registerCreate (mkInsertUser "asha" "secret" None)
               (fun p => Auth.Returns ("#" +:+ p)) "u2" Auth.NoMirror
               Fixtures.withAsha))
     = Auth.Failure 401 "Invalid credentials".
Proof.
  split.
  - apply (proj1 (registered_user_can_log_in_iff_the_name_was_free
                    (mkInsertUser "bela" "secret" None)
                    Auth.NoDb (fun p => Auth.Returns ("#" +:+ p))
                    (fun p h => Auth.Returns (bool_decide (h = "#" +:+ p)))
                    "u2" Auth.NoMirror Fixtures.withAsha _ _
                    eq_refl eq_refl ltac:(discriminate) ltac:(discriminate)
                    ltac:(intros h [= <-]; split; [discriminate|reflexivity]))).
    reflexivity.
  - apply (proj2 (registered_user_can_log_in_iff_the_name_was_free
                    (mkInsertUser "asha" "secret" None)
                    Auth.NoDb (fun p => Auth.Returns ("#" +:+ p))
                    (fun p h => Auth.Returns (bool_decide (h = "#" +:+ p)))
                    "u2" Auth.NoMirror Fixtures.withAsha _ _
                    eq_refl eq_refl ltac:(discriminate) ltac:(discriminate)
                    ltac:(intros h [= <-]; split; [discriminate|reflexivity]))
                 (mkUser "id-1" "asha" "h1" None) eq_refl).
    reflexivity.
Defined.

(** X20. There is no rollback when the Mongo mirror reports a duplicate
    key: the second half answers 400, yet the user it created stays in
    the store under its identifier, so the name is held afterwards (by
    that user when nobody held it before) and a registration whose check
    reads the store so left is turned down. *)
Theorem rejected_mirror_leaves_the_user_in_the_store (input : InsertUser)
    (hash : string -> Auth.Try string) (ident h : string) (st : State) :
  hash (newPassword input) = Auth.Returns h ->
  let created := mkUser ident (newUsername input) h (newEmail input) in
  let reply := fst (Auth.registerCreate input hash ident Auth.DuplicateKey st) in
  let st' := snd (Auth.registerCreate input hash ident Auth.DuplicateKey st) in
  reply = Auth.Failure 400 "Username already taken"
  /\ getUser ident st' = Some created
  /\ created ∈ listUsers st'
  /\ is_Some (getUserByUsername (newUsername input) st')
  /\ (getUserByUsername (newUsername input) st = None ->
      getUserByUsername (newUsername input) st' = Some created)
  /\ forall (again : InsertUser) precheck,
       newUsername again = newUsername input ->
       Auth.registerCheck (Auth.Returns again) precheck st'
       = Auth.Answered (Auth.Failure 400 "Username already taken").
Proof.
  intros Hhash. cbn zeta.
  rewrite (AuthFacts.registerCreate_hashed input hash ident Auth.DuplicateKey st h
             Hhash). cbn [fst snd].
  set (new := mkInsertUser (newUsername input) h (newEmail input)).
  assert (Hin : mkUser ident (newUsername input) h (newEmail input)
                ∈ listUsers (snd (createUser ident new st)))
    by (unfold listUsers; cbn; apply MapFacts.values_set_new).
  assert (Hheld : is_Some (getUserByUsername (newUsername input)
                             (snd (createUser ident new st))))
    by (apply (AuthFacts.find_named_held _ _ _ Hin); reflexivity).
  split; [reflexivity|]. split; [apply MapFacts.get_set_eq|].
  split; [exact Hin|]. split; [exact Hheld|]. split.
  - intros Hnone.
    apply (AuthFacts.getUserByUsername_createUser ident new st Hnone).
  - intros again precheck Hsame. apply AuthFacts.registerCheck_held.
    rewrite Hsame. exact Hheld.
Qed.

Lemma rejected_mirror_leaves_the_user_in_the_store_witness :
  fst (Auth.registerCreate (mkInsertUser "bela" "secret" None)
         (fun p => Auth.Returns ("#" +:+ p)) "u2" Auth.DuplicateKey
         Fixtures.withAsha)
  = Auth.Failure 400 "Username already taken"
  /\ getUserByUsername "bela"
       (snd (Auth.registerCreate (mkInsertUser "bela" "secret" None)
               (fun p => Auth.Returns ("#" +:+ p)) "u2" Auth.DuplicateKey
               Fixtures.withAsha))
     = Some (mkUser "u2" "bela" "#secret" None).
Proof.
  pose proof (rejected_mirror_leaves_the_user_in_the_store
                (mkInsertUser "bela" "secret" None)
                (fun p => Auth.Returns ("#" +:+ p)) "u2" "#secret"
                Fixtures.withAsha eq_refl) as (Hreply & _ & _ & _ & Hfound & _).
  split; [exact Hreply|exact (Hfound eq_refl)].
Defined.



(** X22. Two registrations of one name that overlap are both answered
    with 201. When both checks read the store before either [createUser]
    runs (each handler is waiting for [bcrypt.hash]), both hashes are
    made, the identifiers are fresh and distinct and no mirror reports a
    duplicate, both users are stored, the names of the store are no longer
    distinct, and [getUserByUsername] finds the one created first. *)
Theorem overlapping_registrations_both_create
    (bodyA bodyB : Auth.Try InsertUser)
    (precheckA precheckB : Auth.Db (option Reminders.MongoUser))
    (a b : InsertUser) (hashA hashB : string -> Auth.Try string)
    (identA identB hA hB : string) (mirrorA mirrorB : Auth.Mirror) (st : State) :
  Auth.registerCheck bodyA precheckA st = Auth.Hashing a ->
  Auth.registerCheck bodyB precheckB st = Auth.Hashing b ->
  newUsername a = newUsername b ->
  hashA (newPassword a) = Auth.Returns hA ->
  hashB (newPassword b) = Auth.Returns hB ->
  mirrorA <> Auth.DuplicateKey ->
  mirrorB <> Auth.DuplicateKey ->
  getUser identA st = None ->
  getUser identB st = None ->
  identA <> identB ->
  let userA := mkUser identA (newUsername a) hA (newEmail a) in
  let userB := mkUser identB (newUsername b) hB (newEmail b) in
  let first := Auth.registerCreate a hashA identA mirrorA st in
  let second := Auth.registerCreate b hashB identB mirrorB (snd first) in
  fst first = Auth.Success 201 (Auth.withoutPassword userA)
  /\ fst second = Auth.Success 201 (Auth.withoutPassword userB)
  /\ listUsers (snd second) = listUsers st ++ [userA; userB]
  /\ ~ NoDup (username <$> listUsers (snd second))
  /\ getUserByUsername (newUsername b) (snd second) = Some userA.
Proof.
  intros HcheckA HcheckB Hsame HhashA HhashB HmirrorA HmirrorB HfreshA HfreshB Hne.
  cbn zeta.
  destruct (AuthFacts.registerCheck_Hashing _ _ _ _ HcheckA) as [_ HfreeA].
  rewrite (AuthFacts.registerCreate_hashed a hashA identA mirrorA st hA HhashA).
  cbn [fst snd].
  set (newA := mkInsertUser (newUsername a) hA (newEmail a)).
  set (newB := mkInsertUser (newUsername b) hB (newEmail b)).
  rewrite (AuthFacts.registerCreate_hashed b hashB identB mirrorB
             (snd (createUser identA newA st)) hB HhashB).
  cbn [fst snd]. fold newB.
  assert (HfreshB' : getUser identB (snd (createUser identA newA st)) = None).
  { unfold getUser. cbn. rewrite MapFacts.get_set_ne by exact Hne. exact HfreshB. }
  assert (Hlist : listUsers (snd (createUser identB newB
                                    (snd (createUser identA newA st))))
                  = listUsers st
                    ++ [mkUser identA (newUsername a) hA (newEmail a);
                        mkUser identB (newUsername b) hB (newEmail b)]).
  { rewrite (AuthFacts.listUsers_createUser identB newB _ HfreshB'),
      (AuthFacts.listUsers_createUser identA newA st HfreshA), <- app_assoc.
    reflexivity. }
  split; [destruct mirrorA; [reflexivity|reflexivity|contradiction|reflexivity]|].
  split; [destruct mirrorB; [reflexivity|reflexivity|contradiction|reflexivity]|].
  split; [exact Hlist|]. split.
  - rewrite Hlist, fmap_app. cbn. rewrite Hsame. intros Hnd.
    apply NoDup_app in Hnd as (_ & _ & Hnd).
    apply NoDup_cons in Hnd as [Hnotin _]. apply Hnotin. left.
  - pose proof (AuthFacts.getUserByUsername_createUser identA newA st HfreeA)
      as HgetA.
    cbn [newUsername newA] in HgetA. rewrite Hsame in HgetA.
    apply (AuthFacts.getUserByUsername_createUser_held identB newB _ _ HfreshB').
    cbn [newUsername newB]. rewrite HgetA. cbn [createUser fst newUsername
      newPassword newEmail newA]. rewrite Hsame. reflexivity.
Qed.

Lemma overlapping_registrations_both_create_witness :
  fst (Auth.registerCreate (mkInsertUser "zed" "one" None)
         (fun p => Auth.Returns ("#" +:+ p)) "u2" Auth.NoMirror Fixtures.withAsha)
  = Auth.Success 201 (Auth.mkUserResponse "u2" "zed" None)
  /\ fst (Auth.registerCreate (mkInsertUser "zed" "two" None)
            (fun p => Auth.Returns ("#" +:+ p)) "u3" Auth.NoMirror
            (snd (Auth.registerCreate (mkInsertUser "zed" "one" None)
                    (fun p => Auth.Returns ("#" +:+ p)) "u2" Auth.NoMirror
                    Fixtures.withAsha)))
     = Auth.Success 201 (Auth.mkUserResponse "u3" "zed" None)
  /\ username <$> listUsers
        (snd (Auth.registerCreate (mkInsertUser "zed" "two" None)
                (fun p => Auth.Returns ("#" +:+ p)) "u3" Auth.NoMirror
                (snd (Auth.registerCreate (mkInsertUser "zed" "one" None)
                        (fun p => Auth.Returns ("#" +:+ p)) "u2" Auth.NoMirror
                        Fixtures.withAsha))))
     = ["asha"; "zed"; "zed"].
Proof.
  pose proof (overlapping_registrations_both_create
                (Auth.Returns (mkInsertUser "zed" "one" None))
                (Auth.Returns (mkInsertUser "zed" "two" None))
                Auth.NoDb Auth.NoDb
                (mkInsertUser "zed" "one" None) (mkInsertUser "zed" "two" None)
                (fun p => Auth.Returns ("#" +:+ p))
                (fun p => Auth.Returns ("#" +:+ p))
                "u2" "u3" "#one" "#two" Auth.NoMirror Auth.NoMirror
                Fixtures.withAsha
                eq_refl eq_refl eq_refl eq_refl eq_refl
                ltac:(discriminate) ltac:(discriminate) eq_refl eq_refl
                ltac:(discriminate)) as (HA & HB & Hlist & _).
  split; [exact HA|]. split; [exact HB|].
  rewrite Hlist. reflexivity.
Defined.

End AccountProperties.

(** ** The longest streak on events within half a day *)

(** X23. For events under one UTC offset whose local times of day all lie
    within one window of twelve hours (date-only timestamps are such),
    the longest streak is the greatest length of a run of
    consecutive calendar days among the event days, the run that ends at
    the last element included. With events on 2024-03-01, -02, -03, -08,
    -09, -10 and the reference time 2024-03-10 the result is
    [currentStreak = 3], [longestStreak = 3]; with events on 2024-03-03,
    -04, -05 and the reference time 2024-03-05 it is [currentStreak = 3],
    [longestStreak = 3]. *)
Theorem longest_streak_is_max_run_of_days
    (tz : JS.TimeZone) (DateParse : string -> JS.Date)
    (docs : list UserProgress) (now off a : Z)
    (Hal : Aligned.withinHalfDay tz off a (Stats.validTimes DateParse docs)) :
  (exists r, computeStreaks tz DateParse docs now = Some r
     /\ Runs.MaxRun (Calendar.localDay tz <$> Stats.validTimes DateParse docs)
                    (longestStreak r))
  /\ Scenario.stats
       [Scenario.event "2024-03-01"; Scenario.event "2024-03-02";
        Scenario.event "2024-03-03"; Scenario.event "2024-03-08";
        Scenario.event "2024-03-09"; Scenario.event "2024-03-10"]
       (Scenario.at_ "2024-03-10")
     = Some (mkStreakResult 3 3 false)
  /\ Scenario.stats
       [Scenario.event "2024-03-03"; Scenario.event "2024-03-04";
        Scenario.event "2024-03-05"]
       (Scenario.at_ "2024-03-05")
     = Some (mkStreakResult 3 3 false).
Proof.
  split; [|split; reflexivity].
  eexists. split; [apply StatsFacts.computeStreaks_total|]. cbn [longestStreak].
  rewrite StatsFacts.dates_validTimes.
  apply (AlignedFacts.longestOf_MaxRun (Calendar.localDay tz) (a - off)).
  apply AlignedFacts.withinHalfDay_aligned, Hal.
Qed.

Lemma longest_streak_is_max_run_of_days_witness :
  Aligned.withinHalfDay JS.utc 0 21600000
    (Stats.validTimes JS.parse
       [Scenario.event "2024-03-08T07:15:00.000Z";
        Scenario.event "2024-03-01T06:30:00.000Z";
        Scenario.event "2024-03-02T09:00:00.000Z";
        Scenario.event "2024-03-02T17:45:00.000Z"])
  /\ exists r,
       Scenario.stats [Scenario.event "2024-03-08T07:15:00.000Z";
                       Scenario.event "2024-03-01T06:30:00.000Z";
                       Scenario.event "2024-03-02T09:00:00.000Z";
                       Scenario.event "2024-03-02T17:45:00.000Z"] 0 = Some r
       /\ Runs.MaxRun [19790; 19783; 19784; 19784] (longestStreak r).
Proof.
  assert (Hal : Aligned.withinHalfDay JS.utc 0 21600000
                  (Stats.validTimes JS.parse
                     [Scenario.event "2024-03-08T07:15:00.000Z";
                      Scenario.event "2024-03-01T06:30:00.000Z";
                      Scenario.event "2024-03-02T09:00:00.000Z";
                      Scenario.event "2024-03-02T17:45:00.000Z"])).
  { repeat constructor; vm_compute; congruence. }
  split; [exact Hal|].
  exact (proj1 (longest_streak_is_max_run_of_days JS.utc JS.parse _ 0 0 21600000 Hal)).
Defined.
